(** * The TL1 command engine of the FlexILS client

    A shallow embedding of [services/infinera/flexils/commands/base.py],
    [commands/ots.py], [commands/sch.py] and [flexils/client.py]:
    the command registry, the serializer [to_string], the response parser
    [from_raw_text] with its quote-aware tokenizer, and the client facade
    with its eager and lazy method resolution.

    Python [str] values are modelled as [string]: sequences of code points
    below 256.  Character classes ([str.isspace], the regular expression
    classes [\s] and [\w], line boundaries, [str.lower]) are written out for
    that range.  Python dictionaries whose order is observable (parsed
    records, keyword arguments) are association lists with Python's
    update-in-place discipline; the registry is a [gmap].  Exceptions are
    values of an error monad.

    Two modules that the code imports are not among the sources.  Of
    [utils/fixed_params.py] the embedding needs [DEFAULT_CTAG], which is a
    parameter, and [TL1CompletionStatus], which follows the spec.  Of
    [exceptions.py] it needs [TL1CommandDeniedError], which carries the three
    values that [execute] passes to it.  The command classes embedded are
    those of [commands/ots.py], [commands/sch.py] and
    [commands/maintenance_state.py]; the first two modules inherit
    [to_string], the third overrides it.  Of the other command modules the
    renaming hooks of the response classes are embedded, of
    [utils/tl1_command_help_to_pydantic_generator.py] the reading of one
    template part, and of the callers [TnmsClient.flexils] and two
    functions of [products/services/optical_spectrum.py]. *)

From Stdlib Require Import Ascii String ZArith Lia Bool.
From stdpp Require Import gmap strings list pretty.

Local Open Scope string_scope.
Local Open Scope Z_scope.

(** ** Exceptions and the error monad *)

(** The exceptions that the embedded code raises, each with what it is
    raised with.  [Unmodelled] is no Python exception: it stands at the two
    places where the embedding stops (the [repr] of a list, a tag that is
    not a [str]), which no command validated by pydantic reaches. *)
Inductive exn : Type :=
  | ValueError (msg : string)
  | AttributeError (type_name attr : string)
  | TypeError_multiple_values (keyword : string)
  | IndexError
  | ValidationError (field : string)
  | Unmodelled (what : string)
  | TL1CommandDeniedError (device_uuid command response : string).

Inductive result (A : Type) : Type :=
  | Ok (a : A)
  | Raise (e : exn).
Arguments Ok {A} a.
Arguments Raise {A} e.

#[global] Instance result_ret : MRet result := fun A a => Ok a.
#[global] Instance result_bind : MBind result := fun A B k r =>
  match r with
  | Ok a => k a
  | Raise e => Raise e
  end.

(** The Python class name of an exception, as [type(e).__name__] gives it. *)
Definition exn_class (e : exn) : string :=
  match e with
  | ValueError _ => "ValueError"
  | AttributeError _ _ => "AttributeError"
  | TypeError_multiple_values _ => "TypeError"
  | IndexError => "IndexError"
  | ValidationError _ => "ValidationError"
  | Unmodelled _ => "Unmodelled"
  | TL1CommandDeniedError _ _ _ => "TL1CommandDeniedError"
  end.

(** The classes of which a built-in exception is an instance, by name and
    in the order of [type(e).__mro__]; [None] for the classes that are not
    built in, whose definitions are not among the sources. *)
Definition exn_mro (e : exn) : option (list string) :=
  match e with
  | ValueError _ => Some ["ValueError"; "Exception"; "BaseException"; "object"]
  | AttributeError _ _ => Some ["AttributeError"; "Exception"; "BaseException"; "object"]
  | TypeError_multiple_values _ => Some ["TypeError"; "Exception"; "BaseException"; "object"]
  | IndexError => Some ["IndexError"; "LookupError"; "Exception"; "BaseException"; "object"]
  | ValidationError _ | Unmodelled _ | TL1CommandDeniedError _ _ _ => None
  end.

(** ** Python's built-in string operations *)

Module Py.

Definition between (lo hi n : N) : bool := ((lo <=? n) && (n <=? hi))%N.

(** [str.isspace] on one character, which is also the class [\s]. *)
Definition isspace (c : ascii) : bool :=
  let n := N_of_ascii c in
  between 9 13 n || between 28 32 n || (n =? 133)%N || (n =? 160)%N.

(** The class [\w]: alphanumeric characters and the underscore. *)
Definition isword (c : ascii) : bool :=
  let n := N_of_ascii c in
  between 48 57 n || between 65 90 n || (n =? 95)%N || between 97 122 n
  || (n =? 170)%N || between 178 179 n || (n =? 181)%N
  || between 185 186 n || between 188 190 n
  || between 192 214 n || between 216 246 n || between 248 255 n.

(** Line boundaries of [str.splitlines] (the pair CR LF counts once). *)
Definition islinebreak (c : ascii) : bool :=
  let n := N_of_ascii c in
  between 10 13 n || between 28 30 n || (n =? 133)%N.

Definition lower_char (c : ascii) : ascii :=
  let n := N_of_ascii c in
  if between 65 90 n || between 192 214 n || between 216 222 n
  then ascii_of_N (n + 32) else c.

Fixpoint lower (s : string) : string :=
  match s with
  | EmptyString => EmptyString
  | String c s' => String (lower_char c) (lower s')
  end.

Definition len (s : string) : Z := Z.of_nat (String.length s).

(** [s.startswith(p)] *)
Fixpoint startswith (s p : string) {struct p} : bool :=
  match p, s with
  | EmptyString, _ => true
  | String _ _, EmptyString => false
  | String a p', String b s' => if Ascii.eqb a b then startswith s' p' else false
  end.

(** [s.endswith(p)] *)
Definition endswith (s p : string) : bool :=
  startswith (String.rev s) (String.rev p).

(** [s[n:]] for a non-negative [n] *)
Fixpoint drop (n : nat) (s : string) : string :=
  match n, s with
  | O, _ => s
  | S _, EmptyString => EmptyString
  | S n', String _ s' => drop n' s'
  end.

(** [s[:n]] for a non-negative [n] *)
Fixpoint take (n : nat) (s : string) : string :=
  match n, s with
  | O, _ => EmptyString
  | S _, EmptyString => EmptyString
  | S n', String c s' => String c (take n' s')
  end.

(** [s[1:-1]] *)
Definition strip_ends (s : string) : string :=
  take (String.length s - 2) (drop 1 s).

(** [s.find(sub)]: the lowest index at which [sub] occurs, or -1. *)
Fixpoint find_from (sub s : string) (i : Z) : Z :=
  if startswith s sub then i
  else match s with
       | EmptyString => -1
       | String _ s' => find_from sub s' (i + 1)
       end.
Definition find (s sub : string) : Z := find_from sub s 0.

(** [s.rfind(sub)]: the highest index at which [sub] occurs, or -1. *)
Fixpoint rfind_from (sub s : string) (i : Z) : Z :=
  match s with
  | EmptyString => if startswith s sub then i else -1
  | String _ s' =>
      let r := rfind_from sub s' (i + 1) in
      if r =? -1 then (if startswith s sub then i else -1) else r
  end.
Definition rfind (s sub : string) : Z := rfind_from sub s 0.

(** [sub in s] *)
Definition contains (s sub : string) : bool := negb (find s sub =? -1).

Fixpoint inchars (chars : string) (c : ascii) : bool :=
  match chars with
  | EmptyString => false
  | String a chars' => if Ascii.eqb a c then true else inchars chars' c
  end.

Fixpoint lstrip (p : ascii -> bool) (s : string) : string :=
  match s with
  | EmptyString => EmptyString
  | String c s' => if p c then lstrip p s' else s
  end.

Fixpoint rstrip (p : ascii -> bool) (s : string) : string :=
  match s with
  | EmptyString => EmptyString
  | String c s' =>
      match rstrip p s' with
      | EmptyString => if p c then EmptyString else String c EmptyString
      | r => String c r
      end
  end.

(** [s.strip()] and [s.strip(chars)] *)
Definition strip (s : string) : string := lstrip isspace (rstrip isspace s).
Definition strip_chars (s chars : string) : string :=
  lstrip (inchars chars) (rstrip (inchars chars) s).

(** [s.splitlines()] *)
Fixpoint splitlines (s : string) : list string :=
  match s with
  | EmptyString => []
  | String c s' =>
      if islinebreak c then
        match s' with
        | String c' s'' =>
            if Ascii.eqb c "013" && Ascii.eqb c' "010"
            then EmptyString :: splitlines s''
            else EmptyString :: splitlines s'
        | EmptyString => [EmptyString]
        end
      else
        match splitlines s' with
        | [] => [String c EmptyString]
        | l :: ls => String c l :: ls
        end
  end.

(** [s.split(sep)] for a non-empty separator; [k] counts the characters of
    a separator just matched that are still to be skipped. *)
Fixpoint split_aux (sep : string) (k : nat) (s : string) : list string :=
  match s with
  | EmptyString => [EmptyString]
  | String c s' =>
      match k with
      | S k' => split_aux sep k' s'
      | O =>
          if startswith s sep
          then EmptyString :: split_aux sep (String.length sep - 1) s'
          else match split_aux sep 0 s' with
               | [] => [String c EmptyString]
               | l :: ls => String c l :: ls
               end
      end
  end.
Definition split (s sep : string) : list string := split_aux sep 0 s.

(** [s.split(c, 1)] when [c in s]: the text before and after the first [c]. *)
Fixpoint split_once (c : ascii) (s : string) : string * string :=
  match s with
  | EmptyString => (EmptyString, EmptyString)
  | String a s' =>
      if Ascii.eqb a c then (EmptyString, s')
      else let '(k, v) := split_once c s' in (String a k, v)
  end.

(** [s.replace(old, new)] for a non-empty [old] *)
Fixpoint replace_aux (old new : string) (k : nat) (s : string) : string :=
  match s with
  | EmptyString => EmptyString
  | String c s' =>
      match k with
      | S k' => replace_aux old new k' s'
      | O =>
          if startswith s old
          then new +:+ replace_aux old new (String.length old - 1) s'
          else String c (replace_aux old new 0 s')
      end
  end.
Definition replace (s old new : string) : string := replace_aux old new 0 s.

(** [sep.join(l)] *)
Fixpoint join (sep : string) (l : list string) : string :=
  match l with
  | [] => EmptyString
  | [x] => x
  | x :: l' => x +:+ sep +:+ join sep l'
  end.

Fixpoint take_while (p : ascii -> bool) (s : string) : string :=
  match s with
  | EmptyString => EmptyString
  | String c s' => if p c then String c (take_while p s') else EmptyString
  end.

(** The [re.match] of line 77, whose pattern is optional whitespace and
    then a captured run of one or more word characters: [None] when there
    is no match, otherwise group 1. *)
Definition re_match_status (s : string) : option string :=
  match take_while isword (lstrip isspace s) with
  | EmptyString => None
  | w => Some w
  end.

End Py.


(** The double quote and the backslash, and a transliteration that lets the
    examples below write TL1 text with ['] where the wire has a double
    quote. *)
Definition dquote : ascii := "034"%char.
Definition backslash : ascii := "092"%char.

Fixpoint tl1 (s : string) : string :=
  match s with
  | EmptyString => EmptyString
  | String c s' => String (if Ascii.eqb c "'" then dquote else c) (tl1 s')
  end.

(** ** Python dictionaries with observable order *)

Section Dict.
Context {V : Type}.

Fixpoint dict_get (d : list (string * V)) (k : string) : option V :=
  match d with
  | [] => None
  | (k', v) :: d' => if String.eqb k' k then Some v else dict_get d' k
  end.

(** [d[k] = v]: an existing key keeps its place, a new key goes last. *)
Fixpoint dict_set (d : list (string * V)) (k : string) (v : V) : list (string * V) :=
  match d with
  | [] => [(k, v)]
  | (k', v') :: d' =>
      if String.eqb k' k then (k', v) :: d' else (k', v') :: dict_set d' k v
  end.

Fixpoint dict_del (d : list (string * V)) (k : string) : list (string * V) :=
  match d with
  | [] => []
  | (k', v') :: d' => if String.eqb k' k then d' else (k', v') :: dict_del d' k
  end.

(** [d.pop(k, default)] *)
Definition dict_pop_default (d : list (string * V)) (k : string) (default : V)
  : V * list (string * V) :=
  match dict_get d k with
  | Some v => (v, dict_del d k)
  | None => (default, d)
  end.

Definition dict_keys (d : list (string * V)) : list string := map fst d.
End Dict.

(** [for i, x in enumerate(l)] as a left fold that starts counting at [i]. *)
Fixpoint fold_enumerate {A B : Type} (f : B -> nat -> A -> B) (i : nat) (l : list A) (b : B) : B :=
  match l with
  | [] => b
  | a :: l' => fold_enumerate f (S i) l' (f b i a)
  end.

(** ** utils/fixed_params.py *)

(** Modelled from the spec: [utils/fixed_params.py] is missing.  The spec
    names the completion codes COMPLD and DENY and the marker ALREADY, and
    says that any other vendor status string passes through unmodified, so
    [TL1CompletionStatus(status)] keeps the status text. *)
Module TL1CompletionStatus.
Definition COMPLD : string := "COMPLD".
Definition DENY : string := "DENY".
Definition ALREADY : string := "ALREADY".
Definition of_string (status : string) : result string := Ok status.
End TL1CompletionStatus.

(** ** commands/base.py: responses *)

(** A parsed value: a scalar, a flat list or a list of lists of strings. *)
Inductive pyval : Type :=
  | PStr (s : string)
  | PList (l : list string)
  | PListList (l : list (list string)).

Definition record : Type := list (string * pyval).

Record TL1BaseResponse : Type := {
  status : string;
  raw_data : string;
  parsed_data : list record;
  ctag : string;
  sid : option string;
  tid : option string;
}.

(** A response class: its name and its [rename_positional_params] hook. *)
Record response_class : Type := {
  response_name : string;
  rename_positional_params : list record -> result (list record);
}.

(** [TL1BaseResponse.rename_positional_params] returns its argument. *)
Definition TL1BaseResponse_class : response_class :=
  {| response_name := "TL1BaseResponse";
     rename_positional_params := fun parsed_data => Ok parsed_data |}.

Module Tokenizer.

Definition str3 (a b c : ascii) : string :=
  String a (String b (String c EmptyString)).

(** The four raw literals of lines 93 and 95.  A raw literal keeps its
    backslash, so each has three characters: an equals sign or a colon, then
    backslash and double quote; and backslash and double quote, then a comma
    or a colon. *)
Definition opening : list string := [str3 "=" backslash dquote; str3 ":" backslash dquote].
Definition closing : list string := [str3 backslash dquote ","; str3 backslash dquote ":"].

Definition member (w : string) (l : list string) : bool :=
  existsb (String.eqb w) l.

(** The update of [in_quotes] at an index [i] with [i + 2 < len(text)];
    [text] is the suffix that starts at [i]. *)
Definition next_in_quotes (in_quotes : bool) (text : string) : bool :=
  match text with
  | String a (String b (String c _)) =>
      if member (str3 a b c) opening then true
      else if member (str3 a b c) closing then false
      else in_quotes
  | _ => in_quotes
  end.

(** The [while] loop of [split_preserving_quotes]; [text] is what is left
    from index [i] on. *)
Fixpoint split_loop (delimiter : ascii) (text : string)
    (parts : list string) (current : string) (in_quotes : bool) : list string :=
  match text with
  | EmptyString => parts ++ [current]
  | String c rest =>
      let in_quotes := next_in_quotes in_quotes text in
      if Ascii.eqb c delimiter && negb in_quotes
      then split_loop delimiter rest (parts ++ [current]) EmptyString in_quotes
      else split_loop delimiter rest parts (current +:+ String c EmptyString) in_quotes
  end.

Definition split_preserving_quotes (text : string) (delimiter : ascii) : list string :=
  split_loop delimiter text [] EmptyString false.

End Tokenizer.

Module Parser.
Import Tokenizer.

Definition dq : string := String dquote EmptyString.

(** Lines 123-128: quote removal and list decoding of a value. *)
Definition decode_value (value : string) : pyval :=
  let value :=
    if Py.startswith value dq && Py.endswith value dq
    then Py.strip_ends value else value in
  if Py.contains value "&-"
  then PListList (map (fun v => Py.split v "&") (Py.split value "&-"))
  else if Py.contains value "&" then PList (Py.split value "&")
  else PStr value.

(** Lines 120-131: one part of section [i], at index [j]. *)
Definition parse_part (i : nat) (rec : record) (j : nat) (part : string) : record :=
  if Py.contains part "="
  then
    let '(key, value) := Py.split_once "=" part in
    dict_set rec (Py.strip key) (decode_value (Py.strip value))
  else
    dict_set rec ("positional_param_" +:+ pretty i +:+ "_" +:+ pretty j)
             (PStr (Py.strip part)).

(** Lines 114-131: one section. *)
Definition parse_section (rec : record) (i : nat) (section : string) : record :=
  if String.eqb (Py.strip section) EmptyString then rec
  else fold_enumerate (parse_part i) 0 (split_preserving_quotes section ",") rec.

(** Lines 107-133: one line; [None] when the line is skipped. *)
Definition parse_line (line : string) : option record :=
  let line := Py.strip_chars line " ;" in
  match line with
  | EmptyString => None
  | String c _ =>
      if negb (Ascii.eqb c dquote) then None
      else
        let line := Py.strip_chars line dq in
        Some (fold_enumerate parse_section 0 (split_preserving_quotes line ":") [])
  end.

(** Lines 74-78: the status word. *)
Definition extract_status (message tag : string) : result string :=
  let index := Py.rfind message tag in
  if index =? -1
  then Raise (ValueError ("Could not find tag " +:+ tag +:+ " in message: " +:+ message))
  else
    match Py.re_match_status (Py.drop (Z.to_nat (index + Py.len tag)) message) with
    | None => Raise (AttributeError "NoneType" "group")
    | Some status => Ok status
    end.

Definition from_raw_text (cls : response_class) (message tag : string)
  : result TL1BaseResponse :=
  status ← extract_status message tag;
  let index := Py.find message tag in
  let message := Py.drop (Z.to_nat index) message in
  let lines := Py.splitlines (Py.strip message) in
  let records := omap parse_line (tail lines) in
  status ← TL1CompletionStatus.of_string status;
  parsed ← rename_positional_params cls records;
  Ok {| status := status; raw_data := message; parsed_data := parsed;
        ctag := tag; sid := None; tid := None |}.

End Parser.

(** ** commands/base.py: commands *)

(** Field values as the command classes declare them: [None], a string (or
    an integer inside a list), a flat list, a list of lists or tuples. *)
Inductive atom : Type :=
  | AStr (s : string)
  | AInt (n : Z).

Inductive value : Type :=
  | VNone
  | VAtom (a : atom)
  | VList (l : list atom)
  | VNested (l : list (list atom)).

(** [str(item)] *)
Definition str (a : atom) : string :=
  match a with
  | AStr s => s
  | AInt n => pretty n
  end.

(** The field annotations that occur in the command modules. *)
Inductive annotation : Type :=
  | TStr                               (* str *)
  | TLiteral (options : list string)   (* Literal[...] *)
  | TListStr                           (* list[str] *)
  | TListStrInt                        (* list[str | int] *)
  | TListInt                           (* list[int] *)
  | TListTuple (n : nat)               (* list[tuple[str, ...]] of width n *)
  | TOptional (t : annotation).        (* t | None *)

Record field_decl : Type := {
  field_name : string;
  field_type : annotation;
  field_default : option value;        (* [None]: the field is required *)
}.

Definition kwargs : Type := list (string * value).

(** A command class: its class variables, its pydantic fields (inherited
    ones included) and the [to_string] method that instances dispatch to. *)
Record TL1CommandClass : Type := {
  class_name : string;
  help_text : string;
  verb : string;
  modifier : string;
  response : response_class;
  model_fields : list field_decl;
  to_string_method : kwargs -> result string;
}.

(** A command instance: its class and the value of every field. *)
Record TL1BaseCommand : Type := {
  cmd_class : TL1CommandClass;
  cmd_fields : kwargs;
}.

Module Serializer.

Definition is_atom_str (a : atom) : bool :=
  match a with AStr _ => true | AInt _ => false end.
Definition is_atom_int (a : atom) : bool :=
  match a with AInt _ => true | AStr _ => false end.

(** pydantic's check of a value against an annotation; its lax-mode
    coercions are not modelled, a value that would need one is refused. *)
Fixpoint type_ok (t : annotation) (v : value) : bool :=
  match t, v with
  | TOptional _, VNone => true
  | TOptional t', _ => type_ok t' v
  | TStr, VAtom (AStr _) => true
  | TLiteral options, VAtom (AStr s) => existsb (String.eqb s) options
  | TListStr, VList l => forallb is_atom_str l
  | TListStrInt, VList _ => true
  | TListInt, VList l => forallb is_atom_int l
  | TListTuple n, VNested l =>
      forallb (fun row => Nat.eqb (length row) n && forallb is_atom_str row) l
  | (TListStr | TListStrInt | TListInt), VNested [] => true
  | TListTuple _, VList [] => true
  | _, _ => false
  end.

(** [BaseModel.__init__]: every declared field takes its keyword argument
    or its default; undeclared keywords are ignored. *)
Definition init_field (args : kwargs) (f : field_decl) : result (string * value) :=
  match dict_get args (field_name f) with
  | Some v =>
      if type_ok (field_type f) v then Ok (field_name f, v)
      else Raise (ValidationError (field_name f))
  | None =>
      match field_default f with
      | Some d => Ok (field_name f, d)
      | None => Raise (ValidationError (field_name f))
      end
  end.

Fixpoint init_fields (args : kwargs) (fs : list field_decl) : result kwargs :=
  match fs with
  | [] => Ok []
  | f :: fs' =>
      x ← init_field args f;
      xs ← init_fields args fs';
      Ok (x :: xs)
  end.

Definition model_init (cls : TL1CommandClass) (args : kwargs) : result TL1BaseCommand :=
  fields ← init_fields args (model_fields cls);
  Ok {| cmd_class := cls; cmd_fields := fields |}.

Section ToString.
Variables (help_text verb modifier : string) (fields : kwargs).

(** [getattr(self, name, None)]: a field, or one of the string class
    variables.  The other attributes of a pydantic model (its methods,
    [response_class]) are no name that a template of this repository
    yields; the model has [None] for them. *)
Definition getattr (name : string) : value :=
  match dict_get fields name with
  | Some v => v
  | None =>
      if String.eqb name "help_text" then VAtom (AStr help_text)
      else if String.eqb name "verb" then VAtom (AStr verb)
      else if String.eqb name "modifier" then VAtom (AStr modifier)
      else VNone
  end.

(** Lines 204-212: the text of a named parameter's value. *)
Definition encode_value (v : value) : result string :=
  match v with
  | VNone => Ok "None"
  | VAtom a => Ok (str a)
  | VList [] | VNested [] => Raise IndexError
  | VList l => Ok (Py.join "&" (map str l))
  | VNested l => Ok (Py.join "&-" (map (fun v => Py.join "&" (map str v)) l))
  end.

(** [str(value)] of a positional parameter; the [repr] that Python
    prints for a list is not modelled. *)
Definition str_value (v : value) : result string :=
  match v with
  | VNone => Ok "None"
  | VAtom a => Ok (str a)
  | VList _ | VNested _ => Raise (Unmodelled "str of a list")
  end.

(** Lines 192-224: one part of a section. *)
Definition add_part (params : list string) (part : string) : result (list string) :=
  let is_optional := Py.startswith part "[" && Py.endswith part "]" in
  let part := Py.strip_chars part "[]<>" in
  if String.eqb part EmptyString then Ok params
  else if Py.contains part "=" then
    let name := hd EmptyString (Py.split part "=") in
    let key := Py.replace (Py.lower name) "-" "_" in
    match getattr key with
    | VNone => Ok params
    | v =>
        text ← encode_value v;
        Ok ((params ++ [name +:+ "=" +:+ text])%list)
    end
  else
    let name := Py.lower part in
    let name := Py.replace name "-" "_" in
    let name := Py.replace name "|" "_" in
    match getattr name with
    | VNone => if negb is_optional then Ok ((params ++ [EmptyString])%list) else Ok params
    | v =>
        text ← str_value v;
        Ok ((params ++ [text])%list)
    end.

Fixpoint add_parts (params : list string) (parts : list string) : result (list string) :=
  match parts with
  | [] => Ok params
  | part :: parts' =>
      params ← add_part params part;
      add_parts params parts'
  end.

(** Lines 181-230: one section of the template. *)
Definition add_section (res : list string) (section : string) : result (list string) :=
  if String.eqb (Py.strip section) EmptyString then Ok ((res ++ [EmptyString])%list)
  else
    let section := Py.replace section ",]" "]," in
    let section := Py.replace section "[," ",[" in
    params ← add_parts [] (Py.split section ",");
    if forallb (fun param => String.eqb param EmptyString) params
    then Ok ((res ++ [EmptyString])%list)
    else Ok ((res ++ [Py.join "," params])%list).

Fixpoint add_sections (res : list string) (sections : list string) : result (list string) :=
  match sections with
  | [] => Ok res
  | section :: sections' =>
      res ← add_section res section;
      add_sections res sections'
  end.

(** [TL1BaseCommand.to_string] *)
Definition to_string : result string :=
  let sections := Py.split help_text ":" in
  res ← add_sections [verb +:+ "-" +:+ modifier] (tail sections);
  Ok (Py.join ":" res +:+ ";").
End ToString.

End Serializer.

(** [DEFAULT_CTAG] of the missing [utils/fixed_params.py] is a parameter of
    the base fields. *)
Definition base_fields (DEFAULT_CTAG : string) : list field_decl :=
  [ {| field_name := "tid"; field_type := TOptional TStr; field_default := Some VNone |};
    {| field_name := "aid"; field_type := TOptional TStr; field_default := Some VNone |};
    {| field_name := "ctag"; field_type := TStr;
       field_default := Some (VAtom (AStr DEFAULT_CTAG)) |} ].

(** Class creation: a subclass redeclares a field in place and appends the
    new ones. *)
Fixpoint declare (fs : list field_decl) (f : field_decl) : list field_decl :=
  match fs with
  | [] => [f]
  | g :: fs' =>
      if String.eqb (field_name g) (field_name f) then f :: fs'
      else g :: declare fs' f
  end.

(** A subclass of [TL1BaseCommand] that inherits [to_string]. *)
Definition subclass (DEFAULT_CTAG name help verb modifier : string)
    (resp : response_class) (own : list field_decl) : TL1CommandClass :=
  {| class_name := name; help_text := help; verb := verb; modifier := modifier;
     response := resp;
     model_fields := fold_left declare own (base_fields DEFAULT_CTAG);
     to_string_method := Serializer.to_string help verb modifier |}.

Definition to_string (self : TL1BaseCommand) : result string :=
  to_string_method (cmd_class self) (cmd_fields self).

Definition field (self : TL1BaseCommand) (name : string) : value :=
  default VNone (dict_get (cmd_fields self) name).

(** ** The registry *)

Module TL1CommandRegistry.

Definition method_name (command_class : TL1CommandClass) : string :=
  let verb := Py.lower (verb command_class) in
  let modifier := Py.lower (modifier command_class) in
  let modifier := Py.replace modifier "-" "_" in
  verb +:+ "_" +:+ modifier.

Definition register (commands : gmap string TL1CommandClass)
    (command_class : TL1CommandClass) : gmap string TL1CommandClass :=
  <[method_name command_class := command_class]> commands.

(** [TL1CommandMeta.__new__]: every class but the base registers itself. *)
Definition new_class (commands : gmap string TL1CommandClass)
    (cls : TL1CommandClass) : gmap string TL1CommandClass :=
  if String.eqb (class_name cls) "TL1BaseCommand" then commands
  else register commands cls.

End TL1CommandRegistry.

(** ** commands/ots.py and commands/sch.py *)

(** [record[new] = record.pop(old, default)], the default being the empty
    string. *)
Definition rename_param (new old : string) (rec : record) : record :=
  let '(v, rec) := dict_pop_default rec old (PStr EmptyString) in
  dict_set rec new v.

(** [OtsResponse.rename_positional_params]; [SchResponse] has the same body. *)
Definition rename_ots (rec : record) : record :=
  let rec := rename_param "AID" "positional_param_0_0" rec in
  let rec := rename_param "RESOURCETYPE" "positional_param_1_0" rec in
  let rec := rename_param "OPERSTATE" "positional_param_3_0" rec in
  rename_param "SUBOPERSTATE" "positional_param_3_1" rec.

Definition OtsResponse_class : response_class :=
  {| response_name := "OtsResponse";
     rename_positional_params := fun parsed_data => Ok (map rename_ots parsed_data) |}.

Definition SchResponse_class : response_class :=
  {| response_name := "SchResponse";
     rename_positional_params := fun parsed_data => Ok (map rename_ots parsed_data) |}.

Definition required (name : string) (t : annotation) : field_decl :=
  {| field_name := name; field_type := t; field_default := None |}.
Definition optional (name : string) (t : annotation) : field_decl :=
  {| field_name := name; field_type := t; field_default := Some VNone |}.

Section Commands.
Variable DEFAULT_CTAG : string.

(** The help text that [MaintenanceSch] and [RestoreAdminStateSch] both carry. *)
Definition rmv_help_text : string :=
  ("RMV-{EQPT|OCH|DTPCTP|TRIB|OC768|OC192|OC48|OC12|OC3|STM256|STM64|STM16|S"
   +:+ "TM4|STM1|10GBE|SNC|1GBE|10GCC|4GCC|HD1485CC|HD1483CC|SD270CC|DVB270CC|DV"
   +:+ "6000CC|ESCON200CC|IB25GCC|IB10GCC|25GCC|1G0625CC|1G25CC|2G125CC|NCT|SUBC"
   +:+ "LIENT|VCG|DCH|OTU1|OTU1E|OTU2|OTU3|OTU4|OTUC1I10|OTUC1I|OTUC2I|OTUC3I50|"
   +:+ "OTUC1I7G5|OTUC1I15|OTUC2I22G5|OTUC2I30|OTUC2I37G5|OTUC3I45|OTUC3I52G5|OT"
   +:+ "UC3I|OTUC4I67G5|OTUC4I75|OTUC24I|OTUC18I|OTUC12I|OTUC10I|OTUC20I|OTUC8I1"
   +:+ "50|OTUC15I|OTUC5I|OTUC2I|OTUC1I|OTUC4I|OTUC9I|OTUC6I|OTUC8I|OTUC1I10|OTU"
   +:+ "C1I5|OTUC5I90|OTUC22I|OTUC16I|OTUC14I|OTUC17I330|OTUC14I270|OTUC11I210|O"
   +:+ "TUC11I|OTUC7I|OTUC9I165|OTUC7I135|OTUC6I105|OTUC6I110|OTUC4I70|OTUC3I55|"
   +:+ "OTUC2I35|OTUC2I25|OTUC5I82G5|OTU2E|OTU3E1|OTU3E2|ODU0|ODU1|ODU2|ODU3|ODU"
   +:+ "4|ODU1E|ODU2E|ODU3E1|ODU3E2|ODU1T|ODU1ET|ODU2T|ODU2ET|ODU2IT|ODU3IT|ODUF"
   +:+ "LEXIT|ODU3IPT|ODU4IT|OTU3I|OTU3IP|OTU4I|ODU2I|ODU3I|ODUFLEXI|ODUFLEX|ODU"
   +:+ "3IP|ODU4I|ODUC1I10|ODUC1I|ODUC2I|ODUC3I50|ODUC1I7G5|ODUC1I15|ODUC2I22G5|"
   +:+ "ODUC2I30|ODUC2I37G5|ODUC3I45|ODUC3I52G5|ODUC3I|ODUC4I67G5|ODUC4I75|ODUC2"
   +:+ "4I|ODUC18I|ODUC12I|ODUC10I|ODUC20I|ODUC8I150|ODUC15I|ODUC5I|ODUC4I|ODUC9"
   +:+ "I|ODUC6I|ODUC8I|ODUC1I5|ODUC5I90|ODUC22I|ODUC16I|ODUC14I|ODUC17I330|ODUC"
   +:+ "14I270|ODUC11I210|ODUC11I|ODUC7I|ODUC9I165|ODUC7I135|ODUC6I105|ODUC6I110"
   +:+ "|ODUC4I70|ODUC3I55|ODUC2I35|ODUC2I25|ODUC5I82G5|1GFC|2GFC|4GFC|8GFC|10GF"
   +:+ "C|40GBE|100GBE|400GBE|10G3CC|OCHCTP|OCHPTP|11G1CC|GFP|GTP|SCH|PWRFEED|ID"
   +:+ "LERCTP|IDLERPTP|OSNC|CARRIERCTP|DIGITALWRAPPER|FLEXCARRIER|BANDPTP|NTP|E"
   +:+ "THIF|AC|NWIF|VSI|PW|OPSMPTP|SCG|OCG|OLDPSCH|IKE|ASEPTP|BAND|OTS|EXPNPTP|"
   +:+ "NCC|OSC}:[<TID>]:<AID>:<CTAG>::[<mode>],[<state>]").

(** commands/ots.py *)
Definition RetrieveOts : TL1CommandClass :=
  subclass DEFAULT_CTAG "RetrieveOts"
    "RTRV-OTS:[<TID>]:[<AID>]:<CTAG>::::"
    "RTRV" "OTS" OtsResponse_class
    [ optional "aid" (TOptional TStr) ].

(** commands/sch.py *)
Definition RetrieveSch : TL1CommandClass :=
  subclass DEFAULT_CTAG "RetrieveSch"
    "RTRV-SCH:[<TID>]:[<AID>]:<CTAG>::::"
    "RTRV" "SCH" SchResponse_class
    [ optional "aid" (TOptional TStr) ].

Definition EditSch : TL1CommandClass :=
  subclass DEFAULT_CTAG "EditSch"
    ("ED-SCH:[<TID>]:<AID>:<CTAG>:::[<LABEL=label>][,<HISTSTATS=ENABLE|DISABLE"
     +:+ ">][,<MODULATION=PM-QPSK|PM-BPSK|PM-3QAM|PM-8QAM|PM-16QAM|PM-MEPSK>][,<SU"
     +:+ "PCHNUM=supchnum>][,<EXPTTI=exptti>][,<TXTTI=txtti>][,<SHUTTERSTATE=OPEN|"
     +:+ "CLOSED>][,<INTRASCHCARRRIPPLETH=intraschcarrrippleth>][,<INTRASCHCARRIER"
     +:+ "RIPPLE=Enabled|Disabled>][,<BAUDRATE=17G|22G|33G>][,<PROVPBLIST=provpbli"
     +:+ "st>][,<PROVSUPPORTINGCARRGRPLIST=provsupportingcarrgrplist>][,<RXSCHPWRO"
     +:+ "FFSET=rxschpwroffset>][,<OPTICALSIGNAL=ENABLED|SHUTDOWN>][,<MUXPWRCONTRO"
     +:+ "LLOOP=MANUAL|AUTOMATIC>][,<DEMUXPWRCONTROLLOOP=ENABLED|DISABLED>][,<DEMU"
     +:+ "XSHUTTERSTATE=OPEN|CLOSED>][,<OSNRADD=osnradd>][,<SCHOFFSET=schoffset>]["
     +:+ ",<OFFSETOVERRIDE=ENABLED|DISABLED>][,<ADJSCHCTP=adjschctp>]:[IS|OOS]")
    "ED" "SCH" TL1BaseResponse_class
    [ required "aid" TStr;
      optional "label" (TOptional TStr);
      optional "histstats" (TOptional (TLiteral ["ENABLE"; "DISABLE"]));
      optional "modulation" (TOptional (TLiteral ["PM-QPSK"; "PM-BPSK"; "PM-3QAM"; "PM-8QAM"; "PM-16QAM"; "PM-MEPSK"]));
      optional "supchnum" (TOptional TStr);
      optional "exptti" (TOptional TStr);
      optional "txtti" (TOptional TStr);
      optional "shutterstate" (TOptional (TLiteral ["OPEN"; "CLOSED"]));
      optional "intraschcarrrippleth" (TOptional TStr);
      optional "intraschcarrierripple" (TOptional (TLiteral ["Enabled"; "Disabled"]));
      optional "baudrate" (TOptional (TLiteral ["17G"; "22G"; "33G"]));
      optional "provpblist" (TOptional TListStr);
      optional "provsupportingcarrgrplist" (TOptional TListStr);
      optional "rxschpwroffset" (TOptional TStr);
      optional "opticalsignal" (TOptional (TLiteral ["ENABLED"; "SHUTDOWN"]));
      optional "muxpwrcontrolloop" (TOptional (TLiteral ["MANUAL"; "AUTOMATIC"]));
      optional "demuxpwrcontrolloop" (TOptional (TLiteral ["ENABLED"; "DISABLED"]));
      optional "demuxshutterstate" (TOptional (TLiteral ["OPEN"; "CLOSED"]));
      optional "osnradd" (TOptional TStr);
      optional "schoffset" (TOptional TStr);
      optional "offsetoverride" (TOptional (TLiteral ["ENABLED"; "DISABLED"]));
      optional "adjschctp" (TOptional TStr);
      optional "is_oos" (TOptional TStr) ].

Definition EnterSch : TL1CommandClass :=
  subclass DEFAULT_CTAG "EnterSch"
    ("ENT-SCH:[<TID>]:<AID>:<CTAG>:::[<FREQSLOTPLANTYPE=freqslotplantype>][,<S"
     +:+ "UPCHNUM=supchnum>][,<MODULATION=PM-QPSK|PM-BPSK|PM-3QAM|PM-8QAM|PM-16QAM"
     +:+ "|PM-MEPSK>][,<BAUDRATE=17G|22G|33G>][,<PROVPBLIST=provpblist>][,<PROVSUP"
     +:+ "PORTINGCARRGRPLIST=provsupportingcarrgrplist>][,<LABEL=label>][,<SCHPROF"
     +:+ "ID=schprofid>][,<PROFSCHNUM=profschnum>]:[IS|OOS]")
    "ENT" "SCH" TL1BaseResponse_class
    [ required "aid" TStr;
      optional "freqslotplantype" (TOptional TStr);
      optional "supchnum" (TOptional TStr);
      optional "modulation" (TOptional (TLiteral ["PM-QPSK"; "PM-BPSK"; "PM-3QAM"; "PM-8QAM"; "PM-16QAM"; "PM-MEPSK"]));
      optional "baudrate" (TOptional (TLiteral ["17G"; "22G"; "33G"]));
      optional "provpblist" (TOptional TListStr);
      optional "provsupportingcarrgrplist" (TOptional TListStr);
      optional "label" (TOptional TStr);
      optional "schprofid" (TOptional TStr);
      optional "profschnum" (TOptional TStr);
      optional "is_oos" (TOptional TStr) ].

Definition DeleteSch : TL1CommandClass :=
  subclass DEFAULT_CTAG "DeleteSch"
    "DLT-SCH:[<TID>]:<AID>:<CTAG>::::"
    "DLT" "SCH" TL1BaseResponse_class
    [ required "aid" TStr ].

Definition MaintenanceSch : TL1CommandClass :=
  subclass DEFAULT_CTAG "MaintenanceSch"
    rmv_help_text
    "RMV" "SCH" TL1BaseResponse_class
    [ required "aid" TStr;
      optional "mode" (TOptional TStr);
      optional "state" (TOptional TStr) ].

Definition RestoreAdminStateSch : TL1CommandClass :=
  subclass DEFAULT_CTAG "RestoreAdminStateSch"
    rmv_help_text
    "RMV" "SCH" TL1BaseResponse_class
    [ required "aid" TStr;
      optional "mode" (TOptional TStr);
      optional "state" (TOptional TStr) ].

(** The classes of [commands/sch.py] in source order.  Importing a module
    runs the metaclass on each class statement in turn. *)
Definition sch_classes : list TL1CommandClass :=
  [RetrieveSch; EditSch; EnterSch; DeleteSch; MaintenanceSch; RestoreAdminStateSch].

Definition import_module (commands : gmap string TL1CommandClass)
    (classes : list TL1CommandClass) : gmap string TL1CommandClass :=
  fold_left TL1CommandRegistry.new_class classes commands.
End Commands.

(** ** client.py and [TL1BaseCommand.execute] *)

(** [tnms_client.operations.run_cli_script(devices, commands, channel,
    error_policy)], reduced to what the client reads of its answer: the
    [output] of every entry of [response["device-results"][0]["responses"]]. *)
Definition TnmsClient : Type := list string -> list string -> string -> string -> list string.

Record FlexILSClient : Type := {
  device_uuid : string;
  device_tid : string;
  tnms_client : TnmsClient;
  (** the methods that [_init_command_methods] has set on the instance,
      each a closure over the command class it was created for *)
  bound_methods : gmap string TL1CommandClass;
}.

(** An attribute of a client instance. *)
Inductive attribute : Type :=
  | AttrStr (s : string)
  | AttrTnms (t : TnmsClient)
  | AttrMethod (cmd_cls : TL1CommandClass)
  | AttrClassMember (name : string).

Module Client.

Definition _execute_raw_command (self : FlexILSClient) (command : string) : result string :=
  let commands := [command] in
  let responses := tnms_client self [device_uuid self] commands "TL1" "CONTINUE" in
  match responses !! 1%nat with
  | Some output => Ok output
  | None => Raise IndexError
  end.

(** [self.ctag], a [str] for every instance that pydantic has validated. *)
Definition ctag_of (self : TL1BaseCommand) : result string :=
  match field self "ctag" with
  | VAtom (AStr c) => Ok c
  | _ => Raise (Unmodelled "ctag is not a str")
  end.

(** [TL1BaseCommand.execute] *)
Definition execute (self : TL1BaseCommand) (client : FlexILSClient) : result TL1BaseResponse :=
  command_str ← to_string self;
  response_str ← _execute_raw_command client command_str;
  if Py.contains response_str TL1CompletionStatus.DENY
     && negb (Py.contains response_str TL1CompletionStatus.ALREADY)
  then Raise (TL1CommandDeniedError (device_uuid client) command_str response_str)
  else
    tag ← ctag_of self;
    Parser.from_raw_text (response (cmd_class self)) response_str tag.

(** [command_cls(tid=self.device_tid, **kwargs)]: a keyword given twice
    is a [TypeError] of the call itself. *)
Definition construct (self : FlexILSClient) (command_cls : TL1CommandClass)
    (kw : kwargs) : result TL1BaseCommand :=
  if existsb (String.eqb "tid") (dict_keys kw)
  then Raise (TypeError_multiple_values "tid")
  else Serializer.model_init command_cls (("tid", VAtom (AStr (device_tid self))) :: kw).

Definition _execute_command (self : FlexILSClient) (command_cls : TL1CommandClass)
    (kw : kwargs) : result TL1BaseResponse :=
  command ← construct self command_cls kw;
  execute command self.

(** The text that [_execute_command] hands to the transport. *)
Definition serialized_request (self : FlexILSClient) (command_cls : TL1CommandClass)
    (kw : kwargs) : result string :=
  command ← construct self command_cls kw;
  to_string command.

(** The first keyword argument that is named like a parameter which the
    call already fills by position. *)
Definition clash (params : list string) (kw : kwargs) : option string :=
  List.find (fun k => existsb (String.eqb k) params) (dict_keys kw).

(** The closure [method] that either resolution path returns: its body is
    the call [self._execute_command(cmd_class, **kwargs)], in which a
    keyword named like one of the two positional parameters is a
    [TypeError]. *)
Definition method (self : FlexILSClient) (cmd_class : TL1CommandClass) (kw : kwargs)
  : result TL1BaseResponse :=
  match clash ["self"; "command_cls"] kw with
  | Some k => Raise (TypeError_multiple_values k)
  | None => _execute_command self cmd_class kw
  end.

Definition method_request (self : FlexILSClient) (cmd_class : TL1CommandClass)
    (kw : kwargs) : result string :=
  match clash ["self"; "command_cls"] kw with
  | Some k => Raise (TypeError_multiple_values k)
  | None => serialized_request self cmd_class kw
  end.

(** [_init_command_methods]: one [setattr] per registry entry. *)
Definition _init_command_methods (commands : gmap string TL1CommandClass)
  : gmap string TL1CommandClass :=
  map_fold (fun method_name command_class bound => <[method_name := command_class]> bound)
           ∅ commands.

Definition __init__ (commands : gmap string TL1CommandClass) (tnms_client : TnmsClient)
    (tnms_device_uuid device_tid : string) : FlexILSClient :=
  {| device_uuid := tnms_device_uuid; device_tid := device_tid;
     tnms_client := tnms_client;
     bound_methods := _init_command_methods commands |}.

(** [__getattr__], the hook Python calls when ordinary lookup fails. *)
Definition __getattr__ (commands : gmap string TL1CommandClass)
    (self : FlexILSClient) (name : string) : result attribute :=
  match commands !! name with
  | Some cmd_cls => Ok (AttrMethod cmd_cls)
  | None => Raise (AttributeError "FlexILSClient" name)
  end.

(** The namespace of [class FlexILSClient]: the six names that its body
    defines, and the four that the class statement gives to every class
    with a docstring and without [__slots__]. *)
Definition class_namespace : list string :=
  ["__init__"; "__getattr__"; "_execute_raw_commands"; "_execute_raw_command";
   "_execute_command"; "_init_command_methods";
   "__module__"; "__doc__"; "__dict__"; "__weakref__"].

(** Attribute access [self.name]: the instance, then the class and
    [object], then [__getattr__].  [object_namespace] holds the names that
    the interpreter at hand finds without the class body: those of
    [object], and what its version adds to a class namespace beyond the
    four above (Python 3.13 adds [__firstlineno__] and
    [__static_attributes__]).  The registry's names are taken to differ
    from the client's own attribute names. *)
Definition getattribute (object_namespace : list string)
    (commands : gmap string TL1CommandClass)
    (self : FlexILSClient) (name : string) : result attribute :=
  match bound_methods self !! name with
  | Some cmd_cls => Ok (AttrMethod cmd_cls)
  | None =>
      if String.eqb name "device_uuid" then Ok (AttrStr (device_uuid self))
      else if String.eqb name "device_tid" then Ok (AttrStr (device_tid self))
      else if String.eqb name "tnms_client" then Ok (AttrTnms (tnms_client self))
      else if existsb (String.eqb name) (class_namespace ++ object_namespace)
      then Ok (AttrClassMember name)
      else __getattr__ commands self name
  end.

(** Calling what a lookup returned with keyword arguments, and the text
    that this call hands to the transport. *)
Definition call (self : FlexILSClient) (a : attribute) (kw : kwargs)
  : result TL1BaseResponse :=
  match a with
  | AttrMethod cmd_cls => method self cmd_cls kw
  | _ => Raise (Unmodelled "call of something that is no command method")
  end.

Definition request_of (self : FlexILSClient) (a : attribute) (kw : kwargs)
  : result string :=
  match a with
  | AttrMethod cmd_cls => method_request self cmd_cls kw
  | _ => Raise (Unmodelled "call of something that is no command method")
  end.

End Client.

(** ** Predicates of the statements, and example data *)

(** [sub] occurs in [s]: Python's [sub in s]. *)
Definition occurs (sub s : string) : Prop :=
  exists pre post, s = pre +:+ sub +:+ post.


(** A transport for the examples: it answers every script with a login
    banner and one fixed reply. *)
Definition fixed_reply (reply : string) : TnmsClient :=
  fun _ _ _ _ => ["login"; reply].

Definition retrieve_ots_command : TL1BaseCommand :=
  {| cmd_class := RetrieveOts "CTAG";
     cmd_fields := [("tid", VAtom (AStr "NE-1")); ("aid", VAtom (AStr "1-A-1-L1"));
                    ("ctag", VAtom (AStr "CTAG"))] |}.

Fixpoint all_chars (p : ascii -> bool) (s : string) : bool :=
  match s with
  | EmptyString => true
  | String c s' => p c && all_chars p s'
  end.

(** [pre] is what precedes the last occurrence of [tag] in [message], and
    [rest] what follows it. *)
Definition last_occurrence (tag message pre rest : string) : Prop :=
  message = pre +:+ tag +:+ rest
  /\ forall pre' rest', message = pre' +:+ tag +:+ rest' ->
       (String.length pre' <= String.length pre)%nat.

(** [rest] is optional whitespace, then the maximal non-empty run [w] of
    word characters. *)
Definition status_run (rest w : string) : Prop :=
  exists ws tail,
    rest = ws +:+ w +:+ tail
    /\ all_chars Py.isspace ws = true
    /\ w <> EmptyString /\ all_chars Py.isword w = true
    /\ match tail with
       | EmptyString => True
       | String c _ => Py.isword c = false
       end.

(** Some word character occurs in [s]. *)
Fixpoint has_word_char (s : string) : bool :=
  match s with
  | EmptyString => false
  | String c s' => Py.isword c || has_word_char s'
  end.

Definition no_backslash (s : string) : bool :=
  all_chars (fun c => negb (Ascii.eqb c backslash)) s.









(** The token that lines 203-213 append for a named field that is present,
    and the tokens of several fields. *)
Definition encode_field (f : string * value) : result string :=
  text ← Serializer.encode_value (snd f);
  Ok (fst f +:+ "=" +:+ text).

Fixpoint encode_fields (fields : kwargs) : result (list string) :=
  match fields with
  | [] => Ok []
  | f :: fields' =>
      token ← encode_field f;
      tokens ← encode_fields fields';
      Ok (token :: tokens)
  end.


Definition newline : string := String "010" EmptyString.




(** The line of two quoted fields, with the quotes escaped as on the wire
    and with plain quotes, and the records that the parser makes of them. *)
Definition escaped_line : string := tl1 "'AID=\'a,b:c\',LABEL=\'x:y\''".
Definition plain_line : string := tl1 "'AID='a,b:c',LABEL='x:y''".
Definition plain_record : record :=
  [("AID", PStr (tl1 "'a")); ("positional_param_0_1", PStr "b");
   ("positional_param_1_0", PStr (tl1 "c'")); ("LABEL", PStr (tl1 "'x"));
   ("positional_param_2_0", PStr "y")].
Definition escaped_record : record :=
  [("AID", PStr (tl1 "\'a,b:c\'"));
   ("LABEL", PStr (tl1 "\'x:y" +:+ String backslash EmptyString))].


(** ** Further definitions: the other modules of the package and callers *)

(** The text that a section of one positional parameter gets for a field
    value: nothing for [None], [str(value)] otherwise. *)
Definition section_text (v : value) : result string :=
  match v with
  | VNone => Ok EmptyString
  | _ => Serializer.str_value v
  end.

(** commands/scg.py: [ScgResponse] has the hook of [OtsResponse]. *)
Definition ScgResponse_class : response_class :=
  {| response_name := "ScgResponse";
     rename_positional_params := fun parsed_data => Ok (map rename_ots parsed_data) |}.

(** *** commands/maintenance_state.py *)

(** The two classes of this module override [to_string]: the command code
    is made of a verb and the field [aidtype], every parameter of the
    template is positional, and a section is the plain join of its
    parameters. *)
Module MaintenanceState.
Section ToString.
Variables (help_text verb modifier : string) (actual_verb : option string).
Variable command_verb : string.
Variable fields : kwargs.

(** [getattr(self, name, None)]: as for every command, with the class
    variable [actual_verb] where the class has one. *)
Definition getattr (name : string) : value :=
  match dict_get fields name, actual_verb with
  | None, Some v =>
      if String.eqb name "actual_verb" then VAtom (AStr v)
      else Serializer.getattr help_text verb modifier fields name
  | _, _ => Serializer.getattr help_text verb modifier fields name
  end.

Definition add_part (params : list string) (part : string) : result (list string) :=
  let is_optional := Py.startswith part "[" && Py.endswith part "]" in
  let part := Py.strip_chars part "[]<>" in
  if String.eqb part EmptyString then Ok params
  else
    let name := Py.lower part in
    let name := Py.replace name "-" "_" in
    match getattr name with
    | VNone => if negb is_optional then Ok ((params ++ [EmptyString])%list) else Ok params
    | v =>
        text ← Serializer.str_value v;
        Ok ((params ++ [text])%list)
    end.

Fixpoint add_parts (params : list string) (parts : list string) : result (list string) :=
  match parts with
  | [] => Ok params
  | part :: parts' =>
      params ← add_part params part;
      add_parts params parts'
  end.

Definition add_section (res : list string) (section : string) : result (list string) :=
  if String.eqb (Py.strip section) EmptyString then Ok ((res ++ [EmptyString])%list)
  else
    let section := Py.replace section ",]" "]," in
    let section := Py.replace section "[," ",[" in
    params ← add_parts [] (Py.split section ",");
    Ok ((res ++ [Py.join "," params])%list).

Fixpoint add_sections (res : list string) (sections : list string) : result (list string) :=
  match sections with
  | [] => Ok res
  | section :: sections' =>
      res ← add_section res section;
      add_sections res sections'
  end.

(** [to_string]; [command_verb] is [self.actual_verb] in
    [IntoAdminMaintenance] and [self.verb] in [OutofAdminMaintenance]. *)
Definition to_string : result string :=
  let sections := Py.split help_text ":" in
  aidtype ← Serializer.str_value (getattr "aidtype");
  res ← add_sections [command_verb +:+ "-" +:+ aidtype] (tail sections);
  Ok (Py.join ":" res +:+ ";").
End ToString.
End MaintenanceState.

(** The values of the [Literal] that both classes declare for [aidtype]. *)
Definition aidtypes : list string :=
  [ "EQPT"; "OCH"; "DTPCTP"; "TRIB"; "OC768"; "OC192"; "OC48"; "OC12"; "OC3"; "STM256";
    "STM64"; "STM16"; "STM4"; "STM1"; "10GBE"; "SNC"; "1GBE"; "10GCC"; "4GCC"; "HD1485CC";
    "HD1483CC"; "SD270CC"; "DVB270CC"; "DV6000CC"; "ESCON200CC"; "IB25GCC"; "IB10GCC";
    "25GCC"; "1G0625CC"; "1G25CC"; "2G125CC"; "NCT"; "SUBCLIENT"; "VCG"; "DCH"; "OTU1";
    "OTU1E"; "OTU2"; "OTU3"; "OTU4"; "OTUC1I10"; "OTUC1I"; "OTUC2I"; "OTUC3I50";
    "OTUC1I7G5"; "OTUC1I15"; "OTUC2I22G5"; "OTUC2I30"; "OTUC2I37G5"; "OTUC3I45";
    "OTUC3I52G5"; "OTUC3I"; "OTUC4I67G5"; "OTUC4I75"; "OTUC24I"; "OTUC18I"; "OTUC12I";
    "OTUC10I"; "OTUC20I"; "OTUC8I150"; "OTUC15I"; "OTUC5I"; "OTUC4I"; "OTUC9I"; "OTUC6I";
    "OTUC8I"; "OTUC1I5"; "OTUC5I90"; "OTUC22I"; "OTUC16I"; "OTUC14I"; "OTUC17I330";
    "OTUC14I270"; "OTUC11I210"; "OTUC11I"; "OTUC7I"; "OTUC9I165"; "OTUC7I135"; "OTUC6I105";
    "OTUC6I110"; "OTUC4I70"; "OTUC3I55"; "OTUC2I35"; "OTUC2I25"; "OTUC5I82G5"; "OTU2E";
    "OTU3E1"; "OTU3E2"; "ODU0"; "ODU1"; "ODU2"; "ODU3"; "ODU4"; "ODU1E"; "ODU2E"; "ODU3E1";
    "ODU3E2"; "ODU1T"; "ODU1ET"; "ODU2T"; "ODU2ET"; "ODU2IT"; "ODU3IT"; "ODUFLEXIT";
    "ODU3IPT"; "ODU4IT"; "OTU3I"; "OTU3IP"; "OTU4I"; "ODU2I"; "ODU3I"; "ODUFLEXI";
    "ODUFLEX"; "ODU3IP"; "ODU4I"; "ODUC1I10"; "ODUC1I"; "ODUC2I"; "ODUC3I50"; "ODUC1I7G5";
    "ODUC1I15"; "ODUC2I22G5"; "ODUC2I30"; "ODUC2I37G5"; "ODUC3I45"; "ODUC3I52G5"; "ODUC3I";
    "ODUC4I67G5"; "ODUC4I75"; "ODUC24I"; "ODUC18I"; "ODUC12I"; "ODUC10I"; "ODUC20I";
    "ODUC8I150"; "ODUC15I"; "ODUC5I"; "ODUC4I"; "ODUC9I"; "ODUC6I"; "ODUC8I"; "ODUC1I5";
    "ODUC5I90"; "ODUC22I"; "ODUC16I"; "ODUC14I"; "ODUC17I330"; "ODUC14I270"; "ODUC11I210";
    "ODUC11I"; "ODUC7I"; "ODUC9I165"; "ODUC7I135"; "ODUC6I105"; "ODUC6I110"; "ODUC4I70";
    "ODUC3I55"; "ODUC2I35"; "ODUC2I25"; "ODUC5I82G5"; "1GFC"; "2GFC"; "4GFC"; "8GFC";
    "10GFC"; "40GBE"; "100GBE"; "400GBE"; "10G3CC"; "OCHCTP"; "OCHPTP"; "11G1CC"; "GFP";
    "GTP"; "SCH"; "PWRFEED"; "IDLERCTP"; "IDLERPTP"; "OSNC"; "CARRIERCTP"; "DIGITALWRAPPER";
    "FLEXCARRIER"; "BANDPTP"; "NTP"; "ETHIF"; "AC"; "NWIF"; "VSI"; "PW"; "OPSMPTP"; "SCG";
    "OCG"; "OLDPSCH"; "IKE"; "ASEPTP"; "BAND"; "OTS"; "EXPNPTP"; "NCC"; "OSC" ].

(** The help text of [OutofAdminMaintenance]. *)
Definition rst_help_text : string :=
  ("RST-{EQPT|OCH|DTPCTP|TRIB|OC768|OC192|OC48|OC12|OC3|STM256|STM64|STM16|S"
   +:+ "TM4|STM1|10GBE|SNC|1GBE|10GCC|4GCC|HD1485CC|HD1483CC|SD270CC|DVB270CC|DV"
   +:+ "6000CC|ESCON200CC|IB25GCC|IB10GCC|25GCC|1G0625CC|1G25CC|2G125CC|NCT|SUBC"
   +:+ "LIENT|VCG|DCH|OTU1|OTU1E|OTU2|OTU3|OTU4|OTUC1I10|OTUC1I|OTUC2I|OTUC3I50|"
   +:+ "OTUC1I7G5|OTUC1I15|OTUC2I22G5|OTUC2I30|OTUC2I37G5|OTUC3I45|OTUC3I52G5|OT"
   +:+ "UC3I|OTUC4I67G5|OTUC4I75|OTUC24I|OTUC18I|OTUC12I|OTUC10I|OTUC20I|OTUC8I1"
   +:+ "50|OTUC15I|OTUC5I|OTUC2I|OTUC1I|OTUC4I|OTUC9I|OTUC6I|OTUC8I|OTUC1I10|OTU"
   +:+ "C1I5|OTUC5I90|OTUC22I|OTUC16I|OTUC14I|OTUC17I330|OTUC14I270|OTUC11I210|O"
   +:+ "TUC11I|OTUC7I|OTUC9I165|OTUC7I135|OTUC6I105|OTUC6I110|OTUC4I70|OTUC3I55|"
   +:+ "OTUC2I35|OTUC2I25|OTUC5I82G5|OTU2E|OTU3E1|OTU3E2|ODU0|ODU1|ODU2|ODU3|ODU"
   +:+ "4|ODU1E|ODU2E|ODU3E1|ODU3E2|ODU1T|ODU1ET|ODU2T|ODU2ET|ODU2IT|ODU3IPT|ODU"
   +:+ "3IT|ODUFLEXIT|ODU4IT|OTU3I|OTU3IP|OTU4I|ODU2I|ODU3I|ODUFLEXI|ODUFLEX|ODU"
   +:+ "3IP|ODU4I|ODUC1I10|ODUC1I|ODUC2I|ODUC3I50|ODUC1I7G5|ODUC1I15|ODUC2I22G5|"
   +:+ "ODUC2I30|ODUC2I37G5|ODUC3I45|ODUC3I52G5|ODUC3I|ODUC4I67G5|ODUC4I75|ODUC2"
   +:+ "4I|ODUC18I|ODUC12I|ODUC10I|ODUC20I|ODUC8I150|ODUC15I|ODUC5I|ODUC4I|ODUC9"
   +:+ "I|ODUC6I|ODUC8I|ODUC1I5|ODUC5I90|ODUC22I|ODUC16I|ODUC14I|ODUC17I330|ODUC"
   +:+ "14I270|ODUC11I210|ODUC11I|ODUC7I|ODUC9I165|ODUC7I135|ODUC6I105|ODUC6I110"
   +:+ "|ODUC4I70|ODUC3I55|ODUC2I35|ODUC2I25|ODUC5I82G5|1GFC|2GFC|4GFC|8GFC|10GF"
   +:+ "C|40GBE|100GBE|400GBE|10G3CC|OCHCTP|OCHPTP|11G1CC|GFP|GTP|SCH|PWRFEED|ID"
   +:+ "LERCTP|IDLERPTP|OSNC|CARRIERCTP|DIGITALWRAPPER|FLEXCARRIER|BANDPTP|NTP|E"
   +:+ "THIF|AC|NWIF|VSI|PW|OPSMPTP|SCG|OCG|OLDPSCH|IKE|ASEPTP|BAND|OTS|EXPNPTP|"
   +:+ "NCC|OSC}:[<TID>]:<AID>:<CTAG>::[<mode>]::").

Section OtherCommands.
Variable DEFAULT_CTAG : string.

(** commands/ots.py, its second class *)
Definition EditOts : TL1CommandClass :=
  subclass DEFAULT_CTAG "EditOts"
    ("ED-OTS:[<TID>]:<AID>:<CTAG>:::[<PASSPROVNBRTP=passprovnbrtp>][,<LABEL=la"
     +:+ "bel>][,<TXFIBERTYPE=txfibertype>][,<PROVRXFIBERTYPE=provrxfibertype>][,<"
     +:+ "OLOSSOAKTIME=olossoaktime>][,<RXFIBERTYPEOVERRIDE=ENABLE|DISABLE>][,<RXA"
     +:+ "SSOCIATEDOTS=rxassociatedots>][,<TXASSOCIATEDOTS=txassociatedots>][,<HIS"
     +:+ "TSTATS=ENABLE|DISABLE>][,<INLINEDCMTYPE=inlinedcmtype>][,<PRESPANPAD=pre"
     +:+ "spanpad>][,<POSTSPANPAD=postspanpad>][,<SPANDIST=spandist>][,<PROVNBRNOD"
     +:+ "EID=provnbrnodeid>][,<PROVNBROTS=provnbrots>][,<RXEQPTLIST=rxeqptlist>]["
     +:+ ",<TXEQPTLIST=txeqptlist>][,<ASSOCIATEDSLTETP=associatedsltetp>][,<RXASSO"
     +:+ "CIATEDSLTEPTP=rxassociatedslteptp>][,<TXTTI=txtti>][,<EXPSAPI=expsapi>]["
     +:+ ",<EXPDAPI=expdapi>][,<TIMDETMODE=OFF|DAPI|SAPI|SAPI_DAPI>][,<OPTSPECT=CB"
     +:+ "AND|EXTENDEDCBAND|CLBAND>][,<EXPSPANLOSS=UNDER25DB|OVER25DB>][,<OAMCONTR"
     +:+ "OL=ENABLE|DISABLE>][,<FIBERLABELTX=fiberlabeltx>][,<PEERTLAAMPOTSAID=pee"
     +:+ "rtlaampotsaid>][,<OTSOLOSEVTREPORTING=ENABLED|DISABLED>][,<AUTOOTDRTRACE"
     +:+ "=ENABLED|DISABLED>]")
    "ED" "OTS" TL1BaseResponse_class
    [ required "aid" TStr;
      optional "passprovnbrtp" (TOptional TStr);
      optional "label" (TOptional TStr);
      optional "txfibertype" (TOptional TStr);
      optional "provrxfibertype" (TOptional TStr);
      optional "olossoaktime" (TOptional TStr);
      optional "rxfibertypeoverride" (TOptional (TLiteral ["ENABLE"; "DISABLE"]));
      optional "rxassociatedots" (TOptional TStr);
      optional "txassociatedots" (TOptional TStr);
      optional "histstats" (TOptional (TLiteral ["ENABLE"; "DISABLE"]));
      optional "inlinedcmtype" (TOptional TStr);
      optional "prespanpad" (TOptional TStr);
      optional "postspanpad" (TOptional TStr);
      optional "spandist" (TOptional TStr);
      optional "provnbrnodeid" (TOptional TStr);
      optional "provnbrots" (TOptional TStr);
      optional "rxeqptlist" (TOptional TListStr);
      optional "txeqptlist" (TOptional TListStr);
      optional "associatedsltetp" (TOptional TStr);
      optional "rxassociatedslteptp" (TOptional TStr);
      optional "txtti" (TOptional TStr);
      optional "expsapi" (TOptional TStr);
      optional "expdapi" (TOptional TStr);
      optional "timdetmode" (TOptional (TLiteral ["OFF"; "DAPI"; "SAPI"; "SAPI_DAPI"]));
      optional "optspect" (TOptional (TLiteral ["CBAND"; "EXTENDEDCBAND"; "CLBAND"]));
      optional "expspanloss" (TOptional (TLiteral ["UNDER25DB"; "OVER25DB"]));
      optional "oamcontrol" (TOptional (TLiteral ["ENABLE"; "DISABLE"]));
      optional "fiberlabeltx" (TOptional TStr);
      optional "peertlaampotsaid" (TOptional TStr);
      optional "otsolosevtreporting" (TOptional (TLiteral ["ENABLED"; "DISABLED"]));
      optional "autootdrtrace" (TOptional (TLiteral ["ENABLED"; "DISABLED"])) ].

Definition ots_classes : list TL1CommandClass := [RetrieveOts DEFAULT_CTAG; EditOts].

(** commands/maintenance_state.py.  The field [aidtype] is a [Literal]
    whose default, [None], is none of its values; pydantic does not validate
    defaults.  [IntoAdminMaintenance] has the help text of
    [MaintenanceSch]. *)
Definition IntoAdminMaintenance : TL1CommandClass :=
  {| class_name := "IntoAdminMaintenance";
     help_text := rmv_help_text;
     verb := "PUT"; modifier := "MAINTENANCE";
     response := TL1BaseResponse_class;
     model_fields :=
       fold_left declare
         [ optional "aidtype" (TLiteral aidtypes);
           required "aid" TStr;
           optional "mode" (TOptional TStr);
           optional "state" (TOptional TStr) ]
         (base_fields DEFAULT_CTAG);
     to_string_method :=
       MaintenanceState.to_string rmv_help_text "PUT" "MAINTENANCE" (Some "RMV") "RMV" |}.

Definition OutofAdminMaintenance : TL1CommandClass :=
  {| class_name := "OutofAdminMaintenance";
     help_text := rst_help_text;
     verb := "RST"; modifier := "MAINTENANCE";
     response := TL1BaseResponse_class;
     model_fields :=
       fold_left declare
         [ optional "aidtype" (TLiteral aidtypes);
           required "aid" TStr;
           optional "mode" (TOptional TStr) ]
         (base_fields DEFAULT_CTAG);
     to_string_method :=
       MaintenanceState.to_string rst_help_text "RST" "MAINTENANCE" None "RST" |}.

Definition maintenance_state_classes : list TL1CommandClass :=
  [IntoAdminMaintenance; OutofAdminMaintenance].
End OtherCommands.

(** *** commands/__init__.py *)

(** The package imports every module of its directory ([__init__] and
    [base] apart) in the order in which [Path.glob] yields the files; each
    import runs the class statements of the module.  A module is the list
    of its command classes. *)
Definition import_package (commands : gmap string TL1CommandClass)
    (modules : list (list TL1CommandClass)) : gmap string TL1CommandClass :=
  fold_left import_module modules commands.

(** Whether the metaclass registers a class under a name; the names under
    which a module registers classes; whether two modules register no name
    in common. *)
Definition derives (name : string) (cls : TL1CommandClass) : bool :=
  negb (String.eqb (class_name cls) "TL1BaseCommand")
  && String.eqb (TL1CommandRegistry.method_name cls) name.

Definition registered_names (classes : list TL1CommandClass) : list string :=
  map TL1CommandRegistry.method_name
      (List.filter (fun cls => negb (String.eqb (class_name cls) "TL1BaseCommand")) classes).

Definition disjoint_names (m1 m2 : list TL1CommandClass) : bool :=
  forallb (fun name => negb (existsb (String.eqb name) (registered_names m2)))
          (registered_names m1).

(** *** The response classes that pop without a default *)

(** [record.pop(key)] raises [KeyError] when the key is missing.  The
    hooks of commands/eqpt.py, oteintf.py, oel.py, osnc.py and ocrs.py raise
    nothing else; they are functions into [keyed]. *)
Inductive keyed (A : Type) : Type :=
  | Found (a : A)
  | KeyError (key : string).
Arguments Found {A} a.
Arguments KeyError {A} key.

(** [record[new] = record.pop(old)] *)
Definition pop_rename (rec : record) (new old : string) : keyed record :=
  match dict_get rec old with
  | Some v => Found (dict_set (dict_del rec old) new v)
  | None => KeyError old
  end.

(** The assignments of a hook's loop body, in order, as pairs of the new
    and the old key. *)
Fixpoint pop_renames (renames : list (string * string)) (rec : record) : keyed record :=
  match renames with
  | [] => Found rec
  | (new, old) :: renames' =>
      match pop_rename rec new old with
      | Found rec' => pop_renames renames' rec'
      | KeyError key => KeyError key
      end
  end.

(** [for record in parsed_data: ...; return parsed_data] *)
Fixpoint for_each_record (body : record -> keyed record) (parsed_data : list record)
  : keyed (list record) :=
  match parsed_data with
  | [] => Found []
  | rec :: parsed_data' =>
      match body rec with
      | Found rec' =>
          match for_each_record body parsed_data' with
          | Found l => Found (rec' :: l)
          | KeyError key => KeyError key
          end
      | KeyError key => KeyError key
      end
  end.

Module EqptResponse.
Definition renames : list (string * string) :=
  [("AID", "positional_param_0_0"); ("TYPE", "positional_param_1_0");
   ("OPERSTATE", "positional_param_3_0")].
Definition rename_positional_params : list record -> keyed (list record) :=
  for_each_record (pop_renames renames).
End EqptResponse.

Module OteintfResponse.
Definition renames : list (string * string) :=
  [("AID", "positional_param_0_0"); ("OPERSTATE", "positional_param_3_0");
   ("FACILITY", "positional_param_1_0")].
Definition rename_positional_params : list record -> keyed (list record) :=
  for_each_record (pop_renames renames).
End OteintfResponse.

Module OelResponse.
Definition renames : list (string * string) :=
  [("AID", "positional_param_0_0"); ("RESOURCETYPE", "positional_param_1_0");
   ("OPERSTATE", "positional_param_3_0")].
Definition rename_positional_params : list record -> keyed (list record) :=
  for_each_record (pop_renames renames).
End OelResponse.

Module OsncResponse.
Definition renames : list (string * string) :=
  [("LOCENDPOINT", "positional_param_0_0"); ("OPERSTATE", "positional_param_3_0")].
Definition rename_positional_params : list record -> keyed (list record) :=
  for_each_record (pop_renames renames).
End OsncResponse.

Module OcrsResponse.
Definition renames : list (string * string) :=
  [("FROMAID", "positional_param_0_0"); ("TOAID", "positional_param_0_1");
   ("CrossConnectType", "positional_param_1_0"); ("OPERSTATE", "positional_param_3_0")].
Definition rename_positional_params : list record -> keyed (list record) :=
  for_each_record (pop_renames renames).
End OcrsResponse.

(** The first of the keys that a hook pops which a record lacks. *)
Definition first_missing (renames : list (string * string)) (rec : record) : option string :=
  List.find (fun old => match dict_get rec old with Some _ => false | None => true end)
            (map snd renames).

(** *** utils/tl1_command_help_to_pydantic_generator.py *)

Module Generator.

Definition is_optional (param : string) : bool :=
  Py.startswith param "[" && Py.endswith param "]".

(** [parse_param]: the name, the enumerated values if any, and whether
    the parameter is optional. *)
Definition parse_param (param : string) : string * option (list string) * bool :=
  let optional := is_optional param in
  let clean_param := Py.strip_chars param "[]<>" in
  if negb (Py.contains clean_param "=") then
    let clean_param := Py.replace clean_param "|" "_" in
    (Py.lower clean_param, None, optional)
  else
    let '(name, values) := Py.split_once "=" clean_param in
    if Py.contains values "|" then (Py.lower name, Some (Py.split values "|"), optional)
    else (Py.lower name, None, optional).

End Generator.

(** *** Callers: core/client.py and products/services/optical_spectrum.py *)

(** [TnmsClient.flexils]: a client for one device.  The registry is the
    one of the process at that time. *)
Definition flexils (commands : gmap string TL1CommandClass) (self : TnmsClient)
    (device_uuid device_tid : string) : FlexILSClient :=
  Client.__init__ commands self device_uuid device_tid.

(** A call [flex.name] with keyword arguments: the attribute is looked up,
    then called. *)
Definition invoke (object_namespace : list string) (commands : gmap string TL1CommandClass)
    (flex : FlexILSClient) (name : string) (kw : kwargs) : result TL1BaseResponse :=
  method ← Client.getattribute object_namespace commands flex name;
  Client.call flex method kw.

(** [range(start, stop)] *)
Definition range (start stop : Z) : list Z :=
  map (fun k => start + Z.of_nat k) (seq 0 (Z.to_nat (stop - start))).

Section Callers.
Variable object_namespace : list string.
Variable commands : gmap string TL1CommandClass.

(** The loop of [_find_first_free_sch_id] over the indices that are left.
    Of the exceptions of the retrieval only [TL1CommandDeniedError] is
    caught; its attribute [response] is the raw response that [execute]
    raised it with. *)
Fixpoint free_sch_id_loop (flex : FlexILSClient) (port_name : string) (ids : list Z)
  : result Z :=
  match ids with
  | [] =>
      Raise (ValueError ("Could not find a free superchannel index for port " +:+ port_name))
  | i :: ids' =>
      match invoke object_namespace commands flex "rtrv_sch"
              [("aid", VAtom (AStr (port_name +:+ "-" +:+ pretty i)))] with
      | Ok _ => free_sch_id_loop flex port_name ids'
      | Raise (TL1CommandDeniedError device_uuid command response) =>
          if Py.contains response "SPECIFIED OBJECT ENTITY DOES NOT EXIST" then Ok i
          else Raise (TL1CommandDeniedError device_uuid command response)
      | Raise e => Raise e
      end
  end.

Definition _find_first_free_sch_id (flex : FlexILSClient) (port_name : string) : result Z :=
  let min_sch_id := 1 in
  let max_sch_id := 128 in
  free_sch_id_loop flex port_name (range min_sch_id (max_sch_id + 1)).

(** [_open_shutter]; [tnms_client] is the singleton of the package. *)
Definition _open_shutter (tnms_client : TnmsClient) (device_uuid device_name sch_aid : string)
  : result unit :=
  let flex := flexils commands tnms_client device_uuid device_name in
  _ ← invoke object_namespace commands flex "put_maintenance"
        [("aidtype", VAtom (AStr "SCH")); ("aid", VAtom (AStr sch_aid))];
  _ ← invoke object_namespace commands flex "ed_sch"
        [("aid", VAtom (AStr sch_aid)); ("shutterstate", VAtom (AStr "OPEN"))];
  _ ← invoke object_namespace commands flex "rst_maintenance"
        [("aidtype", VAtom (AStr "SCH")); ("aid", VAtom (AStr sch_aid))];
  Ok tt.
End Callers.

(** ** The parts of a template, as the serializer reads them *)











(** A parameter of a serialized section: the token of a named field, or a
    positional text. *)
Inductive param : Type :=
  | PNamed (name : string) (v : value)
  | PPos (text : string).










(** * Properties *)

(** ** Python's string operations on examples *)

Example ex_split : Py.split "a:b::c" ":" = ["a"; "b"; EmptyString; "c"].
Proof. reflexivity. Qed.
Example ex_split2 : Py.split "1&2&-3&4" "&-" = ["1&2"; "3&4"].
Proof. reflexivity. Qed.
Example ex_split3 :
  Py.split EmptyString "," = [EmptyString]
  /\ Py.split "&-&-" "&-" = [EmptyString; EmptyString; EmptyString]
  /\ Py.split "a&&-b" "&-" = ["a&"; "b"].
Proof. repeat split. Qed.
Example ex_splitlines :
  Py.splitlines ("a" +:+ String "013" (String "010" "b") +:+ String "010" EmptyString)
  = ["a"; "b"].
Proof. reflexivity. Qed.
Example ex_rfind :
  Py.rfind "abcabc" "bc" = 4 /\ Py.find "abcabc" "bc" = 1
  /\ Py.rfind "abc" "x" = -1 /\ Py.rfind "abc" EmptyString = 3.
Proof. repeat split. Qed.
Example ex_strip : Py.strip_chars "[<TID>]" "[]<>" = "TID" /\ Py.strip "  a b " = "a b".
Proof. repeat split. Qed.
Example ex_replace :
  Py.replace "[<A=a>][,<B=b>]" "[," ",[" = "[<A=a>],[<B=b>]"
  /\ Py.replace "aaa" "aa" "b" = "ba".
Proof. repeat split. Qed.
Example ex_lower : Py.lower "VALROUTE-OEL" = "valroute-oel".
Proof. reflexivity. Qed.
Example ex_match : Py.re_match_status " COMPLD x" = Some "COMPLD" /\ Py.re_match_status ":::" = None.
Proof. repeat split. Qed.
Example ex_ends : Py.endswith "[abc]" "]" = true /\ Py.strip_ends "'abc'" = "abc" /\ Py.strip_ends "a" = EmptyString.
Proof. repeat split. Qed.

Example ex_tokenizer_plain :
  Tokenizer.split_preserving_quotes (tl1 "AID='a,b:c',LABEL='x:y'") ":"
  = [tl1 "AID='a,b"; tl1 "c',LABEL='x"; tl1 "y'"].
Proof. reflexivity. Qed.
Example ex_tokenizer_escaped :
  Tokenizer.split_preserving_quotes (tl1 "AID=\'a,b:c\',LABEL=\'x:y\'") ":"
  = [tl1 "AID=\'a,b:c\',LABEL=\'x:y\'"].
Proof. reflexivity. Qed.

(** A response to RTRV-OTS as [OtsResponse] parses and renames it. *)
Example ex_ots_response :
  Parser.from_raw_text OtsResponse_class
    ("   NE-1 25-01-01 00:00:00" +:+ newline +:+ "M  CTAG COMPLD" +:+ newline
     +:+ tl1 "   '1-A-1-L1:OTS:LABEL=\'a b\',RXEQPTLIST=1-A-1&1-A-2:IS,ACT'"
     +:+ newline +:+ ";") "CTAG"
  = Ok {| status := "COMPLD";
          raw_data :=
            "CTAG COMPLD" +:+ newline
            +:+ tl1 "   '1-A-1-L1:OTS:LABEL=\'a b\',RXEQPTLIST=1-A-1&1-A-2:IS,ACT'"
            +:+ newline +:+ ";";
          parsed_data :=
            [[("LABEL", PStr (tl1 "\'a b\'")); ("RXEQPTLIST", PList ["1-A-1"; "1-A-2"]);
              ("AID", PStr "1-A-1-L1"); ("RESOURCETYPE", PStr "OTS");
              ("OPERSTATE", PStr "IS"); ("SUBOPERSTATE", PStr "ACT")]];
          ctag := "CTAG"; sid := None; tid := None |}.
Proof. reflexivity. Qed.

(** The named-parameter section of a serialized command is the comma join
    of the tokens of its named fields. *)
Example ex_to_string_tokens :
  (command ← Serializer.model_init (EditSch "CTAG")
               [("aid", VAtom (AStr "1-A-1-L1")); ("label", VAtom (AStr "x"));
                ("provpblist", VList [AStr "1"; AStr "2"])];
   to_string command)
  = (tokens ← encode_fields [("LABEL", VAtom (AStr "x"));
                             ("PROVPBLIST", VList [AStr "1"; AStr "2"])];
     Ok ("ED-SCH::1-A-1-L1:CTAG:::" +:+ Py.join "," tokens +:+ ":;")).
Proof. reflexivity. Qed.

(** Absent optional fields leave no token and no stray comma; an absent
    optional positional field leaves its column out, an empty list has no
    first element to look at. *)
Example ex_to_string_absent :
  (command ← Serializer.model_init (EditSch "CTAG")
               [("aid", VAtom (AStr "1-A-1-L1")); ("is_oos", VAtom (AStr "IS"))];
   to_string command) = Ok "ED-SCH::1-A-1-L1:CTAG::::IS;"
  /\ (command ← Serializer.model_init (MaintenanceSch "CTAG")
                  [("aid", VAtom (AStr "1-A-1-L1")); ("state", VAtom (AStr "x"))];
      to_string command) = Ok "RMV-SCH::1-A-1-L1:CTAG::x;"
  /\ (command ← Serializer.model_init (EnterSch "CTAG")
                  [("aid", VAtom (AStr "1-A-1-L1")); ("provpblist", VList [])];
      to_string command) = Raise IndexError
  /\ (exists f, Serializer.model_init (EditSch "CTAG") [("label", VAtom (AStr "x"))]
                = Raise (ValidationError f)).
Proof. repeat split. eexists. reflexivity. Qed.

(** ** Strings *)

Section StringFacts.
Implicit Types s t u p : string.

Lemma app_cons c s t : String c s +:+ t = String c (s +:+ t).
Proof. reflexivity. Qed.

Lemma app_nil_l s : EmptyString +:+ s = s.
Proof. reflexivity. Qed.

Lemma app_nil_r s : s +:+ EmptyString = s.
Proof. induction s as [|c s IH]; [reflexivity|]. rewrite app_cons, IH. reflexivity. Qed.

Lemma app_assoc s t u : (s +:+ t) +:+ u = s +:+ (t +:+ u).
Proof.
  induction s as [|c s IH]; [reflexivity|].
  rewrite !app_cons, IH. reflexivity.
Qed.

Lemma app_length s t : String.length (s +:+ t) = (String.length s + String.length t)%nat.
Proof.
  induction s as [|c s IH]; [reflexivity|].
  rewrite app_cons. simpl. rewrite IH. reflexivity.
Qed.

Lemma startswith_spec s p : Py.startswith s p = true <-> exists post, s = p +:+ post.
Proof.
  revert s. induction p as [|a p IH]; intros s; simpl.
  - split; [intros _; exists s; reflexivity | reflexivity].
  - destruct s as [|b s].
    + split; [discriminate | intros [post H]; discriminate].
    + destruct (Ascii.eqb_spec a b) as [->|Hne].
      * rewrite IH. split; intros [post H]; exists post.
        -- rewrite app_cons, H. reflexivity.
        -- rewrite app_cons in H. congruence.
      * split; [discriminate | intros [post H]].
        rewrite app_cons in H. congruence.
Qed.

Lemma occurs_here s sub : Py.startswith s sub = true -> occurs sub s.
Proof.
  intros [post H]%startswith_spec. exists EmptyString, post. exact H.
Qed.

Lemma occurs_cons c s sub : occurs sub s -> occurs sub (String c s).
Proof.
  intros (pre & post & ->). exists (String c pre), post. reflexivity.
Qed.

Lemma occurs_inv c s sub :
  occurs sub (String c s) -> Py.startswith (String c s) sub = true \/ occurs sub s.
Proof.
  intros (pre & post & H). destruct pre as [|a pre].
  - left. apply startswith_spec. exists post. exact H.
  - right. rewrite app_cons in H. injection H as _ ->. exists pre, post. reflexivity.
Qed.

Lemma occurs_empty sub : occurs sub EmptyString -> sub = EmptyString.
Proof.
  intros (pre & post & H). destruct pre; [|discriminate].
  destruct sub; [reflexivity | discriminate].
Qed.

Lemma rfind_from_absent sub s i : ~ occurs sub s -> Py.rfind_from sub s i = -1.
Proof.
  revert i. induction s as [|c s IH]; intros i Hno.
  - simpl. destruct sub; [|reflexivity].
    exfalso. apply Hno. exists EmptyString, EmptyString. reflexivity.
  - cbn [Py.rfind_from].
    rewrite IH by (intros H; apply Hno, occurs_cons, H).
    change (-1 =? -1) with true. cbv iota.
    destruct (Py.startswith (String c s) sub) eqn:E; [|reflexivity].
    exfalso. apply Hno, occurs_here, E.
Qed.

Lemma rfind_from_lower sub s i r : Py.rfind_from sub s i = r -> r = -1 \/ i <= r.
Proof.
  revert i r. induction s as [|c s IH]; intros i r.
  - simpl. destruct (Py.startswith _ _); lia.
  - cbn [Py.rfind_from].
    destruct (Z.eqb_spec (Py.rfind_from sub s (i + 1)) (-1)) as [E|E].
    + destruct (Py.startswith _ _); lia.
    + intros <-. destruct (IH (i + 1) _ eq_refl); [contradiction | lia].
Qed.
End StringFacts.

(** ** The parser refuses a message without the tag *)

(** C3, as the code has it.  When the correlation tag does not occur in
    the raw text, [from_raw_text] raises the built-in [ValueError] of line
    76 with its message and returns no response object, whatever the
    response class. *)
Theorem from_raw_text_untagged (cls : response_class) (message tag : string) :
  ~ occurs tag message ->
  Parser.from_raw_text cls message tag
  = Raise (ValueError ("Could not find tag " +:+ tag +:+ " in message: " +:+ message)).
Proof.
  intros Hno. unfold Parser.from_raw_text, Parser.extract_status, Py.rfind.
  rewrite rfind_from_absent by exact Hno. reflexivity.
Qed.

Lemma not_occurs_X_abc : ~ occurs "X" "abc".
Proof.
  intros H. apply occurs_inv in H as [H|H]; [discriminate|].
  apply occurs_inv in H as [H|H]; [discriminate|].
  apply occurs_inv in H as [H|H]; [discriminate|].
  apply occurs_empty in H. discriminate.
Qed.

Lemma from_raw_text_untagged_witness :
  ~ occurs "X" "abc" /\
  Parser.from_raw_text TL1BaseResponse_class "abc" "X"
  = Raise (ValueError "Could not find tag X in message: abc").
Proof.
  split; [exact not_occurs_X_abc|].
  apply (from_raw_text_untagged TL1BaseResponse_class "abc" "X"), not_occurs_X_abc.
Defined.

(** The error of an untagged response is no [ProtocolError]: the code
    has no class of that name, and what line 76 raises is an instance of
    [ValueError], [Exception], [BaseException] and [object] only. *)
Lemma untagged_raises_value_error :
  ~ occurs "CTAG" "M  X COMPLD"
  /\ Parser.from_raw_text TL1BaseResponse_class "M  X COMPLD" "CTAG"
     = Raise (ValueError "Could not find tag CTAG in message: M  X COMPLD")
  /\ exn_mro (ValueError "Could not find tag CTAG in message: M  X COMPLD")
     = Some ["ValueError"; "Exception"; "BaseException"; "object"]
  /\ ~ (exists e,
          Parser.from_raw_text TL1BaseResponse_class "M  X COMPLD" "CTAG" = Raise e
          /\ (exn_class e = "ProtocolError"
              \/ exists classes, exn_mro e = Some classes /\ In "ProtocolError" classes)).
Proof.
  assert (H : Parser.from_raw_text TL1BaseResponse_class "M  X COMPLD" "CTAG"
              = Raise (ValueError "Could not find tag CTAG in message: M  X COMPLD"))
    by reflexivity.
  split; [|split; [exact H|split; [reflexivity|]]].
  - intros Hocc.
    repeat (apply occurs_inv in Hocc as [Hocc|Hocc]; [discriminate Hocc|]).
    apply occurs_empty in Hocc. discriminate Hocc.
  - intros (e & He & Hcls). rewrite H in He. injection He as <-.
    destruct Hcls as [Hcls | (classes & Hmro & Hin)]; [discriminate Hcls|].
    injection Hmro as <-. cbn [In] in Hin.
    repeat (destruct Hin as [Hin|Hin]; [discriminate Hin|]). exact Hin.
Qed.

(** ** The wire string of RTRV-OTS *)

(** C5. [RetrieveOts(aid="1-A-1-L1", ctag=CTAG)], built without a TID,
    serializes to ["RTRV-OTS::1-A-1-L1:" + CTAG + "::::;"]: the optional TID
    leaves an empty section, the four empty sections of the template stay,
    and the text ends with a semicolon. *)
Theorem retrieve_ots_to_string (DEFAULT_CTAG CTAG : string) :
  (command ← Serializer.model_init (RetrieveOts DEFAULT_CTAG)
               [("aid", VAtom (AStr "1-A-1-L1")); ("ctag", VAtom (AStr CTAG))];
   to_string command)
  = Ok ("RTRV-OTS::1-A-1-L1:" +:+ CTAG +:+ "::::;").
Proof.
  destruct CTAG as [|c s].
  - reflexivity.
  - transitivity (Ok (A:=string) (("RTRV-OTS::1-A-1-L1:" +:+ String c s +:+ "::::") +:+ ";")).
    + vm_compute. reflexivity.
    + rewrite !app_assoc. reflexivity.
Qed.

(** ** The registry *)

Section Registry.
Import TL1CommandRegistry.
Implicit Types commands : gmap string TL1CommandClass.

Lemma register_lookup commands cls :
  register commands cls !! method_name cls = Some cls.
Proof. unfold register. apply lookup_insert_eq. Qed.

Lemma register_lookup_ne commands cls name :
  name <> method_name cls -> register commands cls !! name = commands !! name.
Proof. intros Hne. unfold register. apply lookup_insert_ne. congruence. Qed.

Lemma register_size_taken commands cls :
  is_Some (commands !! method_name cls) ->
  size (register commands cls) = size commands.
Proof.
  intros [old Hold]. unfold register.
  rewrite <- (insert_delete_id commands (method_name cls) old) at 2 by exact Hold.
  rewrite <- (insert_delete_eq commands).
  rewrite !map_size_insert_None by apply lookup_delete_eq. reflexivity.
Qed.
End Registry.

(** C2, as the code has it.  [register] files a class under
    [lower(verb) + "_" + lower(modifier).replace("-", "_")]; afterwards that
    name holds the class just registered, so a name that was already taken
    now holds the newcomer (the last registration wins, the registry does
    not grow, and [register] has no failure to report); every other name
    keeps its entry.  The registry therefore holds one class per derived
    name. *)
Theorem register_last_wins (commands : gmap string TL1CommandClass) (cls : TL1CommandClass) :
  TL1CommandRegistry.method_name cls
    = Py.lower (verb cls) +:+ "_" +:+ Py.replace (Py.lower (modifier cls)) "-" "_"
  /\ TL1CommandRegistry.register commands cls !! TL1CommandRegistry.method_name cls = Some cls
  /\ (forall name, name <> TL1CommandRegistry.method_name cls ->
        TL1CommandRegistry.register commands cls !! name = commands !! name)
  /\ (is_Some (commands !! TL1CommandRegistry.method_name cls) ->
        size (TL1CommandRegistry.register commands cls) = size commands).
Proof.
  split; [reflexivity|]. split; [apply register_lookup|].
  split; [intros name; apply register_lookup_ne | apply register_size_taken].
Qed.

Lemma register_last_wins_witness :
  let commands := import_module ∅
    [RetrieveSch "CTAG"; EditSch "CTAG"; EnterSch "CTAG"; DeleteSch "CTAG"; MaintenanceSch "CTAG"] in
  let cls := RestoreAdminStateSch "CTAG" in
  "rtrv_sch" <> TL1CommandRegistry.method_name cls
  /\ is_Some (commands !! TL1CommandRegistry.method_name cls)
  /\ TL1CommandRegistry.register commands cls !! "rmv_sch" = Some cls
  /\ TL1CommandRegistry.register commands cls !! "rtrv_sch" = commands !! "rtrv_sch"
  /\ size (TL1CommandRegistry.register commands cls) = size commands.
Proof.
  intros commands cls.
  destruct (register_last_wins commands cls) as (_ & Hhere & Hother & Hsize).
  assert (Hne : "rtrv_sch" <> TL1CommandRegistry.method_name cls) by discriminate.
  assert (Htaken : is_Some (commands !! TL1CommandRegistry.method_name cls)).
  { exists (MaintenanceSch "CTAG"). reflexivity. }
  split; [exact Hne|]. split; [exact Htaken|].
  split; [exact Hhere|]. split; [exact (Hother _ Hne) | exact (Hsize Htaken)].
Defined.

(** The two maintenance classes of [commands/sch.py] are distinct classes
    with one derived name; importing the module leaves the first of them
    out of the registry without any failure. *)
Lemma register_collision :
  let commands := import_module ∅
    [RetrieveSch "CTAG"; EditSch "CTAG"; EnterSch "CTAG"; DeleteSch "CTAG"; MaintenanceSch "CTAG"] in
  class_name (MaintenanceSch "CTAG") <> class_name (RestoreAdminStateSch "CTAG")
  /\ TL1CommandRegistry.method_name (MaintenanceSch "CTAG")
     = TL1CommandRegistry.method_name (RestoreAdminStateSch "CTAG")
  /\ class_name <$> commands !! "rmv_sch" = Some "MaintenanceSch"
  /\ class_name <$> TL1CommandRegistry.new_class commands (RestoreAdminStateSch "CTAG") !! "rmv_sch"
     = Some "RestoreAdminStateSch"
  /\ size (import_module ∅ (sch_classes "CTAG")) = 5%nat.
Proof.
  cbv zeta. split; [discriminate|]. split; [reflexivity|].
  split; [reflexivity|]. split; [reflexivity|]. vm_compute. reflexivity.
Qed.

(** ** The client facade *)

Section ClientFacts.
Import Client.
Implicit Types commands : gmap string TL1CommandClass.

(** Binding every registry entry on the instance copies the registry. *)
Lemma init_command_methods_lookup commands name :
  _init_command_methods commands !! name = commands !! name.
Proof.
  unfold _init_command_methods.
  apply (map_fold_weak_ind (fun bound m => bound !! name = m !! name)).
  - reflexivity.
  - intros i x m bound _ IH.
    destruct (decide (i = name)) as [->|Hne].
    + rewrite !lookup_insert_eq. reflexivity.
    + rewrite !lookup_insert_ne by exact Hne. exact IH.
Qed.

Lemma construct_duplicate_tid self cls kw :
  In "tid" (dict_keys kw) -> construct self cls kw = Raise (TypeError_multiple_values "tid").
Proof.
  intros Hin. unfold construct.
  replace (existsb (String.eqb "tid") (dict_keys kw)) with true; [reflexivity|].
  symmetry. apply existsb_exists. exists "tid". split; [exact Hin | reflexivity].
Qed.

Lemma init_fields_get args fs fields name :
  Serializer.init_fields args fs = Ok fields ->
  In name (map field_name fs) ->
  exists v, dict_get fields name = Some v /\
    (forall a, dict_get args name = Some a -> v = a).
Proof.
  revert fields. induction fs as [|f fs IH]; intros fields Hinit Hin; [destruct Hin|].
  cbn [Serializer.init_fields] in Hinit.
  destruct (Serializer.init_field args f) as [[n v]|e] eqn:Hf; [|discriminate].
  cbn in Hinit.
  destruct (Serializer.init_fields args fs) as [xs|e] eqn:Hfs; [|discriminate].
  cbn in Hinit. injection Hinit as <-.
  assert (Hn : n = field_name f /\
               (forall a, dict_get args (field_name f) = Some a -> v = a)).
  { unfold Serializer.init_field in Hf.
    destruct (dict_get args (field_name f)) as [a|].
    - destruct (Serializer.type_ok _ _); [|discriminate].
      injection Hf as <- <-. split; [reflexivity | congruence].
    - destruct (field_default f); [|discriminate].
      injection Hf as <- <-. split; [reflexivity | discriminate]. }
  destruct Hn as [-> Hv]. cbn [dict_get].
  destruct (String.eqb_spec (field_name f) name) as [<-|Hne].
  - exists v. split; [reflexivity | exact Hv].
  - destruct Hin as [Heq|Hin]; [contradiction|].
    exact (IH xs eq_refl Hin).
Qed.

Lemma construct_tid self cls kw command :
  In "tid" (map field_name (model_fields cls)) ->
  construct self cls kw = Ok command ->
  field command "tid" = VAtom (AStr (device_tid self)).
Proof.
  intros Hdecl. unfold construct.
  destruct (existsb _ _); [discriminate|].
  unfold Serializer.model_init.
  destruct (Serializer.init_fields _ _) as [fields|e] eqn:Hinit; [|discriminate].
  cbn. intros [= <-].
  destruct (init_fields_get _ _ _ "tid" Hinit Hdecl) as (v & Hget & Hv).
  unfold field. cbn [cmd_fields]. rewrite Hget. cbn.
  apply Hv. reflexivity.
Qed.

(** A class made by [subclass] has the inherited field [tid]. *)
Lemma declare_keeps fs f name :
  In name (map field_name fs) -> In name (map field_name (declare fs f)).
Proof.
  induction fs as [|g fs IH]; [intros []|].
  cbn [declare]. destruct (String.eqb_spec (field_name g) (field_name f)) as [E|E].
  - cbn. rewrite E. tauto.
  - cbn. intros [H|H]; [left; exact H | right; exact (IH H)].
Qed.

Lemma subclass_has_tid D name help verb modifier resp own :
  In "tid" (map field_name (model_fields (subclass D name help verb modifier resp own))).
Proof.
  cbn [subclass model_fields].
  assert (H : In "tid" (map field_name (base_fields D))) by (left; reflexivity).
  revert H. generalize (base_fields D).
  induction own as [|f own IH]; intros fs H; [exact H|].
  cbn [fold_left]. apply IH, declare_keeps, H.
Qed.
End ClientFacts.

(** C7. For a client built over a registry and a name the registry holds,
    the method bound at construction and the method that [__getattr__]
    returns close over the same command class; called with the same keyword
    arguments they hand the same text to the transport and return the same
    result. *)
Theorem eager_lazy_agree (object_namespace : list string)
    (commands : gmap string TL1CommandClass) (tnms : TnmsClient)
    (uuid tid name : string) (cmd_cls : TL1CommandClass) (kw : kwargs) :
  commands !! name = Some cmd_cls ->
  let self := Client.__init__ commands tnms uuid tid in
  exists eager lazy,
    Client.getattribute object_namespace commands self name = Ok eager
    /\ Client.__getattr__ commands self name = Ok lazy
    /\ Client.request_of self eager kw = Client.request_of self lazy kw
    /\ Client.call self eager kw = Client.call self lazy kw
    /\ Client.call self eager kw = Client.method self cmd_cls kw.
Proof.
  intros Hreg self. exists (AttrMethod cmd_cls), (AttrMethod cmd_cls).
  unfold Client.getattribute, Client.__getattr__. subst self. cbn [bound_methods Client.__init__].
  rewrite init_command_methods_lookup, Hreg. auto.
Qed.

Lemma eager_lazy_agree_witness :
  let commands := import_module ∅ (sch_classes "CTAG") in
  let self := Client.__init__ commands (fixed_reply "M  CTAG COMPLD") "uuid-1" "NE-1" in
  let kw := [("aid", VAtom (AStr "1-A-1-L1"))] in
  commands !! "rtrv_sch" = Some (RetrieveSch "CTAG")
  /\ exists eager lazy,
    Client.getattribute [] commands self "rtrv_sch" = Ok eager
    /\ Client.__getattr__ commands self "rtrv_sch" = Ok lazy
    /\ Client.request_of self eager kw = Client.request_of self lazy kw
    /\ Client.call self eager kw = Client.call self lazy kw
    /\ Client.call self eager kw = Client.method self (RetrieveSch "CTAG") kw.
Proof.
  intros commands self kw. split; [reflexivity|].
  apply (eager_lazy_agree [] commands (fixed_reply "M  CTAG COMPLD") "uuid-1" "NE-1"
           "rtrv_sch" (RetrieveSch "CTAG") kw).
  reflexivity.
Defined.

(** C8, as the code has it.  Resolving a name on a client fails exactly
    when the name is no registered command and no attribute that the
    instance, the class or [object] already has.  The lookup then reaches
    [__getattr__], and the error is the built-in [AttributeError] naming
    the class and the attribute: an instance of [AttributeError],
    [Exception], [BaseException] and [object], the registry-miss error of
    this code. *)
Theorem unknown_attribute (object_namespace : list string)
    (commands : gmap string TL1CommandClass) (tnms : TnmsClient) (uuid tid name : string) :
  let self := Client.__init__ commands tnms uuid tid in
  (Client.getattribute object_namespace commands self name
   = Raise (AttributeError "FlexILSClient" name)
   <-> commands !! name = None
       /\ ~ In name (["device_uuid"; "device_tid"; "tnms_client"]
                     ++ Client.class_namespace ++ object_namespace))
  /\ (forall e,
        Client.getattribute object_namespace commands self name = Raise e ->
        e = AttributeError "FlexILSClient" name
        /\ Client.__getattr__ commands self name = Raise e
        /\ exn_mro e = Some ["AttributeError"; "Exception"; "BaseException"; "object"]).
Proof.
  intros self.
  assert (Hcases :
    (commands !! name = None
     /\ ~ In name (["device_uuid"; "device_tid"; "tnms_client"]
                   ++ Client.class_namespace ++ object_namespace)
     /\ Client.getattribute object_namespace commands self name
        = Raise (AttributeError "FlexILSClient" name)
     /\ Client.__getattr__ commands self name = Raise (AttributeError "FlexILSClient" name))
    \/ ((is_Some (commands !! name)
         \/ In name (["device_uuid"; "device_tid"; "tnms_client"]
                     ++ Client.class_namespace ++ object_namespace))
        /\ exists a, Client.getattribute object_namespace commands self name = Ok a)).
  { unfold Client.getattribute, Client.__getattr__. subst self.
    cbn [bound_methods Client.__init__ device_uuid device_tid tnms_client].
    rewrite init_command_methods_lookup.
    destruct (commands !! name) as [cls|] eqn:Hreg; [right; split; eauto|].
    change (?a :: ?b :: ?c :: [] ++ ?l)%list with (a :: b :: c :: l).
    destruct (String.eqb_spec name "device_uuid") as [->|N1];
      [right; split; [right; left; reflexivity | eauto]|].
    destruct (String.eqb_spec name "device_tid") as [->|N2];
      [right; split; [right; right; left; reflexivity | eauto]|].
    destruct (String.eqb_spec name "tnms_client") as [->|N3];
      [right; split; [right; right; right; left; reflexivity | eauto]|].
    destruct (existsb _ _) eqn:E.
    - right. split; [|eauto]. right. right. right. right.
      apply existsb_exists in E as (x & Hin & Hx).
      apply String.eqb_eq in Hx as ->. exact Hin.
    - left. split; [reflexivity|]. split; [|split; reflexivity].
      intros [H|[H|[H|H]]]; [congruence..|].
      assert (Hex : existsb (String.eqb name) (Client.class_namespace ++ object_namespace)
                    = true)
        by (apply existsb_exists; exists name; split; [exact H | apply String.eqb_refl]).
      congruence. }
  split.
  - split.
    + intros Hraise. destruct Hcases as [(H1 & H2 & _)|(_ & a & Ha)]; [auto|congruence].
    + intros [Hreg Hown]. destruct Hcases as [(_ & _ & H & _)|([[cls Hc]|Hin] & _)];
        [exact H | congruence | contradiction].
  - intros e He. destruct Hcases as [(_ & _ & H & Hga)|(_ & a & Ha)]; [|congruence].
    rewrite H in He. injection He as <-. split; [reflexivity|]. split; [exact Hga | reflexivity].
Qed.

Lemma unknown_attribute_witness :
  let commands := import_module ∅ (sch_classes "CTAG") in
  let self := Client.__init__ commands (fixed_reply "M  CTAG COMPLD") "uuid-1" "NE-1" in
  Client.getattribute ["__class__"; "__eq__"] commands self "rtrv_foo"
  = Raise (AttributeError "FlexILSClient" "rtrv_foo").
Proof.
  apply (proj1 (unknown_attribute ["__class__"; "__eq__"]
                  (import_module ∅ (sch_classes "CTAG")) (fixed_reply "M  CTAG COMPLD")
                  "uuid-1" "NE-1" "rtrv_foo")).
  split; [reflexivity|].
  cbn. intros H. repeat (destruct H as [H|H]; [discriminate H|]). exact H.
Defined.

(** A name that the registry does not hold and the client does not have
    reaches [__getattr__], and what is raised is the built-in
    [AttributeError], no [UnknownCommandError]: the code has no class of
    that name.  And [device_tid], which is no registered command name
    either, resolves to the device identity without any error. *)
Lemma registry_miss_is_attribute_error :
  let commands := import_module ∅ (sch_classes "CTAG") in
  let self := Client.__init__ commands (fixed_reply "M  CTAG COMPLD") "uuid-1" "NE-1" in
  commands !! "rtrv_otelink" = None
  /\ Client.__getattr__ commands self "rtrv_otelink"
     = Raise (AttributeError "FlexILSClient" "rtrv_otelink")
  /\ (forall object_namespace,
        ~ In "rtrv_otelink" object_namespace ->
        Client.getattribute object_namespace commands self "rtrv_otelink"
        = Raise (AttributeError "FlexILSClient" "rtrv_otelink")
        /\ ~ (exists e,
                Client.getattribute object_namespace commands self "rtrv_otelink" = Raise e
                /\ (exn_class e = "UnknownCommandError"
                    \/ exists classes,
                         exn_mro e = Some classes /\ In "UnknownCommandError" classes)))
  /\ commands !! "device_tid" = None
  /\ (forall object_namespace,
        Client.getattribute object_namespace commands self "device_tid" = Ok (AttrStr "NE-1")).
Proof.
  intros commands self.
  split; [reflexivity|]. split; [reflexivity|]. split; [|split; [reflexivity|]].
  - intros object_namespace Hobj.
    assert (H : Client.getattribute object_namespace commands self "rtrv_otelink"
                = Raise (AttributeError "FlexILSClient" "rtrv_otelink")).
    { unfold Client.getattribute.
      change (bound_methods self !! "rtrv_otelink") with (@None TL1CommandClass).
      change (String.eqb "rtrv_otelink" "device_uuid") with false.
      change (String.eqb "rtrv_otelink" "device_tid") with false.
      change (String.eqb "rtrv_otelink" "tnms_client") with false. cbv iota.
      destruct (existsb _ _) eqn:E; [|reflexivity].
      apply existsb_exists in E as (x & Hin & Hx). apply String.eqb_eq in Hx as <-.
      apply in_app_or in Hin as [Hin|Hin]; [|contradiction].
      cbn in Hin. repeat (destruct Hin as [Hin|Hin]; [discriminate Hin|]). destruct Hin. }
    split; [exact H|].
    intros (e & He & Hcls). rewrite H in He. injection He as <-.
    destruct Hcls as [Hcls | (classes & Hmro & Hin)]; [discriminate Hcls|].
    injection Hmro as <-. cbn [In] in Hin.
    repeat (destruct Hin as [Hin|Hin]; [discriminate Hin|]). exact Hin.
  - intros object_namespace. reflexivity.
Qed.

(** C9. Whatever class a client method was resolved to, its call is the
    call of [_execute_command] with the caller's keyword arguments, which
    builds the command with [tid=self.device_tid]: with [tid] among the
    keyword arguments the call ends in a [TypeError] for a keyword given
    twice (the construction of the command raises it for [tid]), and a
    command that is constructed carries the client's [device_tid] in its
    [tid] field. *)
Theorem client_sets_tid (self : FlexILSClient) (cmd_cls : TL1CommandClass) (kw : kwargs) :
  Client.call self (AttrMethod cmd_cls) kw = Client.method self cmd_cls kw
  /\ (Client.clash ["self"; "command_cls"] kw = None ->
       Client.method self cmd_cls kw
       = (command ← Client.construct self cmd_cls kw; Client.execute command self))
  /\ (In "tid" (dict_keys kw) ->
       Client.construct self cmd_cls kw = Raise (TypeError_multiple_values "tid")
       /\ exists k, Client.call self (AttrMethod cmd_cls) kw = Raise (TypeError_multiple_values k))
  /\ (In "tid" (map field_name (model_fields cmd_cls)) ->
       forall command, Client.construct self cmd_cls kw = Ok command ->
         field command "tid" = VAtom (AStr (device_tid self))).
Proof.
  split; [reflexivity|]. split; [|split].
  - intros Hclash. unfold Client.method. rewrite Hclash. reflexivity.
  - intros Hin. pose proof (construct_duplicate_tid self cmd_cls kw Hin) as H.
    split; [exact H|]. cbn [Client.call]. unfold Client.method.
    destruct (Client.clash _ kw) as [k|]; [exists k; reflexivity|].
    exists "tid". unfold Client._execute_command. rewrite H. reflexivity.
  - intros Hdecl command. apply construct_tid, Hdecl.
Qed.

Lemma client_sets_tid_witness :
  let self := Client.__init__ ∅ (fixed_reply "M  CTAG COMPLD") "uuid-1" "NE-1" in
  let cls := RetrieveOts "CTAG" in
  (exists k, Client.call self (AttrMethod cls) [("tid", VAtom (AStr "NE-2"))]
             = Raise (TypeError_multiple_values k))
  /\ Client.method self cls [("aid", VAtom (AStr "1-A-1-L1"))]
     = (command ← Client.construct self cls [("aid", VAtom (AStr "1-A-1-L1"))];
        Client.execute command self)
  /\ exists command,
       Client.construct self cls [("aid", VAtom (AStr "1-A-1-L1"))] = Ok command
       /\ field command "tid" = VAtom (AStr "NE-1").
Proof.
  intros self cls. split; [|split].
  - destruct (client_sets_tid self cls [("tid", VAtom (AStr "NE-2"))]) as (_ & _ & H & _).
    apply H. left. reflexivity.
  - destruct (client_sets_tid self cls [("aid", VAtom (AStr "1-A-1-L1"))]) as (_ & H & _).
    apply H. reflexivity.
  - destruct (client_sets_tid self cls [("aid", VAtom (AStr "1-A-1-L1"))]) as (_ & _ & _ & H).
    eexists. split; [reflexivity|].
    apply (H (subclass_has_tid _ _ _ _ _ _ _)). reflexivity.
Defined.

(** ** Denied commands *)

Section Contains.
Lemma find_from_present sub s i : 0 <= i -> occurs sub s -> i <= Py.find_from sub s i.
Proof.
  revert i. induction s as [|c s IH]; intros i Hi Hocc.
  - apply occurs_empty in Hocc as ->. cbn. lia.
  - cbn [Py.find_from].
    destruct (Py.startswith (String c s) sub) eqn:E; [lia|].
    apply occurs_inv in Hocc as [H|H]; [congruence|].
    specialize (IH (i + 1) ltac:(lia) H). lia.
Qed.

Lemma find_from_found sub s i : Py.find_from sub s i <> -1 -> occurs sub s.
Proof.
  revert i. induction s as [|c s IH]; intros i.
  - cbn [Py.find_from]. destruct (Py.startswith EmptyString sub) eqn:E.
    + intros _. apply occurs_here, E.
    + intros H. contradiction.
  - cbn [Py.find_from]. destruct (Py.startswith (String c s) sub) eqn:E.
    + intros _. apply occurs_here, E.
    + intros H. apply occurs_cons, (IH _ H).
Qed.

(** [Py.contains] decides [occurs]. *)
Lemma contains_occurs s sub : Py.contains s sub = true <-> occurs sub s.
Proof.
  unfold Py.contains, Py.find. split.
  - destruct (Z.eqb_spec (Py.find_from sub s 0) (-1)) as [E|E]; [discriminate|].
    intros _. exact (find_from_found _ _ _ E).
  - intros Hocc. pose proof (find_from_present sub s 0 ltac:(lia) Hocc).
    destruct (Z.eqb_spec (Py.find_from sub s 0) (-1)); [lia | reflexivity].
Qed.

Lemma contains_not_occurs s sub : Py.contains s sub = false <-> ~ occurs sub s.
Proof.
  rewrite <- contains_occurs. destruct (Py.contains s sub); split; congruence.
Qed.
End Contains.

(** C4, as the code has it.  Once the command has been serialized and the
    transport has answered: a response that contains DENY and not ALREADY
    makes [execute] raise [TL1CommandDeniedError] with the device id, the
    serialized command and the raw response; a response that contains DENY
    and ALREADY raises no such error, and [execute] returns what
    [from_raw_text] makes of the response under the command's tag. *)
Theorem execute_denied (self : TL1BaseCommand) (client : FlexILSClient)
    (command_str response_str : string) :
  to_string self = Ok command_str ->
  Client._execute_raw_command client command_str = Ok response_str ->
  occurs TL1CompletionStatus.DENY response_str ->
  (~ occurs TL1CompletionStatus.ALREADY response_str ->
     Client.execute self client
     = Raise (TL1CommandDeniedError (device_uuid client) command_str response_str))
  /\ (occurs TL1CompletionStatus.ALREADY response_str ->
        Client.execute self client
        = (tag ← Client.ctag_of self;
           Parser.from_raw_text (response (cmd_class self)) response_str tag)).
Proof.
  intros Hstr Hraw Hdeny. unfold Client.execute. rewrite Hstr. cbn.
  rewrite Hraw. cbn.
  apply contains_occurs in Hdeny. rewrite Hdeny. cbn [andb].
  split; intros Halready.
  - apply contains_not_occurs in Halready. rewrite Halready. reflexivity.
  - apply contains_occurs in Halready. rewrite Halready. reflexivity.
Qed.

Lemma execute_denied_witness :
  let denied := Client.__init__ ∅ (fixed_reply "M  CTAG DENY") "uuid-1" "NE-1" in
  let benign := Client.__init__ ∅ (fixed_reply "M  CTAG DENY ALREADY") "uuid-1" "NE-1" in
  Client.execute retrieve_ots_command denied
  = Raise (TL1CommandDeniedError "uuid-1" "RTRV-OTS:NE-1:1-A-1-L1:CTAG::::;" "M  CTAG DENY")
  /\ Client.execute retrieve_ots_command benign
     = Parser.from_raw_text OtsResponse_class "M  CTAG DENY ALREADY" "CTAG".
Proof.
  intros denied benign. split.
  - refine (proj1 (execute_denied retrieve_ots_command denied
                     "RTRV-OTS:NE-1:1-A-1-L1:CTAG::::;" "M  CTAG DENY" eq_refl eq_refl _) _).
    + apply contains_occurs. reflexivity.
    + apply contains_not_occurs. reflexivity.
  - refine (proj2 (execute_denied retrieve_ots_command benign
                     "RTRV-OTS:NE-1:1-A-1-L1:CTAG::::;" "M  CTAG DENY ALREADY" eq_refl eq_refl _) _).
    + apply contains_occurs. reflexivity.
    + apply contains_occurs. reflexivity.
Defined.

(** A response with DENY and ALREADY that lacks the tag: [execute] raises
    the parser's [ValueError]. *)
Lemma execute_already_raises :
  let client := Client.__init__ ∅ (fixed_reply "DENY ALREADY") "uuid-1" "NE-1" in
  Client._execute_raw_command client "RTRV-OTS:NE-1:1-A-1-L1:CTAG::::;" = Ok "DENY ALREADY"
  /\ Py.contains "DENY ALREADY" TL1CompletionStatus.DENY = true
  /\ Py.contains "DENY ALREADY" TL1CompletionStatus.ALREADY = true
  /\ Client.execute retrieve_ots_command client
     = Raise (ValueError "Could not find tag CTAG in message: DENY ALREADY").
Proof. repeat split. Qed.

(** ** The status word *)

Section Status.
Lemma space_not_word c : Py.isspace c = true -> Py.isword c = false.
Proof. destruct c as [[] [] [] [] [] [] [] []]; vm_compute; congruence. Qed.

Lemma rfind_from_last tag s pre rest i :
  0 <= i -> last_occurrence tag s pre rest ->
  Py.rfind_from tag s i = i + Z.of_nat (String.length pre).
Proof.
  revert pre i. induction s as [|c s IH]; intros pre i Hi [Heq Hlast].
  - destruct pre; [|discriminate]. destruct tag; [|discriminate]. cbn. lia.
  - cbn [Py.rfind_from]. destruct pre as [|a pre].
    + rewrite rfind_from_absent.
      * change (-1 =? -1) with true. cbv iota.
        replace (Py.startswith (String c s) tag) with true; [cbn; lia|].
        symmetry. apply startswith_spec. exists rest. exact Heq.
      * intros (p' & r' & ->).
        specialize (Hlast (String c p') r' eq_refl). cbn in Hlast. lia.
    + rewrite app_cons in Heq. injection Heq as -> Hs.
      assert (Hl : last_occurrence tag s pre rest).
      { split; [exact Hs|]. intros p' r' H'.
        specialize (Hlast (String a p') r'). rewrite app_cons, H' in Hlast.
        specialize (Hlast eq_refl). cbn in Hlast. lia. }
      rewrite (IH pre (i + 1) ltac:(lia) Hl).
      destruct (Z.eqb_spec (i + 1 + Z.of_nat (String.length pre)) (-1)); [lia|].
      cbn [String.length]. lia.
Qed.

Lemma drop_app s t : Py.drop (String.length s) (s +:+ t) = t.
Proof. induction s as [|c s IH]; [reflexivity|]. cbn [String.length]. rewrite app_cons. exact IH. Qed.

Lemma lstrip_spaces ws s :
  all_chars Py.isspace ws = true -> Py.lstrip Py.isspace (ws +:+ s) = Py.lstrip Py.isspace s.
Proof.
  induction ws as [|c ws IH]; [reflexivity|].
  cbn [all_chars]. intros [Hc Hws]%andb_prop. rewrite app_cons. cbn [Py.lstrip].
  rewrite Hc. exact (IH Hws).
Qed.

Lemma take_while_run w tail :
  all_chars Py.isword w = true ->
  match tail with EmptyString => True | String c _ => Py.isword c = false end ->
  Py.take_while Py.isword (w +:+ tail) = w.
Proof.
  intros Hw Htail. induction w as [|c w IH].
  - rewrite app_nil_l. destruct tail as [|c t]; [reflexivity|]. cbn. rewrite Htail. reflexivity.
  - cbn [all_chars] in Hw. apply andb_prop in Hw as [Hc Hw].
    rewrite app_cons. cbn [Py.take_while]. rewrite Hc, (IH Hw). reflexivity.
Qed.

Lemma re_match_status_run rest w : status_run rest w -> Py.re_match_status rest = Some w.
Proof.
  intros (ws & tail & -> & Hws & Hne & Hw & Htail). unfold Py.re_match_status.
  rewrite lstrip_spaces by exact Hws.
  destruct w as [|c w]; [contradiction|].
  assert (Hc : Py.isspace c = false).
  { cbn [all_chars] in Hw. apply andb_prop in Hw as [Hc _].
    destruct (Py.isspace c) eqn:E; [|reflexivity].
    apply space_not_word in E. congruence. }
  rewrite app_cons. cbn [Py.lstrip]. rewrite Hc. rewrite <- app_cons.
  rewrite take_while_run by assumption. reflexivity.
Qed.

Lemma lstrip_split s :
  exists ws, s = ws +:+ Py.lstrip Py.isspace s /\ all_chars Py.isspace ws = true.
Proof.
  induction s as [|c s (ws & Hs & Hws)]; [exists EmptyString; split; reflexivity|].
  cbn [Py.lstrip]. destruct (Py.isspace c) eqn:E.
  - exists (String c ws). rewrite app_cons, <- Hs. cbn [all_chars]. rewrite E, Hws. split; reflexivity.
  - exists EmptyString. split; reflexivity.
Qed.

Lemma take_while_split s :
  exists tail, s = Py.take_while Py.isword s +:+ tail
    /\ all_chars Py.isword (Py.take_while Py.isword s) = true
    /\ match tail with EmptyString => True | String c _ => Py.isword c = false end.
Proof.
  induction s as [|c s (tail & Hs & Hw & Htail)]; [exists EmptyString; repeat split|].
  cbn [Py.take_while]. destruct (Py.isword c) eqn:E.
  - exists tail. rewrite app_cons, <- Hs. cbn [all_chars]. rewrite E, Hw. repeat split. exact Htail.
  - exists (String c s). repeat split. exact E.
Qed.

Lemma re_match_status_some rest w : Py.re_match_status rest = Some w -> status_run rest w.
Proof.
  unfold Py.re_match_status. intros H.
  destruct (lstrip_split rest) as (ws & Hrest & Hws).
  destruct (take_while_split (Py.lstrip Py.isspace rest)) as (tail & Hs & Hw & Htail).
  destruct (Py.take_while Py.isword (Py.lstrip Py.isspace rest)) as [|c run] eqn:E; [discriminate|].
  injection H as <-. exists ws, tail.
  split; [rewrite <- Hs; exact Hrest|]. repeat split; try assumption. discriminate.
Qed.

Lemma extract_status_last tag message pre rest :
  last_occurrence tag message pre rest ->
  Parser.extract_status message tag
  = match Py.re_match_status rest with
    | Some w => Ok w
    | None => Raise (AttributeError "NoneType" "group")
    end.
Proof.
  intros Hlast. unfold Parser.extract_status, Py.rfind.
  rewrite (rfind_from_last tag message pre rest 0 ltac:(lia) Hlast).
  destruct (Z.eqb_spec (0 + Z.of_nat (String.length pre)) (-1)); [lia|].
  destruct Hlast as [-> _]. unfold Py.len.
  replace (Z.to_nat (0 + Z.of_nat (String.length pre) + Z.of_nat (String.length tag)))
    with (String.length (pre +:+ tag)) by (rewrite app_length; lia).
  rewrite <- app_assoc, drop_app. reflexivity.
Qed.
End Status.

Section LastOccurrence.
Lemma rfind_from_ge tag s pre rest i :
  0 <= i -> s = pre +:+ tag +:+ rest ->
  i + Z.of_nat (String.length pre) <= Py.rfind_from tag s i.
Proof.
  revert s i. induction pre as [|a pre IH]; intros s i Hi ->.
  - rewrite app_nil_l. cbn [String.length].
    assert (Hs : Py.startswith (tag +:+ rest) tag = true)
      by (apply startswith_spec; exists rest; reflexivity).
    destruct (tag +:+ rest) as [|c s] eqn:E.
    + cbn [Py.rfind_from]. rewrite Hs. lia.
    + cbn [Py.rfind_from].
      destruct (Z.eqb_spec (Py.rfind_from tag s (i + 1)) (-1)) as [E'|E'].
      * rewrite Hs. lia.
      * destruct (rfind_from_lower tag s (i + 1) _ eq_refl); lia.
  - rewrite app_cons. cbn [Py.rfind_from String.length].
    specialize (IH (pre +:+ tag +:+ rest) (i + 1) ltac:(lia) eq_refl).
    destruct (Z.eqb_spec (Py.rfind_from tag (pre +:+ tag +:+ rest) (i + 1)) (-1)); lia.
Qed.

(** The last occurrence is where [rfind] points. *)
Lemma last_occurrence_rfind tag message pre rest :
  message = pre +:+ tag +:+ rest ->
  Py.rfind message tag = Z.of_nat (String.length pre) ->
  last_occurrence tag message pre rest.
Proof.
  intros Heq Hr. split; [exact Heq|]. intros pre' rest' H'.
  pose proof (rfind_from_ge tag message pre' rest' 0 ltac:(lia) H') as Hge.
  unfold Py.rfind in Hr. lia.
Qed.

(** Where [rfind] points, the text occurs. *)
Lemma rfind_from_points sub s i r :
  Py.rfind_from sub s i = r -> r <> -1 ->
  exists pre rest, s = pre +:+ sub +:+ rest /\ r = i + Z.of_nat (String.length pre).
Proof.
  revert i r. induction s as [|c s IH]; intros i r.
  - cbn [Py.rfind_from]. destruct (Py.startswith EmptyString sub) eqn:E; [|congruence].
    intros <- _. apply startswith_spec in E as [post E].
    exists EmptyString, post. split; [exact E | cbn; lia].
  - cbn [Py.rfind_from].
    destruct (Z.eqb_spec (Py.rfind_from sub s (i + 1)) (-1)) as [E|E].
    + destruct (Py.startswith (String c s) sub) eqn:Hs; [|congruence].
      intros <- _. apply startswith_spec in Hs as [post Hs].
      exists EmptyString, post. split; [exact Hs | cbn; lia].
    + intros <- _. destruct (IH (i + 1) _ eq_refl E) as (pre & rest & -> & Hr).
      exists (String c pre), rest. split; [reflexivity|].
      rewrite Hr. cbn [String.length]. lia.
Qed.

(** A text that occurs has a last occurrence. *)
Lemma last_occurrence_exists tag message :
  occurs tag message -> exists pre rest, last_occurrence tag message pre rest.
Proof.
  intros (pre0 & post0 & H0).
  pose proof (rfind_from_ge tag message pre0 post0 0 ltac:(lia) H0) as Hge.
  destruct (rfind_from_points tag message 0 _ eq_refl ltac:(lia)) as (pre & rest & Heq & Hr).
  exists pre, rest. apply last_occurrence_rfind; [exact Heq|].
  unfold Py.rfind. lia.
Qed.
End LastOccurrence.

(** C10, as the code has it.  A tag that occurs in the message has a last
    occurrence; let [rest] be the text after it.  The status is extracted
    exactly when [rest] is optional whitespace followed by a word character,
    and it is then the maximal run of word characters that starts there; in
    every other case (no word character after the tag, as when the tag ends
    the text, or a character right after it that is neither whitespace nor
    a word character) [from_raw_text] stops with the [AttributeError] of
    [match.group]. *)
Theorem status_after_last_tag (cls : response_class) (tag message : string) :
  (occurs tag message -> exists pre rest, last_occurrence tag message pre rest)
  /\ forall pre rest, last_occurrence tag message pre rest ->
      (forall w, Parser.extract_status message tag = Ok w <-> status_run rest w)
      /\ ((forall w, ~ status_run rest w) ->
            Parser.extract_status message tag = Raise (AttributeError "NoneType" "group")
            /\ Parser.from_raw_text cls message tag = Raise (AttributeError "NoneType" "group"))
      /\ (has_word_char rest = false -> forall w, ~ status_run rest w).
Proof.
  split; [apply last_occurrence_exists|].
  intros pre rest Hlast.
  pose proof (extract_status_last tag message pre rest Hlast) as He.
  split; [|split].
  - intros w. rewrite He. split.
    + destruct (Py.re_match_status rest) eqn:E; [|discriminate].
      intros [= ->]. apply re_match_status_some, E.
    + intros H. rewrite (re_match_status_run _ _ H). reflexivity.
  - intros Hnone.
    assert (E : Parser.extract_status message tag = Raise (AttributeError "NoneType" "group")).
    { rewrite He. destruct (Py.re_match_status rest) eqn:E; [|reflexivity].
      exfalso. exact (Hnone _ (re_match_status_some _ _ E)). }
    split; [exact E|]. unfold Parser.from_raw_text. rewrite E. reflexivity.
  - intros Hno w (ws & tail & -> & Hws & Hne & Hw & _).
    destruct w as [|c w]; [contradiction|].
    cbn [all_chars] in Hw. apply andb_prop in Hw as [Hc _].
    clear -Hno Hc. induction ws as [|a ws IH].
    + rewrite app_nil_l, app_cons in Hno. cbn in Hno. rewrite Hc in Hno. discriminate.
    + rewrite app_cons in Hno. cbn [has_word_char] in Hno.
      apply orb_false_elim in Hno as [_ Hno]. exact (IH Hno).
Qed.

Lemma status_after_last_tag_witness :
  last_occurrence "CTAG" "M  CTAG COMPLD" "M  " " COMPLD"
  /\ Parser.extract_status "M  CTAG COMPLD" "CTAG" = Ok "COMPLD"
  /\ last_occurrence "CTAG" "M  CTAG" "M  " EmptyString
  /\ Parser.from_raw_text TL1BaseResponse_class "M  CTAG" "CTAG"
     = Raise (AttributeError "NoneType" "group").
Proof.
  assert (H1 : last_occurrence "CTAG" "M  CTAG COMPLD" "M  " " COMPLD")
    by (apply last_occurrence_rfind; reflexivity).
  assert (H2 : last_occurrence "CTAG" "M  CTAG" "M  " EmptyString)
    by (apply last_occurrence_rfind; reflexivity).
  split; [exact H1|]. split.
  - apply (proj2 (status_after_last_tag TL1BaseResponse_class _ _) _ _ H1).
    exists " ", EmptyString. repeat split. discriminate.
  - split; [exact H2|].
    destruct (proj2 (status_after_last_tag TL1BaseResponse_class _ _) _ _ H2)
      as (_ & Hnone & Hword).
    apply Hnone, Hword. reflexivity.
Defined.

(** A word character follows the last occurrence of the tag, and yet no
    status is extracted: the semicolon between them stops the match. *)
Lemma word_after_tag_not_extracted :
  last_occurrence "T" "T;AB" EmptyString ";AB"
  /\ has_word_char ";AB" = true
  /\ Parser.extract_status "T;AB" "T" = Raise (AttributeError "NoneType" "group")
  /\ ~ (forall tag message pre rest,
          last_occurrence tag message pre rest -> has_word_char rest = true ->
          exists w, Parser.extract_status message tag = Ok w).
Proof.
  assert (H : last_occurrence "T" "T;AB" EmptyString ";AB") by (apply last_occurrence_rfind; reflexivity).
  split; [exact H|]. split; [reflexivity|]. split; [reflexivity|].
  intros Hall. destruct (Hall _ _ _ _ H eq_refl) as [w Hw]. discriminate.
Qed.

(** ** The quote-aware tokenizer *)

Section TokenizerFacts.
Import Tokenizer.

Lemma member_opening a b c :
  member (str3 a b c) opening = true -> b = backslash.
Proof.
  unfold member, opening. cbn [existsb]. rewrite orb_false_r.
  intros [H|H]%orb_prop; apply String.eqb_eq in H; injection H; auto.
Qed.

Lemma member_closing a b c :
  member (str3 a b c) closing = true -> a = backslash.
Proof.
  unfold member, closing. cbn [existsb]. rewrite orb_false_r.
  intros [H|H]%orb_prop; apply String.eqb_eq in H; injection H; auto.
Qed.

(** Inside quotes, a character other than the backslash leaves the
    scanner inside quotes. *)
Lemma next_in_quotes_stays c text :
  Ascii.eqb c backslash = false -> next_in_quotes true (String c text) = true.
Proof.
  intros Hc. unfold next_in_quotes.
  destruct text as [|b [|d text]]; try reflexivity.
  destruct (member (str3 c b d) opening); [reflexivity|].
  destruct (member (str3 c b d) closing) eqn:E; [|reflexivity].
  apply member_closing in E. subst c. rewrite Ascii.eqb_refl in Hc. discriminate.
Qed.

(** A quoted region free of backslashes goes to the current part whole,
    delimiters included. *)
Lemma split_loop_quoted delimiter q rest parts current :
  no_backslash q = true ->
  split_loop delimiter (q +:+ rest) parts current true
  = split_loop delimiter rest parts (current +:+ q) true.
Proof.
  revert current. induction q as [|c q IH]; intros current Hq.
  - rewrite app_nil_l, app_nil_r. reflexivity.
  - cbn [no_backslash all_chars] in Hq. apply andb_prop in Hq as [Hc Hq].
    apply negb_true_iff in Hc.
    rewrite app_cons. cbn [split_loop].
    rewrite (next_in_quotes_stays c (q +:+ rest) Hc). rewrite andb_false_r.
    rewrite (IH _ Hq). rewrite app_assoc. reflexivity.
Qed.

(** Outside quotes, text without backslashes never opens a quoted region,
    and text without the delimiter is never split. *)
Lemma next_in_quotes_plain text :
  no_backslash text = true -> next_in_quotes false text = false.
Proof.
  unfold next_in_quotes. destruct text as [|a [|b [|c text]]]; try reflexivity.
  intros H. destruct (member (str3 a b c) opening) eqn:E.
  - apply member_opening in E. subst b.
    cbn in H. rewrite ?andb_false_r in H. discriminate.
  - destruct (member (str3 a b c) closing); reflexivity.
Qed.


(** An opening sequence puts the scanner inside quotes; the text up to the
    next backslash then goes to the current part, whatever delimiters it
    holds. *)
Lemma split_loop_enter delimiter o q rest parts current in_quotes :
  o = "="%char \/ o = ":"%char ->
  Py.startswith (q +:+ rest) "," = false -> Py.startswith (q +:+ rest) ":" = false ->
  no_backslash q = true ->
  split_loop delimiter (str3 o backslash dquote +:+ q +:+ rest) parts current in_quotes
  = split_loop delimiter rest parts (current +:+ str3 o backslash dquote +:+ q) true.
Proof.
  intros Ho Hc1 Hc2 Hq.
  rewrite <- (app_assoc current).
  rewrite <- (split_loop_quoted delimiter q rest parts _ Hq).
  unfold str3. rewrite !app_cons, app_nil_l.
  cbn [split_loop].
  assert (E1 : next_in_quotes in_quotes
                 (String o (String backslash (String dquote (q +:+ rest)))) = true).
  { destruct Ho as [-> | ->]; reflexivity. }
  rewrite E1, andb_false_r.
  assert (E2 : next_in_quotes true (String backslash (String dquote (q +:+ rest))) = true).
  { unfold next_in_quotes. destruct (q +:+ rest) as [|x t]; [reflexivity|].
    cbn in Hc1, Hc2.
    destruct (Ascii.eqb_spec "," x) as [<-|N1]; [discriminate|].
    destruct (Ascii.eqb_spec ":" x) as [<-|N2]; [discriminate|].
    unfold member, opening, closing, str3. cbn [existsb String.eqb].
    rewrite !Ascii.eqb_refl.
    replace (Ascii.eqb backslash "=") with false by reflexivity.
    replace (Ascii.eqb backslash ":") with false by reflexivity.
    cbn [orb].
    destruct (Ascii.eqb_spec x ",") as [->|_]; [contradiction|].
    destruct (Ascii.eqb_spec x ":") as [->|_]; [contradiction|]. reflexivity. }
  rewrite E2, andb_false_r.
  assert (E3 : next_in_quotes true (String dquote (q +:+ rest)) = true)
    by (apply next_in_quotes_stays; reflexivity).
  rewrite E3, andb_false_r.
  rewrite !app_assoc. reflexivity.
Qed.
End TokenizerFacts.

(** ** The round trip of a named field *)

Section AllChars.
Lemma all_chars_app p s t : all_chars p (s +:+ t) = all_chars p s && all_chars p t.
Proof.
  induction s as [|c s IH]; [reflexivity|].
  rewrite app_cons. cbn [all_chars]. rewrite IH, andb_assoc. reflexivity.
Qed.




End AllChars.

Section Strip.
Variable p : ascii -> bool.



End Strip.

Section Lines.
Definition no_linebreak (s : string) : bool :=
  all_chars (fun c => negb (Py.islinebreak c)) s.

Lemma splitlines_one l : no_linebreak l = true -> l <> EmptyString -> Py.splitlines l = [l].
Proof.
  induction l as [|c l IH]; [contradiction|]. intros Hl _.
  cbn [no_linebreak all_chars] in Hl. apply andb_prop in Hl as [Hc Hl].
  apply negb_true_iff in Hc. cbn [Py.splitlines]. rewrite Hc.
  destruct l as [|c' l']; [reflexivity|].
  rewrite (IH Hl) by discriminate. reflexivity.
Qed.

End Lines.

Section Split.

Lemma split_aux_single_app d x rest :
  all_chars (fun c => negb (Ascii.eqb c d)) x = true ->
  Py.split_aux (String d EmptyString) 0 (x +:+ String d rest)
  = x :: Py.split_aux (String d EmptyString) 0 rest.
Proof.
  induction x as [|c x IH].
  - intros _. rewrite app_nil_l. cbn [Py.split_aux Py.startswith].
    rewrite Ascii.eqb_refl. destruct rest; reflexivity.
  - cbn [all_chars]. intros [Hc Hx]%andb_prop. apply negb_true_iff in Hc.
    rewrite app_cons. cbn [Py.split_aux Py.startswith].
    rewrite Ascii.eqb_sym, Hc, (IH Hx). reflexivity.
Qed.









End Split.

Section Decode.















End Decode.

Section RoundTrip.













End RoundTrip.

Section Envelope.


End Envelope.

(** C1, as the code has it.  The scanner knows quotes only when they are
    escaped.  It enters quoted mode at an equals sign or a colon that is
    followed by a backslash and a double quote, and leaves it at a
    backslash and a double quote that are followed by a comma or a colon,
    whatever mode it was in.  After an opening sequence that no comma or colon follows directly,
    every character up to the next backslash, colon and comma included,
    goes to the current part.  When a comma or a colon follows the opening
    sequence directly, the backslash and the quote of the opening are read
    as a closing sequence: the scanner is outside quotes again when it
    reaches that character.  The response line of the claim, written with
    backslash-escaped quotes as the wire has them, parses into exactly two
    named fields, AID and LABEL, whose values keep the escaped quotes that
    the line's quote stripping does not remove. *)
Theorem escaped_quotes_protect_delimiters :
  (forall delimiter o q rest parts current in_quotes,
     o = "="%char \/ o = ":"%char ->
     Py.startswith (q +:+ rest) "," = false -> Py.startswith (q +:+ rest) ":" = false ->
     no_backslash q = true ->
     Tokenizer.split_loop delimiter (Tokenizer.str3 o backslash dquote +:+ q +:+ rest)
       parts current in_quotes
     = Tokenizer.split_loop delimiter rest parts
         (current +:+ Tokenizer.str3 o backslash dquote +:+ q) true)
  /\ (forall delimiter o c rest parts current in_quotes,
        o = "="%char \/ o = ":"%char ->
        c = ","%char \/ c = ":"%char ->
        delimiter = ","%char \/ delimiter = ":"%char ->
        Tokenizer.split_loop delimiter
          (Tokenizer.str3 o backslash dquote +:+ String c rest) parts current in_quotes
        = Tokenizer.split_loop delimiter (String c rest) parts
            (current +:+ Tokenizer.str3 o backslash dquote) false)
  /\ (forall delimiter c rest parts current in_quotes,
        c = ","%char \/ c = ":"%char ->
        delimiter = ","%char \/ delimiter = ":"%char ->
        Tokenizer.split_loop delimiter
          (Tokenizer.str3 backslash dquote c +:+ rest) parts current in_quotes
        = Tokenizer.split_loop delimiter (String c rest) parts
            (current +:+ String backslash (String dquote EmptyString)) false)
  /\ Tokenizer.split_preserving_quotes (tl1 "A=\',b\',C=1") ","
     = [tl1 "A=\'"; tl1 "b\'"; "C=1"]
  /\ Parser.parse_line escaped_line = Some escaped_record
  /\ Parser.from_raw_text TL1BaseResponse_class
       ("M  CTAG COMPLD" +:+ newline +:+ "   " +:+ escaped_line +:+ newline +:+ ";") "CTAG"
     = Ok {| status := "COMPLD";
             raw_data := "CTAG COMPLD" +:+ newline +:+ "   " +:+ escaped_line +:+ newline +:+ ";";
             parsed_data := [escaped_record];
             ctag := "CTAG"; sid := None; tid := None |}.
Proof.
  split; [|split; [|split; [|split; [|split]; reflexivity]]].
  - intros delimiter o q rest parts current in_quotes. apply split_loop_enter.
  - intros delimiter o c rest parts current in_quotes Ho Hc Hd.
    unfold Tokenizer.str3. rewrite !app_cons, app_nil_l.
    cbn [Tokenizer.split_loop].
    assert (E1 : Tokenizer.next_in_quotes in_quotes
                   (String o (String backslash (String dquote (String c rest)))) = true)
      by (destruct Ho as [-> | ->]; reflexivity).
    rewrite E1, andb_false_r.
    assert (E2 : Tokenizer.next_in_quotes true
                   (String backslash (String dquote (String c rest))) = false)
      by (destruct Hc as [-> | ->]; reflexivity).
    rewrite E2.
    assert (E3 : Tokenizer.next_in_quotes false (String dquote (String c rest)) = false)
      by (destruct rest; reflexivity).
    rewrite E3.
    replace (Ascii.eqb backslash delimiter) with false
      by (destruct Hd as [-> | ->]; reflexivity).
    replace (Ascii.eqb dquote delimiter) with false
      by (destruct Hd as [-> | ->]; reflexivity).
    cbn [andb]. rewrite !app_assoc. reflexivity.
  - intros delimiter c rest parts current in_quotes Hc Hd.
    unfold Tokenizer.str3. rewrite !app_cons, app_nil_l.
    cbn [Tokenizer.split_loop].
    assert (E1 : Tokenizer.next_in_quotes in_quotes
                   (String backslash (String dquote (String c rest))) = false)
      by (destruct Hc as [-> | ->]; reflexivity).
    rewrite E1.
    assert (E2 : Tokenizer.next_in_quotes false (String dquote (String c rest)) = false)
      by (destruct rest; reflexivity).
    rewrite E2.
    replace (Ascii.eqb backslash delimiter) with false
      by (destruct Hd as [-> | ->]; reflexivity).
    replace (Ascii.eqb dquote delimiter) with false
      by (destruct Hd as [-> | ->]; reflexivity).
    cbn [andb]. rewrite !app_assoc. reflexivity.
Qed.

Lemma escaped_quotes_protect_delimiters_witness :
  Tokenizer.split_loop ","
    (Tokenizer.str3 "=" backslash dquote +:+ "a,b:c" +:+ tl1 "\',LABEL") [] "AID" false
  = Tokenizer.split_loop "," (tl1 "\',LABEL") []
      ("AID" +:+ Tokenizer.str3 "=" backslash dquote +:+ "a,b:c") true
  /\ Tokenizer.split_loop "," (tl1 "\',LABEL") []
      ("AID" +:+ Tokenizer.str3 "=" backslash dquote +:+ "a,b:c") true
     = [tl1 "AID=\'a,b:c\'"; "LABEL"].
Proof.
  split; [|reflexivity].
  apply (proj1 escaped_quotes_protect_delimiters ","%char "="%char "a,b:c" (tl1 "\',LABEL") [] "AID" false);
    [left|..]; reflexivity.
Defined.

(** With plain quotes the scanner never enters quoted mode: the text splits
    at the quoted colons and commas, and the line yields five fields (or
    none at all when it does not itself begin with a quote). *)
Lemma plain_quotes_do_not_protect :
  Tokenizer.split_preserving_quotes (tl1 "AID='a,b:c',LABEL='x:y'") ":"
    = [tl1 "AID='a,b"; tl1 "c',LABEL='x"; tl1 "y'"]
  /\ Parser.parse_line (tl1 "AID='a,b:c',LABEL='x:y'") = None
  /\ Parser.parse_line plain_line = Some plain_record
  /\ Parser.from_raw_text TL1BaseResponse_class
       ("M  CTAG COMPLD" +:+ newline +:+ "   " +:+ plain_line +:+ newline +:+ ";") "CTAG"
     = Ok {| status := "COMPLD";
             raw_data := "CTAG COMPLD" +:+ newline +:+ "   " +:+ plain_line +:+ newline +:+ ";";
             parsed_data := [plain_record];
             ctag := "CTAG"; sid := None; tid := None |}
  /\ plain_record <> [("AID", PStr "a,b:c"); ("LABEL", PStr "x:y")].
Proof. repeat split; discriminate. Qed.
(** * Further properties of the engine *)

(** ** The tokenizer keeps the text *)

Section TokenizerWhole.
Import Tokenizer.

Lemma join_snoc sep l x :
  Py.join sep (l ++ [x])
  = match l with [] => x | _ => Py.join sep l +:+ sep +:+ x end.
Proof.
  induction l as [|y l IH]; [reflexivity|].
  destruct l as [|z l]; [reflexivity|].
  change (Py.join sep ((y :: z :: l) ++ [x]))
    with (y +:+ sep +:+ Py.join sep ((z :: l) ++ [x])).
  rewrite IH.
  change (Py.join sep (y :: z :: l)) with (y +:+ sep +:+ Py.join sep (z :: l)).
  rewrite !app_assoc. reflexivity.
Qed.

Lemma join_snoc_app sep l x t :
  Py.join sep (l ++ [x +:+ t]) = Py.join sep (l ++ [x]) +:+ t.
Proof.
  rewrite !join_snoc. destruct l; [reflexivity|]. rewrite !app_assoc. reflexivity.
Qed.

Lemma join_split_loop delimiter text parts current in_quotes :
  Py.join (String delimiter EmptyString) (split_loop delimiter text parts current in_quotes)
  = Py.join (String delimiter EmptyString) (parts ++ [current]) +:+ text.
Proof.
  revert parts current in_quotes.
  induction text as [|c text IH]; intros parts current in_quotes.
  - rewrite app_nil_r. reflexivity.
  - cbn [split_loop].
    destruct (Ascii.eqb_spec c delimiter) as [->|Hne]; cbn [andb].
    + destruct (negb (next_in_quotes in_quotes (String delimiter text))).
      * rewrite IH. rewrite (join_snoc _ (parts ++ [current])).
        destruct (parts ++ [current])%list eqn:E; [destruct parts; discriminate|].
        rewrite app_nil_r, app_assoc. reflexivity.
      * rewrite IH, join_snoc_app, app_assoc. reflexivity.
    + rewrite IH, join_snoc_app, app_assoc. reflexivity.
Qed.

Lemma split_loop_nonempty delimiter text parts current in_quotes :
  split_loop delimiter text parts current in_quotes <> [].
Proof.
  revert parts current in_quotes.
  induction text as [|c text IH]; intros parts current in_quotes.
  - destruct parts; discriminate.
  - cbn [split_loop]. destruct (_ && _); apply IH.
Qed.

Lemma split_aux_cons sep k s : exists x xs, Py.split_aux sep k s = x :: xs.
Proof.
  revert k. induction s as [|c s IH]; intros k; [cbn; eauto|].
  cbn [Py.split_aux]. destruct k as [|k]; [|apply IH].
  destruct (Py.startswith _ _); [eauto|].
  destruct (IH 0%nat) as (x & xs & ->). eauto.
Qed.

(** Outside quotes and without a backslash ahead, the loop is
    [str.split]: the first part of the split continues [current]. *)
Lemma split_loop_split delimiter text parts current :
  no_backslash text = true ->
  split_loop delimiter text parts current false
  = (parts ++ match Py.split_aux (String delimiter EmptyString) 0 text with
              | [] => [current]
              | x :: xs => (current +:+ x) :: xs
              end)%list.
Proof.
  revert parts current. induction text as [|c text IH]; intros parts current Hb.
  - cbn. rewrite app_nil_r. reflexivity.
  - cbn [split_loop]. rewrite (next_in_quotes_plain _ Hb).
    cbn [no_backslash all_chars] in Hb. apply andb_prop in Hb as [_ Hb].
    cbn [Py.split_aux Py.startswith String.length Nat.sub].
    rewrite (Ascii.eqb_sym delimiter c).
    destruct (Ascii.eqb c delimiter); cbn [andb negb].
    + rewrite (IH _ _ Hb). rewrite app_nil_r, <- List.app_assoc. cbn [app].
      destruct (split_aux_cons (String delimiter EmptyString) 0 text) as (x & xs & ->).
      reflexivity.
    + rewrite (IH _ _ Hb).
      destruct (split_aux_cons (String delimiter EmptyString) 0 text) as (x & xs & ->).
      rewrite app_assoc. reflexivity.
Qed.
End TokenizerWhole.

(** X1. [split_preserving_quotes] loses and reorders nothing: whatever the
    quoting, joining the parts it returns with the delimiter gives the text
    back, and there is always at least one part. *)
Theorem split_preserving_quotes_join (text : string) (delimiter : ascii) :
  Py.join (String delimiter EmptyString) (Tokenizer.split_preserving_quotes text delimiter)
  = text
  /\ Tokenizer.split_preserving_quotes text delimiter <> [].
Proof.
  unfold Tokenizer.split_preserving_quotes. split.
  - rewrite join_split_loop. reflexivity.
  - apply split_loop_nonempty.
Qed.

(** X2. On a text without a backslash no quoted region ever opens, and
    [split_preserving_quotes] is [str.split] at the delimiter: quotes that
    are not escaped protect nothing. *)
Theorem split_preserving_quotes_plain (text : string) (delimiter : ascii) :
  no_backslash text = true ->
  Tokenizer.split_preserving_quotes text delimiter
  = Py.split text (String delimiter EmptyString).
Proof.
  intros Hb. unfold Tokenizer.split_preserving_quotes, Py.split.
  rewrite (split_loop_split _ _ _ _ Hb). cbn [app].
  destruct (split_aux_cons (String delimiter EmptyString) 0 text) as (x & xs & ->).
  reflexivity.
Qed.

Lemma split_preserving_quotes_plain_witness :
  no_backslash (tl1 "AID='a,b',LABEL='x'") = true
  /\ Tokenizer.split_preserving_quotes (tl1 "AID='a,b',LABEL='x'") ","
     = Py.split (tl1 "AID='a,b',LABEL='x'") ",".
Proof.
  split; [reflexivity|].
  apply (split_preserving_quotes_plain (tl1 "AID='a,b',LABEL='x'") ","). reflexivity.
Defined.
(** ** What the parser returns *)

Section ParserFacts.

Lemma rfind_from_empty s i : 0 <= i -> Py.rfind_from EmptyString s i = i + Py.len s.
Proof.
  unfold Py.len. revert i. induction s as [|c s IH]; intros i Hi.
  - cbn. lia.
  - cbn [Py.rfind_from String.length]. rewrite IH by lia.
    destruct (Z.eqb_spec (i + 1 + Z.of_nat (String.length s)) (-1)); lia.
Qed.

Lemma drop_all s : Py.drop (String.length s) s = EmptyString.
Proof. induction s as [|c s IH]; [reflexivity | exact IH]. Qed.

(** Where [find] points, the text occurs for the first time. *)
Lemma find_from_first sub s i r :
  Py.find_from sub s i = r -> r <> -1 ->
  exists pre rest,
    s = pre +:+ sub +:+ rest /\ r = i + Z.of_nat (String.length pre)
    /\ forall pre' rest', s = pre' +:+ sub +:+ rest' ->
         (String.length pre <= String.length pre')%nat.
Proof.
  revert i r. induction s as [|c s IH]; intros i r.
  - cbn [Py.find_from]. destruct (Py.startswith EmptyString sub) eqn:E; [|congruence].
    intros <- _. apply startswith_spec in E as [post E].
    exists EmptyString, post. split; [exact E|]. split; [cbn; lia|]. intros; cbn; lia.
  - cbn [Py.find_from]. destruct (Py.startswith (String c s) sub) eqn:E.
    + intros <- _. apply startswith_spec in E as [post E].
      exists EmptyString, post. split; [exact E|]. split; [cbn; lia|]. intros; cbn; lia.
    + intros Hr Hne. destruct (IH (i + 1) r Hr Hne) as (pre & rest & -> & Hi & Hfirst).
      exists (String c pre), rest. split; [reflexivity|].
      split; [cbn [String.length]; lia|].
      intros pre' rest' H'. destruct pre' as [|a pre'].
      * rewrite app_nil_l in H'.
        assert (Py.startswith (String c (pre +:+ sub +:+ rest)) sub = true)
          by (apply startswith_spec; exists rest'; exact H').
        congruence.
      * rewrite app_cons in H'. injection H' as _ H'.
        specialize (Hfirst pre' rest' H'). cbn [String.length]. lia.
Qed.

Lemma extract_status_occurs message tag w :
  Parser.extract_status message tag = Ok w -> occurs tag message.
Proof.
  unfold Parser.extract_status.
  destruct (Z.eqb_spec (Py.rfind message tag) (-1)) as [E|E]; [discriminate|].
  intros _. destruct (rfind_from_points tag message 0 _ eq_refl E) as (pre & rest & H & _).
  exists pre, rest. exact H.
Qed.

Lemma all_chars_drop p n s : all_chars p s = true -> all_chars p (Py.drop n s) = true.
Proof.
  revert s. induction n as [|n IH]; intros s; [destruct s; auto|].
  destruct s as [|c s]; [reflexivity|]. cbn [all_chars Py.drop].
  intros [_ H]%andb_prop. exact (IH s H).
Qed.

Lemma all_chars_lstrip p q s : all_chars p s = true -> all_chars p (Py.lstrip q s) = true.
Proof.
  induction s as [|c s IH]; [reflexivity|]. intros H. cbn [Py.lstrip].
  destruct (q c); [|exact H].
  cbn [all_chars] in H. apply andb_prop in H as [_ H]. exact (IH H).
Qed.

Lemma all_chars_rstrip p q s : all_chars p s = true -> all_chars p (Py.rstrip q s) = true.
Proof.
  induction s as [|c s IH]; [reflexivity|].
  cbn [all_chars]. intros [Hc Hs]%andb_prop. cbn [Py.rstrip].
  specialize (IH Hs). destruct (Py.rstrip q s) as [|a r].
  - destruct (q c); [reflexivity|]. cbn [all_chars]. rewrite Hc. reflexivity.
  - cbn [all_chars] in IH |- *. rewrite Hc, IH. reflexivity.
Qed.

Lemma splitlines_no_linebreak s :
  no_linebreak s = true -> tail (Py.splitlines s) = [].
Proof.
  intros H. destruct s as [|c s]; [reflexivity|].
  rewrite splitlines_one by (exact H || discriminate). reflexivity.
Qed.
End ParserFacts.

(** X3. With the empty string as tag [from_raw_text] never returns: the
    last occurrence of the empty tag is at the end of the message, no status
    word follows it, and the unguarded [match.group] raises
    [AttributeError], whatever the message and the response class. *)
Theorem from_raw_text_empty_tag (cls : response_class) (message : string) :
  Parser.from_raw_text cls message EmptyString
  = Raise (AttributeError "NoneType" "group").
Proof.
  unfold Parser.from_raw_text, Parser.extract_status, Py.rfind.
  rewrite rfind_from_empty by lia. unfold Py.len.
  destruct (Z.eqb_spec (0 + Z.of_nat (String.length message)) (-1)); [lia|].
  replace (Z.to_nat (0 + Z.of_nat (String.length message) + Z.of_nat (String.length EmptyString)))
    with (String.length message) by (cbn; lia).
  rewrite drop_all. reflexivity.
Qed.

(** X4. A response that [from_raw_text] returns carries the tag it was
    parsed under as [ctag], no [sid] and no [tid]; its [raw_data] is not
    the message but the message from the first occurrence of the tag on
    (the text before it is dropped), and its records are those of the lines
    of [raw_data] after the first, renamed by the class. *)
Theorem from_raw_text_response (cls : response_class) (message tag : string)
    (r : TL1BaseResponse) :
  Parser.from_raw_text cls message tag = Ok r ->
  ctag r = tag /\ sid r = None /\ tid r = None
  /\ (exists pre rest,
        message = pre +:+ raw_data r /\ raw_data r = tag +:+ rest
        /\ forall pre' rest', message = pre' +:+ tag +:+ rest' ->
             (String.length pre <= String.length pre')%nat)
  /\ rename_positional_params cls
       (omap Parser.parse_line (tail (Py.splitlines (Py.strip (raw_data r)))))
     = Ok (parsed_data r).
Proof.
  unfold Parser.from_raw_text.
  destruct (Parser.extract_status message tag) as [w|e] eqn:Hw; [|discriminate].
  cbn. destruct (rename_positional_params cls _) as [parsed|e] eqn:Hp; [|discriminate].
  cbn. intros [= <-]. cbn.
  do 3 (split; [reflexivity|]). split; [|exact Hp].
  pose proof (extract_status_occurs _ _ _ Hw) as Hocc.
  assert (Hne : Py.find message tag <> -1).
  { pose proof (find_from_present tag message 0 ltac:(lia) Hocc). unfold Py.find. lia. }
  destruct (find_from_first tag message 0 _ eq_refl Hne) as (pre & rest & Heq & Hi & Hfirst).
  exists pre, rest. unfold Py.find. rewrite Hi.
  replace (Z.to_nat (0 + Z.of_nat (String.length pre))) with (String.length pre) by lia.
  rewrite Heq at 2 3. rewrite drop_app. split; [exact Heq|]. split; [reflexivity|].
  exact Hfirst.
Qed.

Lemma from_raw_text_response_witness :
  let message := "M  CTAG COMPLD" +:+ newline +:+ tl1 "   '1-A-1-L1:OTS'" in
  let r := {| status := "COMPLD";
              raw_data := "CTAG COMPLD" +:+ newline +:+ tl1 "   '1-A-1-L1:OTS'";
              parsed_data := [[("positional_param_0_0", PStr "1-A-1-L1");
                               ("positional_param_1_0", PStr "OTS")]];
              ctag := "CTAG"; sid := None; tid := None |} in
  Parser.from_raw_text TL1BaseResponse_class message "CTAG" = Ok r
  /\ exists pre rest, message = pre +:+ raw_data r /\ raw_data r = "CTAG" +:+ rest
       /\ forall pre' rest', message = pre' +:+ "CTAG" +:+ rest' ->
            (String.length pre <= String.length pre')%nat.
Proof.
  intros message r.
  assert (H : Parser.from_raw_text TL1BaseResponse_class message "CTAG" = Ok r)
    by reflexivity.
  split; [exact H|].
  exact (proj1 (proj2 (proj2 (proj2
           (from_raw_text_response TL1BaseResponse_class message "CTAG" r H))))).
Defined.

(** X5. The line that holds the tag is the header and is never parsed: a
    message without a line break yields no record, even when the text after
    the tag is a quoted data line. *)
Theorem from_raw_text_single_line (cls : response_class) (message tag : string) :
  no_linebreak message = true ->
  Parser.from_raw_text cls message tag
  = (status ← Parser.extract_status message tag;
     parsed ← rename_positional_params cls [];
     Ok {| status := status;
           raw_data := Py.drop (Z.to_nat (Py.find message tag)) message;
           parsed_data := parsed; ctag := tag; sid := None; tid := None |}).
Proof.
  intros Hl. unfold Parser.from_raw_text.
  rewrite splitlines_no_linebreak; [reflexivity|].
  unfold Py.strip. apply all_chars_lstrip, all_chars_rstrip, all_chars_drop, Hl.
Qed.

Lemma from_raw_text_single_line_witness :
  no_linebreak (tl1 "CTAG COMPLD 'AID=1'") = true
  /\ (r ← Parser.from_raw_text TL1BaseResponse_class (tl1 "CTAG COMPLD 'AID=1'") "CTAG";
      Ok (parsed_data r)) = Ok [].
Proof.
  split; [reflexivity|].
  rewrite (from_raw_text_single_line TL1BaseResponse_class (tl1 "CTAG COMPLD 'AID=1'") "CTAG");
    reflexivity.
Defined.
(** ** Decoded values *)

Section DecodeFacts.

Lemma split_aux_occurs sep s :
  sep <> EmptyString -> occurs sep s -> (2 <= length (Py.split_aux sep 0 s))%nat.
Proof.
  intros Hsep. induction s as [|c s IH]; intros Hocc.
  - apply occurs_empty in Hocc. contradiction.
  - cbn [Py.split_aux]. destruct (Py.startswith (String c s) sep) eqn:E.
    + destruct (split_aux_cons sep (String.length sep - 1) s) as (x & xs & ->).
      cbn. lia.
    + apply occurs_inv in Hocc as [H|H]; [congruence|].
      specialize (IH H).
      destruct (split_aux_cons sep 0 s) as (x & xs & Hx). rewrite Hx in IH |- *.
      exact IH.
Qed.

(** No part of a split at one character holds that character. *)
Lemma split_aux_single_parts d s :
  Forall (fun x => all_chars (fun c => negb (Ascii.eqb c d)) x = true)
         (Py.split_aux (String d EmptyString) 0 s).
Proof.
  induction s as [|c s IH]; [repeat constructor|].
  cbn [Py.split_aux Py.startswith String.length Nat.sub].
  destruct (Ascii.eqb_spec d c) as [<-|Hne].
  - constructor; [reflexivity | exact IH].
  - destruct (split_aux_cons (String d EmptyString) 0 s) as (x & xs & Hx).
    rewrite Hx in IH |- *. inversion IH as [|? ? Hx' Hxs]; subst.
    constructor; [|exact Hxs]. cbn [all_chars]. rewrite Hx'.
    destruct (Ascii.eqb_spec c d) as [->|_]; [contradiction | reflexivity].
Qed.

Lemma no_char_not_contains d x :
  all_chars (fun c => negb (Ascii.eqb c d)) x = true ->
  Py.contains x (String d EmptyString) = false.
Proof.
  intros H. apply contains_not_occurs. intros (pre & post & ->).
  rewrite all_chars_app, app_cons in H. cbn [all_chars] in H.
  rewrite Ascii.eqb_refl in H. cbn in H. rewrite andb_false_r in H. discriminate.
Qed.

Lemma split_single_items d s :
  Forall (fun x => Py.contains x (String d EmptyString) = false)
         (Py.split s (String d EmptyString)).
Proof.
  eapply List.Forall_impl; [|apply split_aux_single_parts].
  intros x. apply no_char_not_contains.
Qed.
End DecodeFacts.

(** X6. What [from_raw_text] decodes a value to (lines 123-128): a value
    without [&] stays a string; otherwise it becomes a list, flat or of
    lists when [&-] occurs.  A decoded list always has at least two items,
    a decoded list of lists at least two rows, no row is empty and no item
    holds an [&]: a list of one item, which the serializer writes like a
    scalar, can never come back as a list. *)
Theorem decode_value_shape (value : string) :
  match Parser.decode_value value with
  | PStr s => Py.contains s "&" = false
  | PList l =>
      (2 <= length l)%nat /\ Forall (fun x => Py.contains x "&" = false) l
  | PListList rows =>
      (2 <= length rows)%nat
      /\ Forall (fun row => row <> []
                  /\ Forall (fun x => Py.contains x "&" = false) row) rows
  end.
Proof.
  unfold Parser.decode_value.
  generalize (if Py.startswith value Parser.dq && Py.endswith value Parser.dq
              then Py.strip_ends value else value).
  intros v. destruct (Py.contains v "&-") eqn:E2.
  - split.
    + rewrite length_map. apply split_aux_occurs; [discriminate|].
      apply contains_occurs, E2.
    + apply List.Forall_forall. intros row [piece [<- _]]%in_map_iff. split.
      * unfold Py.split. destruct (split_aux_cons "&" 0 piece) as (x & xs & ->). discriminate.
      * apply split_single_items.
  - destruct (Py.contains v "&") eqn:E1.
    + split; [|apply split_single_items].
      apply split_aux_occurs; [discriminate|]. apply contains_occurs, E1.
    + exact E1.
Qed.
(** ** The serializer *)

Section SerializerFacts.
Import Serializer.
Variables (help verb modifier : string) (fields : kwargs).



(** A section that is one positional parameter. *)
Lemma add_section_positional res section name :
  String.eqb (Py.strip section) EmptyString = false ->
  Py.split (Py.replace (Py.replace section ",]" "],") "[," ",[") "," = [section] ->
  String.eqb (Py.strip_chars section "[]<>") EmptyString = false ->
  Py.contains (Py.strip_chars section "[]<>") "=" = false ->
  Py.replace (Py.replace (Py.lower (Py.strip_chars section "[]<>")) "-" "_") "|" "_" = name ->
  add_section help verb modifier fields res section
  = (text ← section_text (getattr help verb modifier fields name);
     Ok ((res ++ [text])%list)).
Proof.
  intros H1 H2 H3 H4 H5. unfold add_section. rewrite H1, H2.
  cbn [add_parts]. unfold add_part. rewrite H3, H4, H5.
  destruct (getattr help verb modifier fields name) as [|a|l|l]; try reflexivity.
  - destruct (negb _); reflexivity.
  - cbn. destruct (str a); reflexivity.
Qed.

(** A section of two optional positional parameters: a parameter that is
    [None] leaves no placeholder. *)
Lemma add_section_two_optional res section part1 part2 name1 name2 :
  String.eqb (Py.strip section) EmptyString = false ->
  Py.split (Py.replace (Py.replace section ",]" "],") "[," ",[") "," = [part1; part2] ->
  Py.startswith part1 "[" && Py.endswith part1 "]" = true ->
  Py.startswith part2 "[" && Py.endswith part2 "]" = true ->
  String.eqb (Py.strip_chars part1 "[]<>") EmptyString = false ->
  String.eqb (Py.strip_chars part2 "[]<>") EmptyString = false ->
  Py.contains (Py.strip_chars part1 "[]<>") "=" = false ->
  Py.contains (Py.strip_chars part2 "[]<>") "=" = false ->
  Py.replace (Py.replace (Py.lower (Py.strip_chars part1 "[]<>")) "-" "_") "|" "_" = name1 ->
  Py.replace (Py.replace (Py.lower (Py.strip_chars part2 "[]<>")) "-" "_") "|" "_" = name2 ->
  add_section help verb modifier fields res section
  = match getattr help verb modifier fields name1, getattr help verb modifier fields name2 with
    | VNone, VNone => Ok ((res ++ [EmptyString])%list)
    | VNone, v | v, VNone => text ← str_value v; Ok ((res ++ [text])%list)
    | v1, v2 =>
        text1 ← str_value v1;
        text2 ← str_value v2;
        Ok ((res ++ [if String.eqb text1 EmptyString && String.eqb text2 EmptyString
                     then EmptyString else text1 +:+ "," +:+ text2])%list)
    end.
Proof.
  intros H0 Hs O1 O2 E1 E2 C1 C2 N1 N2. unfold add_section. rewrite H0, Hs.
  cbn [add_parts]. unfold add_part. rewrite O1, O2, E1, E2, C1, C2, N1, N2.
  destruct (getattr help verb modifier fields name1) as [|a|l|l];
    destruct (getattr help verb modifier fields name2) as [|b|k|k]; try reflexivity.
  - cbn. destruct (str b); reflexivity.
  - cbn. destruct (str a); reflexivity.
  - cbn. rewrite andb_true_r.
    destruct (String.eqb (str a) EmptyString && String.eqb (str b) EmptyString); reflexivity.
Qed.
End SerializerFacts.


Section Templates.

Lemma getattr_field (help verb modifier : string) (self : TL1BaseCommand) (name : string) :
  String.eqb name "help_text" = false -> String.eqb name "verb" = false ->
  String.eqb name "modifier" = false ->
  Serializer.getattr help verb modifier (cmd_fields self) name = field self name.
Proof.
  intros H1 H2 H3. unfold Serializer.getattr, field.
  destruct (dict_get (cmd_fields self) name); [reflexivity|].
  rewrite H1, H2, H3. reflexivity.
Qed.

Lemma split_head head rest :
  all_chars (fun c => negb (Ascii.eqb c ":")) head = true ->
  Py.split (head +:+ ":" +:+ rest) ":" = head :: Py.split rest ":".
Proof. intros H. unfold Py.split. apply (split_aux_single_app ":" head rest H). Qed.

Lemma add_sections_empty help verb modifier fields res n :
  Serializer.add_sections help verb modifier fields res (repeat EmptyString n)
  = Ok ((res ++ repeat EmptyString n)%list).
Proof.
  revert res. induction n as [|n IH]; intros res; [cbn; rewrite List.app_nil_r; reflexivity|].
  cbn [repeat Serializer.add_sections].
  change (Serializer.add_section help verb modifier fields res EmptyString)
    with (Ok (A:=list string) (res ++ [EmptyString])%list).
  cbn. rewrite IH, <- List.app_assoc. reflexivity.
Qed.

(** The positional head of every template: [:[<TID>]:<AID>:<CTAG>], the
    AID optional or not. *)
Lemma add_sections_head help verb modifier (self : TL1BaseCommand) res
    (optional_aid : bool) sections :
  Serializer.add_sections help verb modifier (cmd_fields self) res
    ("[<TID>]" :: (if optional_aid then "[<AID>]" else "<AID>") :: "<CTAG>" :: sections)
  = (tid ← section_text (field self "tid");
     aid ← section_text (field self "aid");
     ctag ← section_text (field self "ctag");
     Serializer.add_sections help verb modifier (cmd_fields self)
       ((res ++ [tid; aid; ctag])%list) sections).
Proof.
  cbn [Serializer.add_sections].
  rewrite (add_section_positional _ _ _ _ _ "[<TID>]" "tid") by reflexivity.
  rewrite getattr_field by reflexivity.
  destruct (section_text (field self "tid")) as [tid|e]; [|reflexivity]. cbn.
  assert (Haid : forall res,
    Serializer.add_section help verb modifier (cmd_fields self) res
      (if optional_aid then "[<AID>]" else "<AID>")
    = (text ← section_text (field self "aid"); Ok ((res ++ [text])%list))).
  { intros res0. rewrite <- (getattr_field help verb modifier self "aid") by reflexivity.
    destruct optional_aid; apply add_section_positional; reflexivity. }
  rewrite Haid.
  destruct (section_text (field self "aid")) as [aid|e]; [|reflexivity]. cbn.
  rewrite (add_section_positional _ _ _ _ _ "<CTAG>" "ctag") by reflexivity.
  rewrite getattr_field by reflexivity.
  destruct (section_text (field self "ctag")) as [ctag|e]; [|reflexivity]. cbn.
  rewrite <- !List.app_assoc. reflexivity.
Qed.
End Templates.

(** X8. The positional template.  For every class that inherits
    [to_string] and whose help text is a command code followed by
    [:[<TID>]:<AID>:<CTAG>::::] (the AID in brackets or not: RetrieveOts,
    RetrieveSch, DeleteSch and their like), the wire string is
    [verb-modifier:tid:aid:ctag::::;].  A field that is [None] gives an
    empty section; a field text is inserted as it is, whatever characters
    it holds: nothing is escaped or checked. *)
Theorem to_string_positional (D name head verb modifier : string) (resp : response_class)
    (own : list field_decl) (optional_aid : bool) (self : TL1BaseCommand) :
  all_chars (fun c => negb (Ascii.eqb c ":")) head = true ->
  cmd_class self
  = subclass D name
      (head +:+ ":" +:+ "[<TID>]:" +:+ (if optional_aid then "[<AID>]" else "<AID>")
       +:+ ":<CTAG>::::")
      verb modifier resp own ->
  to_string self
  = (tid ← section_text (field self "tid");
     aid ← section_text (field self "aid");
     ctag ← section_text (field self "ctag");
     Ok (verb +:+ "-" +:+ modifier +:+ ":" +:+ tid +:+ ":" +:+ aid +:+ ":" +:+ ctag
         +:+ "::::;")).
Proof.
  intros Hhead Hcls. unfold to_string. rewrite Hcls. cbn [to_string_method subclass].
  unfold Serializer.to_string. rewrite (split_head _ _ Hhead). cbn [tail].
  replace (Py.split ("[<TID>]:" +:+ (if optional_aid then "[<AID>]" else "<AID>")
                     +:+ ":<CTAG>::::") ":")
    with ("[<TID>]" :: (if optional_aid then "[<AID>]" else "<AID>") :: "<CTAG>"
          :: repeat EmptyString 4)
    by (destruct optional_aid; reflexivity).
  rewrite add_sections_head.
  destruct (section_text (field self "tid")) as [tid|e]; [|reflexivity].
  destruct (section_text (field self "aid")) as [aid|e]; [|reflexivity].
  destruct (section_text (field self "ctag")) as [ctag|e]; [|reflexivity].
  cbn [mbind result_bind].
  rewrite add_sections_empty. cbn.
  f_equal. rewrite !app_assoc. reflexivity.
Qed.

Lemma to_string_positional_witness :
  let self := {| cmd_class := DeleteSch "CTAG";
                 cmd_fields := [("tid", VNone); ("aid", VAtom (AStr "1-A-1:L1;"));
                                ("ctag", VAtom (AStr "CTAG"))] |} in
  to_string self = Ok "DLT-SCH::1-A-1:L1;:CTAG::::;".
Proof.
  intros self.
  exact (to_string_positional "CTAG" "DeleteSch" "DLT-SCH" "DLT" "SCH" TL1BaseResponse_class
           [required "aid" TStr] false self eq_refl eq_refl).
Defined.
Section MaintenanceSchFacts.

(** The wire string of the two maintenance classes of [commands/sch.py]. *)
Lemma maintenance_sch_to_string (D name : string) (self : TL1BaseCommand) :
  cmd_class self
  = subclass D name rmv_help_text "RMV" "SCH" TL1BaseResponse_class
      [required "aid" TStr; optional "mode" (TOptional TStr);
       optional "state" (TOptional TStr)] ->
  to_string self
  = (tid ← section_text (field self "tid");
     aid ← section_text (field self "aid");
     ctag ← section_text (field self "ctag");
     res ← Serializer.add_section rmv_help_text "RMV" "SCH" (cmd_fields self)
              ["RMV-SCH"; tid; aid; ctag; EmptyString] "[<mode>],[<state>]";
     Ok (Py.join ":" res +:+ ";")).
Proof.
  intros Hcls. unfold to_string. rewrite Hcls. cbn [to_string_method subclass].
  unfold Serializer.to_string.
  replace (tail (Py.split rmv_help_text ":"))
    with ["[<TID>]"; "<AID>"; "<CTAG>"; EmptyString; "[<mode>],[<state>]"]
    by (vm_compute; reflexivity).
  rewrite (add_sections_head rmv_help_text "RMV" "SCH" self _ false).
  destruct (section_text (field self "tid")) as [tid|e]; [|reflexivity].
  destruct (section_text (field self "aid")) as [aid|e]; [|reflexivity].
  destruct (section_text (field self "ctag")) as [ctag|e]; [|reflexivity].
  cbn [mbind result_bind Serializer.add_sections].
  change (Serializer.add_section rmv_help_text "RMV" "SCH" (cmd_fields self)
            (["RMV" +:+ "-" +:+ "SCH"] ++ [tid; aid; ctag]) EmptyString)
    with (Ok (A:=list string) ["RMV-SCH"; tid; aid; ctag; EmptyString]).
  cbn [mbind result_bind].
  destruct (Serializer.add_section _ _ _ _ _ _); reflexivity.
Qed.
End MaintenanceSchFacts.

(** X9. An optional positional parameter that is [None] leaves no
    placeholder, so the last section of RMV-SCH does not tell its two
    parameters apart: a [MaintenanceSch] (or [RestoreAdminStateSch])
    command with [mode] set to a value and no [state], and the command
    with that value as [state] and no [mode], serialize to the same wire
    string. *)
Theorem maintenance_mode_state_ambiguous (D : string) (self other : TL1BaseCommand)
    (v : value) :
  (cmd_class self = MaintenanceSch D \/ cmd_class self = RestoreAdminStateSch D) ->
  cmd_class other = cmd_class self ->
  field other "tid" = field self "tid" ->
  field other "aid" = field self "aid" ->
  field other "ctag" = field self "ctag" ->
  field self "mode" = v -> field self "state" = VNone ->
  field other "mode" = VNone -> field other "state" = v ->
  to_string self = to_string other.
Proof.
  intros Hcls Hother Htid Haid Hctag Hm Hs Hm' Hs'.
  assert (H : exists name, cmd_class self
    = subclass D name rmv_help_text "RMV" "SCH" TL1BaseResponse_class
        [required "aid" TStr; optional "mode" (TOptional TStr);
         optional "state" (TOptional TStr)]).
  { destruct Hcls as [-> | ->]; eexists; reflexivity. }
  destruct H as [name H].
  rewrite (maintenance_sch_to_string D name self H).
  rewrite (maintenance_sch_to_string D name other) by (rewrite Hother; exact H).
  rewrite Htid, Haid, Hctag.
  destruct (section_text (field self "tid")) as [tid|e]; [|reflexivity].
  destruct (section_text (field self "aid")) as [aid|e]; [|reflexivity].
  destruct (section_text (field self "ctag")) as [ctag|e]; [|reflexivity].
  cbn [mbind result_bind].
  rewrite !(add_section_two_optional _ _ _ _ _ "[<mode>],[<state>]"
              "[<mode>]" "[<state>]" "mode" "state") by reflexivity.
  rewrite !getattr_field by reflexivity.
  rewrite Hm, Hs, Hm', Hs'. destruct v; reflexivity.
Qed.

Lemma maintenance_mode_state_ambiguous_witness :
  let self := {| cmd_class := MaintenanceSch "CTAG";
                 cmd_fields := [("tid", VNone); ("aid", VAtom (AStr "1-A-1-L1-1"));
                                ("ctag", VAtom (AStr "CTAG"));
                                ("mode", VAtom (AStr "FRCD")); ("state", VNone)] |} in
  let other := {| cmd_class := MaintenanceSch "CTAG";
                  cmd_fields := [("tid", VNone); ("aid", VAtom (AStr "1-A-1-L1-1"));
                                 ("ctag", VAtom (AStr "CTAG"));
                                 ("mode", VNone); ("state", VAtom (AStr "FRCD"))] |} in
  to_string self = Ok "RMV-SCH::1-A-1-L1-1:CTAG::FRCD;"
  /\ to_string self = to_string other.
Proof.
  intros self other. split; [vm_compute; reflexivity|].
  exact (maintenance_mode_state_ambiguous "CTAG" self other (VAtom (AStr "FRCD"))
           (or_introl eq_refl) eq_refl eq_refl eq_refl eq_refl eq_refl eq_refl eq_refl eq_refl).
Defined.
(** ** Records and the renaming hooks *)

Section DictFacts.
Context {V : Type}.
Implicit Types d : list (string * V).

Lemma dict_get_set d k v k' :
  dict_get (dict_set d k v) k' = if String.eqb k k' then Some v else dict_get d k'.
Proof.
  induction d as [|[k0 v0] d IH]; cbn [dict_set dict_get].
  - reflexivity.
  - destruct (String.eqb_spec k0 k) as [->|Hne]; cbn [dict_get].
    + destruct (String.eqb k k'); reflexivity.
    + rewrite IH. destruct (String.eqb_spec k0 k') as [->|Hne']; [|reflexivity].
      destruct (String.eqb_spec k k') as [->|_]; [contradiction | reflexivity].
Qed.

Lemma dict_get_none d k : dict_get d k = None <-> ~ In k (dict_keys d).
Proof.
  induction d as [|[k0 v0] d IH]; cbn [dict_get dict_keys map fst In]; [tauto|].
  fold (dict_keys d). destruct (String.eqb_spec k0 k) as [->|Hne].
  - split; [discriminate | tauto].
  - rewrite IH. tauto.
Qed.

Lemma dict_keys_set_in d k v k' :
  In k' (dict_keys (dict_set d k v)) <-> k' = k \/ In k' (dict_keys d).
Proof.
  induction d as [|[k0 v0] d IH]; cbn [dict_set dict_keys map fst In].
  - intuition.
  - fold (dict_keys d). destruct (String.eqb_spec k0 k) as [->|Hne];
      cbn [dict_keys map fst In]; fold (dict_keys d); fold (dict_keys (dict_set d k v)).
    + intuition.
    + rewrite IH. intuition.
Qed.

Lemma dict_set_nodup d k v : List.NoDup (dict_keys d) -> List.NoDup (dict_keys (dict_set d k v)).
Proof.
  induction d as [|[k0 v0] d IH]; cbn [dict_set dict_keys map fst].
  - intros _. constructor; [intros []|constructor].
  - fold (dict_keys d). intros Hnd. inversion Hnd as [|? ? Hk0 Hd]; subst.
    destruct (String.eqb_spec k0 k) as [->|Hne]; cbn [dict_keys map fst];
      fold (dict_keys d); fold (dict_keys (dict_set d k v)).
    + constructor; assumption.
    + constructor; [|exact (IH Hd)].
      rewrite dict_keys_set_in. intros [E|E]; [congruence | contradiction].
Qed.

Lemma dict_keys_del_in d k k' : In k' (dict_keys (dict_del d k)) -> In k' (dict_keys d).
Proof.
  induction d as [|[k0 v0] d IH]; cbn [dict_del dict_keys map fst In]; [tauto|].
  fold (dict_keys d). destruct (String.eqb k0 k); cbn [dict_keys map fst In];
    fold (dict_keys d); fold (dict_keys (dict_del d k)); intuition.
Qed.

Lemma dict_del_nodup d k : List.NoDup (dict_keys d) -> List.NoDup (dict_keys (dict_del d k)).
Proof.
  induction d as [|[k0 v0] d IH]; cbn [dict_del dict_keys map fst]; [auto|].
  fold (dict_keys d). intros Hnd. inversion Hnd as [|? ? Hk0 Hd]; subst.
  destruct (String.eqb k0 k); [exact Hd|].
  cbn [dict_keys map fst]. fold (dict_keys (dict_del d k)).
  constructor; [|exact (IH Hd)]. intros H. apply Hk0, (dict_keys_del_in _ _ _ H).
Qed.

Lemma dict_get_del d k k' :
  List.NoDup (dict_keys d) ->
  dict_get (dict_del d k) k' = if String.eqb k k' then None else dict_get d k'.
Proof.
  induction d as [|[k0 v0] d IH]; cbn [dict_del dict_get dict_keys map fst].
  - intros _. destruct (String.eqb k k'); reflexivity.
  - fold (dict_keys d). intros Hnd. inversion Hnd as [|? ? Hk0 Hd]; subst.
    destruct (String.eqb_spec k0 k) as [->|Hne].
    + destruct (String.eqb_spec k k') as [->|_]; [|reflexivity].
      apply dict_get_none, Hk0.
    + cbn [dict_get]. rewrite (IH Hd).
      destruct (String.eqb_spec k0 k') as [->|_]; [|reflexivity].
      destruct (String.eqb_spec k k') as [->|_]; [contradiction | reflexivity].
Qed.
End DictFacts.

Section RenameFacts.

Lemma rename_param_nodup new old rec :
  List.NoDup (dict_keys rec) -> List.NoDup (dict_keys (rename_param new old rec)).
Proof.
  intros H. unfold rename_param, dict_pop_default.
  destruct (dict_get rec old); apply dict_set_nodup; [apply dict_del_nodup|]; exact H.
Qed.

(** [record[new] = record.pop(old, empty string)], read through lookups. *)
Lemma rename_param_get new old rec key :
  List.NoDup (dict_keys rec) ->
  dict_get (rename_param new old rec) key
  = if String.eqb new key then Some (default (PStr EmptyString) (dict_get rec old))
    else if String.eqb old key then None
    else dict_get rec key.
Proof.
  intros H. unfold rename_param, dict_pop_default.
  destruct (dict_get rec old) as [v|] eqn:E; rewrite dict_get_set.
  - rewrite (dict_get_del _ _ _ H). reflexivity.
  - destruct (String.eqb new key); [reflexivity|].
    destruct (String.eqb_spec old key) as [<-|_]; [exact E | reflexivity].
Qed.

Lemma fold_enumerate_invariant {A B : Type} (P : B -> Prop) (f : B -> nat -> A -> B) :
  (forall b i a, P b -> P (f b i a)) ->
  forall l i b, P b -> P (fold_enumerate f i l b).
Proof.
  intros Hf l. induction l as [|a l IH]; intros i b Hb; [exact Hb|].
  cbn [fold_enumerate]. apply IH, Hf, Hb.
Qed.

(** The records that the parser builds have no key twice. *)
Lemma parse_line_nodup line rec :
  Parser.parse_line line = Some rec -> List.NoDup (dict_keys rec).
Proof.
  unfold Parser.parse_line. destruct (Py.strip_chars line " ;") as [|c l]; [discriminate|].
  destruct (negb _); [discriminate|]. intros [= <-].
  apply fold_enumerate_invariant; [|constructor].
  intros b i section Hb. unfold Parser.parse_section.
  destruct (String.eqb _ _); [exact Hb|].
  apply fold_enumerate_invariant; [|exact Hb].
  intros b' j part Hb'. unfold Parser.parse_part.
  destruct (Py.contains part "="); [destruct (Py.split_once _ _)|];
    apply dict_set_nodup, Hb'.
Qed.
End RenameFacts.

(** X10. The renaming hook of [OtsResponse], [SchResponse] and
    [ScgResponse], on every record that the parser makes of a line.  After
    it the record always has the keys AID, RESOURCETYPE, OPERSTATE and
    SUBOPERSTATE: each holds what stood at its position
    ([positional_param_0_0], [_1_0], [_3_0], [_3_1]), or the empty string
    when the line had nothing there, and replaces a field of that name
    that the line may have had.  The four positional keys are gone and
    every other key keeps its value. *)
Theorem rename_ots_record (line : string) (rec : record) :
  Parser.parse_line line = Some rec ->
  let renamed := rename_ots rec in
  let position key := default (PStr EmptyString) (dict_get rec key) in
  dict_get renamed "AID" = Some (position "positional_param_0_0")
  /\ dict_get renamed "RESOURCETYPE" = Some (position "positional_param_1_0")
  /\ dict_get renamed "OPERSTATE" = Some (position "positional_param_3_0")
  /\ dict_get renamed "SUBOPERSTATE" = Some (position "positional_param_3_1")
  /\ (forall key,
        In key ["positional_param_0_0"; "positional_param_1_0";
                "positional_param_3_0"; "positional_param_3_1"] ->
        dict_get renamed key = None)
  /\ (forall key,
        ~ In key ["AID"; "RESOURCETYPE"; "OPERSTATE"; "SUBOPERSTATE";
                  "positional_param_0_0"; "positional_param_1_0";
                  "positional_param_3_0"; "positional_param_3_1"] ->
        dict_get renamed key = dict_get rec key).
Proof.
  intros Hline renamed position. subst renamed position.
  pose proof (parse_line_nodup _ _ Hline) as H0.
  pose proof (rename_param_nodup "AID" "positional_param_0_0" _ H0) as H1.
  pose proof (rename_param_nodup "RESOURCETYPE" "positional_param_1_0" _ H1) as H2.
  pose proof (rename_param_nodup "OPERSTATE" "positional_param_3_0" _ H2) as H3.
  assert (Hget : forall key,
    dict_get (rename_ots rec) key
    = if String.eqb "SUBOPERSTATE" key
      then Some (default (PStr EmptyString) (dict_get rec "positional_param_3_1"))
      else if String.eqb "positional_param_3_1" key then None
      else if String.eqb "OPERSTATE" key
      then Some (default (PStr EmptyString) (dict_get rec "positional_param_3_0"))
      else if String.eqb "positional_param_3_0" key then None
      else if String.eqb "RESOURCETYPE" key
      then Some (default (PStr EmptyString) (dict_get rec "positional_param_1_0"))
      else if String.eqb "positional_param_1_0" key then None
      else if String.eqb "AID" key
      then Some (default (PStr EmptyString) (dict_get rec "positional_param_0_0"))
      else if String.eqb "positional_param_0_0" key then None
      else dict_get rec key).
  { intros key. unfold rename_ots.
    rewrite (rename_param_get _ _ _ key H3).
    rewrite (rename_param_get _ _ _ "positional_param_3_1" H2).
    rewrite (rename_param_get _ _ _ "positional_param_3_1" H1).
    rewrite (rename_param_get _ _ _ "positional_param_3_1" H0).
    rewrite (rename_param_get _ _ _ key H2).
    rewrite (rename_param_get _ _ _ "positional_param_3_0" H1).
    rewrite (rename_param_get _ _ _ "positional_param_3_0" H0).
    rewrite (rename_param_get _ _ _ key H1).
    rewrite (rename_param_get _ _ _ "positional_param_1_0" H0).
    rewrite (rename_param_get _ _ _ key H0).
    reflexivity. }
  repeat split; try (rewrite Hget; reflexivity).
  - intros key Hin. rewrite Hget. cbn [In] in Hin.
    destruct Hin as [<-|[<-|[<-|[<-|[]]]]]; reflexivity.
  - intros key Hout. rewrite Hget. cbn [In] in Hout.
    repeat match goal with
    | |- context [String.eqb ?a key] =>
        destruct (String.eqb_spec a key) as [<-|_]; [exfalso; apply Hout; tauto|]
    end.
    reflexivity.
Qed.

Lemma rename_ots_record_witness :
  Parser.parse_line (tl1 "'1-A-1-L1::AID=x,LABEL=y'")
  = Some [("positional_param_0_0", PStr "1-A-1-L1"); ("AID", PStr "x"); ("LABEL", PStr "y")]
  /\ rename_ots [("positional_param_0_0", PStr "1-A-1-L1"); ("AID", PStr "x");
                 ("LABEL", PStr "y")]
     = [("AID", PStr "1-A-1-L1"); ("LABEL", PStr "y"); ("RESOURCETYPE", PStr EmptyString);
        ("OPERSTATE", PStr EmptyString); ("SUBOPERSTATE", PStr EmptyString)]
  /\ dict_get (rename_ots [("positional_param_0_0", PStr "1-A-1-L1"); ("AID", PStr "x");
                           ("LABEL", PStr "y")]) "OPERSTATE"
     = Some (PStr EmptyString).
Proof.
  split; [reflexivity|]. split; [reflexivity|].
  exact (proj1 (proj2 (proj2
    (rename_ots_record (tl1 "'1-A-1-L1::AID=x,LABEL=y'")
       [("positional_param_0_0", PStr "1-A-1-L1"); ("AID", PStr "x"); ("LABEL", PStr "y")]
       eq_refl)))).
Defined.
(** ** The registry and late registrations *)

Section ImportFacts.
Import TL1CommandRegistry.

Lemma import_module_snoc commands classes cls :
  import_module commands (classes ++ [cls]) = new_class (import_module commands classes) cls.
Proof. unfold import_module. rewrite fold_left_app. reflexivity. Qed.

Lemma import_module_find commands classes name :
  import_module commands classes !! name
  = match List.find (derives name) (rev classes) with
    | Some cls => Some cls
    | None => commands !! name
    end.
Proof.
  induction classes as [|cls classes IH] using rev_ind; [reflexivity|].
  rewrite import_module_snoc, rev_app_distr. cbn [rev app List.find].
  unfold new_class, derives.
  destruct (String.eqb (class_name cls) "TL1BaseCommand"); cbn [negb andb]; [exact IH|].
  destruct (String.eqb_spec (method_name cls) name) as [<-|Hne].
  - apply register_lookup.
  - rewrite register_lookup_ne by congruence. exact IH.
Qed.
End ImportFacts.

(** X11. Importing a module runs the metaclass on its classes in source
    order, each registration overwriting what its name held.  Afterwards a
    name holds the last class of the module that derives this name (the
    base class, which is not registered, apart), and when no class of the
    module derives it, what it held before: of two classes with one
    derived name only the later one can be reached. *)
Theorem import_module_lookup (commands : gmap string TL1CommandClass)
    (classes : list TL1CommandClass) (name : string) :
  import_module commands classes !! name
  = match List.find (derives name) (rev classes) with
    | Some cls => Some cls
    | None => commands !! name
    end.
Proof. apply import_module_find. Qed.

(** X12. The methods that [__init__] binds are a snapshot of the
    registry.  When a class is registered after a client was built, the
    client reaches it through [__getattr__] only if its derived name was
    free at construction; under a name that was taken then, the client
    keeps calling the class bound at construction, although the registry
    now holds the newcomer. *)
Theorem late_registration (object_namespace : list string)
    (commands : gmap string TL1CommandClass) (tnms : TnmsClient) (uuid tid : string)
    (cls : TL1CommandClass) :
  let self := Client.__init__ commands tnms uuid tid in
  let name := TL1CommandRegistry.method_name cls in
  let later := TL1CommandRegistry.register commands cls in
  later !! name = Some cls
  /\ (forall old, commands !! name = Some old ->
        Client.getattribute object_namespace later self name = Ok (AttrMethod old))
  /\ (commands !! name = None ->
      existsb (String.eqb name)
        (["device_uuid"; "device_tid"; "tnms_client"] ++ Client.class_namespace
         ++ object_namespace) = false ->
      Client.getattribute object_namespace later self name = Ok (AttrMethod cls)).
Proof.
  intros self name later. split; [apply register_lookup|].
  unfold Client.getattribute. subst self. cbn [bound_methods Client.__init__].
  rewrite init_command_methods_lookup. split.
  - intros old ->. reflexivity.
  - intros -> Hown. cbn [app existsb] in Hown.
    apply orb_false_elim in Hown as [H1 Hown].
    apply orb_false_elim in Hown as [H2 Hown].
    apply orb_false_elim in Hown as [H3 Hown].
    rewrite H1, H2, H3, Hown.
    unfold Client.__getattr__. subst later name. rewrite register_lookup. reflexivity.
Qed.
(** ** The maintenance commands *)

Section MaintenanceStateFacts.
Variables (help verb modifier : string) (actual_verb : option string) (command_verb : string).
Variable self : TL1BaseCommand.

Lemma ms_getattr_field (name : string) :
  String.eqb name "help_text" = false -> String.eqb name "verb" = false ->
  String.eqb name "modifier" = false -> String.eqb name "actual_verb" = false ->
  MaintenanceState.getattr help verb modifier actual_verb (cmd_fields self) name
  = field self name.
Proof.
  intros H1 H2 H3 H4. unfold MaintenanceState.getattr, Serializer.getattr, field.
  destruct (dict_get (cmd_fields self) name); [destruct actual_verb; reflexivity|].
  destruct actual_verb; rewrite ?H4, H1, H2, H3; reflexivity.
Qed.

(** A section that is one positional parameter. *)
Lemma ms_add_section_positional res section name :
  String.eqb (Py.strip section) EmptyString = false ->
  Py.split (Py.replace (Py.replace section ",]" "],") "[," ",[") "," = [section] ->
  String.eqb (Py.strip_chars section "[]<>") EmptyString = false ->
  Py.replace (Py.lower (Py.strip_chars section "[]<>")) "-" "_" = name ->
  MaintenanceState.add_section help verb modifier actual_verb (cmd_fields self) res section
  = (text ← section_text
              (MaintenanceState.getattr help verb modifier actual_verb (cmd_fields self) name);
     Ok ((res ++ [text])%list)).
Proof.
  intros H1 H2 H3 H5. unfold MaintenanceState.add_section. rewrite H1, H2.
  cbn [MaintenanceState.add_parts]. unfold MaintenanceState.add_part. rewrite H3, H5.
  destruct (MaintenanceState.getattr _ _ _ _ _ name) as [|a|l|l]; try reflexivity.
  destruct (negb _); reflexivity.
Qed.

Lemma ms_add_sections_head res sections :
  MaintenanceState.add_sections help verb modifier actual_verb (cmd_fields self) res
    ("[<TID>]" :: "<AID>" :: "<CTAG>" :: EmptyString :: sections)
  = (tid ← section_text (field self "tid");
     aid ← section_text (field self "aid");
     ctag ← section_text (field self "ctag");
     MaintenanceState.add_sections help verb modifier actual_verb (cmd_fields self)
       ((res ++ [tid; aid; ctag; EmptyString])%list) sections).
Proof.
  cbn [MaintenanceState.add_sections].
  rewrite (ms_add_section_positional _ "[<TID>]" "tid") by reflexivity.
  rewrite ms_getattr_field by reflexivity.
  destruct (section_text (field self "tid")) as [tid|e]; [|reflexivity].
  cbn [mbind result_bind].
  rewrite (ms_add_section_positional _ "<AID>" "aid") by reflexivity.
  rewrite ms_getattr_field by reflexivity.
  destruct (section_text (field self "aid")) as [aid|e]; [|reflexivity].
  cbn [mbind result_bind].
  rewrite (ms_add_section_positional _ "<CTAG>" "ctag") by reflexivity.
  rewrite ms_getattr_field by reflexivity.
  destruct (section_text (field self "ctag")) as [ctag|e]; [|reflexivity].
  cbn [mbind result_bind].
  change (MaintenanceState.add_section help verb modifier actual_verb (cmd_fields self)
            (((res ++ [tid]) ++ [aid]) ++ [ctag]) EmptyString)
    with (Ok (A:=list string) ((((res ++ [tid]) ++ [aid]) ++ [ctag]) ++ [EmptyString])%list).
  cbn [mbind result_bind]. rewrite <- !List.app_assoc. reflexivity.
Qed.
End MaintenanceStateFacts.

Lemma maintenance_state_wire (D : string) (self : TL1BaseCommand) :
  (cmd_class self = IntoAdminMaintenance D ->
   to_string self
   = (aidtype ← Serializer.str_value (field self "aidtype");
      tid ← section_text (field self "tid");
      aid ← section_text (field self "aid");
      ctag ← section_text (field self "ctag");
      last ← match field self "mode", field self "state" with
             | VNone, VNone => Ok EmptyString
             | VNone, v | v, VNone => Serializer.str_value v
             | v1, v2 =>
                 text1 ← Serializer.str_value v1;
                 text2 ← Serializer.str_value v2;
                 Ok (text1 +:+ "," +:+ text2)
             end;
      Ok ("RMV-" +:+ aidtype +:+ ":" +:+ tid +:+ ":" +:+ aid +:+ ":" +:+ ctag +:+ "::"
          +:+ last +:+ ";")))
  /\ (cmd_class self = OutofAdminMaintenance D ->
      to_string self
      = (aidtype ← Serializer.str_value (field self "aidtype");
         tid ← section_text (field self "tid");
         aid ← section_text (field self "aid");
         ctag ← section_text (field self "ctag");
         mode ← section_text (field self "mode");
         Ok ("RST-" +:+ aidtype +:+ ":" +:+ tid +:+ ":" +:+ aid +:+ ":" +:+ ctag +:+ "::"
             +:+ mode +:+ "::;"))).
Proof.
  split; intros Hcls; unfold to_string; rewrite Hcls;
    cbn [to_string_method IntoAdminMaintenance OutofAdminMaintenance];
    unfold MaintenanceState.to_string.
  - replace (tail (Py.split rmv_help_text ":"))
      with ["[<TID>]"; "<AID>"; "<CTAG>"; EmptyString; "[<mode>],[<state>]"]
      by (vm_compute; reflexivity).
    rewrite ms_getattr_field by reflexivity.
    destruct (Serializer.str_value (field self "aidtype")) as [aidtype|e]; [|reflexivity].
    cbn [mbind result_bind]. rewrite ms_add_sections_head.
    destruct (section_text (field self "tid")) as [tid|e]; [|reflexivity].
    destruct (section_text (field self "aid")) as [aid|e]; [|reflexivity].
    destruct (section_text (field self "ctag")) as [ctag|e]; [|reflexivity].
    cbn [mbind result_bind MaintenanceState.add_sections].
    unfold MaintenanceState.add_section.
    change (String.eqb (Py.strip "[<mode>],[<state>]") EmptyString) with false. cbv iota.
    change (Py.split (Py.replace (Py.replace "[<mode>],[<state>]" ",]" "],") "[," ",[") ",")
      with ["[<mode>]"; "[<state>]"].
    cbn [MaintenanceState.add_parts]. unfold MaintenanceState.add_part.
    change (Py.strip_chars "[<mode>]" "[]<>") with "mode".
    change (Py.strip_chars "[<state>]" "[]<>") with "state".
    change (Py.replace (Py.lower "mode") "-" "_") with "mode".
    change (Py.replace (Py.lower "state") "-" "_") with "state".
    rewrite !ms_getattr_field by reflexivity.
    destruct (field self "mode") as [|a|l|l]; destruct (field self "state") as [|b|k|k];
      cbn; rewrite ?app_assoc; reflexivity.
  - replace (tail (Py.split rst_help_text ":"))
      with ["[<TID>]"; "<AID>"; "<CTAG>"; EmptyString; "[<mode>]"; EmptyString; EmptyString]
      by (vm_compute; reflexivity).
    rewrite ms_getattr_field by reflexivity.
    destruct (Serializer.str_value (field self "aidtype")) as [aidtype|e]; [|reflexivity].
    cbn [mbind result_bind]. rewrite ms_add_sections_head.
    destruct (section_text (field self "tid")) as [tid|e]; [|reflexivity].
    destruct (section_text (field self "aid")) as [aid|e]; [|reflexivity].
    destruct (section_text (field self "ctag")) as [ctag|e]; [|reflexivity].
    cbn [mbind result_bind MaintenanceState.add_sections].
    rewrite (ms_add_section_positional _ _ _ _ _ _ "[<mode>]" "mode") by reflexivity.
    rewrite ms_getattr_field by reflexivity.
    destruct (section_text (field self "mode")) as [mode|e]; [|reflexivity].
    cbn. rewrite ?app_assoc. reflexivity.
Qed.


(** X13. The wire strings of commands/maintenance_state.py.  The command
    code is made of the verb RMV (for [IntoAdminMaintenance], registered as
    PUT-MAINTENANCE) or RST (for [OutofAdminMaintenance]) and of [aidtype],
    not of the modifier; with [aidtype] left at its default the code ends
    in the text None.  TID, AID and CTAG follow as for every command; then
    an empty section and the optional parameters that are set, comma
    joined, without a placeholder for one that is not. *)
Theorem maintenance_state_to_string (D : string) (self : TL1BaseCommand) :
  (cmd_class self = IntoAdminMaintenance D ->
   to_string self
   = (aidtype ← Serializer.str_value (field self "aidtype");
      tid ← section_text (field self "tid");
      aid ← section_text (field self "aid");
      ctag ← section_text (field self "ctag");
      last ← match field self "mode", field self "state" with
             | VNone, VNone => Ok EmptyString
             | VNone, v | v, VNone => Serializer.str_value v
             | v1, v2 =>
                 text1 ← Serializer.str_value v1;
                 text2 ← Serializer.str_value v2;
                 Ok (text1 +:+ "," +:+ text2)
             end;
      Ok ("RMV-" +:+ aidtype +:+ ":" +:+ tid +:+ ":" +:+ aid +:+ ":" +:+ ctag +:+ "::"
          +:+ last +:+ ";")))
  /\ (cmd_class self = OutofAdminMaintenance D ->
      to_string self
      = (aidtype ← Serializer.str_value (field self "aidtype");
         tid ← section_text (field self "tid");
         aid ← section_text (field self "aid");
         ctag ← section_text (field self "ctag");
         mode ← section_text (field self "mode");
         Ok ("RST-" +:+ aidtype +:+ ":" +:+ tid +:+ ":" +:+ aid +:+ ":" +:+ ctag +:+ "::"
             +:+ mode +:+ "::;"))).
Proof. apply maintenance_state_wire. Qed.

Lemma maintenance_state_to_string_witness :
  (command ← Serializer.model_init (IntoAdminMaintenance "CTAG")
               [("tid", VAtom (AStr "NE-1")); ("aidtype", VAtom (AStr "SCH"));
                ("aid", VAtom (AStr "1-A-1-L1-1"))];
   to_string command) = Ok "RMV-SCH:NE-1:1-A-1-L1-1:CTAG::;"
  /\ (command ← Serializer.model_init (OutofAdminMaintenance "CTAG")
                  [("tid", VAtom (AStr "NE-1")); ("aid", VAtom (AStr "1-A-1-L1-1"))];
      to_string command) = Ok "RST-None:NE-1:1-A-1-L1-1:CTAG::::;".
Proof.
  split.
  - exact (proj1 (maintenance_state_to_string "CTAG"
      {| cmd_class := IntoAdminMaintenance "CTAG";
         cmd_fields := [("tid", VAtom (AStr "NE-1")); ("aid", VAtom (AStr "1-A-1-L1-1"));
                        ("ctag", VAtom (AStr "CTAG")); ("aidtype", VAtom (AStr "SCH"));
                        ("mode", VNone); ("state", VNone)] |}) eq_refl).
  - exact (proj2 (maintenance_state_to_string "CTAG"
      {| cmd_class := OutofAdminMaintenance "CTAG";
         cmd_fields := [("tid", VAtom (AStr "NE-1")); ("aid", VAtom (AStr "1-A-1-L1-1"));
                        ("ctag", VAtom (AStr "CTAG")); ("aidtype", VNone);
                        ("mode", VNone)] |}) eq_refl).
Defined.
(** ** Hooks that pop without a default *)

Section PopFacts.

Lemma dict_get_del_ne {V : Type} (d : list (string * V)) k k' :
  k <> k' -> dict_get (dict_del d k) k' = dict_get d k'.
Proof.
  intros Hne. induction d as [|[k0 v0] d IH]; [reflexivity|].
  cbn [dict_del dict_get]. destruct (String.eqb_spec k0 k) as [->|Hk].
  - destruct (String.eqb_spec k k') as [->|_]; [contradiction | reflexivity].
  - cbn [dict_get]. rewrite IH. reflexivity.
Qed.

(** A renaming leaves every key other than its two alone. *)
Lemma pop_rename_frame rec new old rec' key :
  pop_rename rec new old = Found rec' -> key <> new -> key <> old ->
  dict_get rec' key = dict_get rec key.
Proof.
  unfold pop_rename. destruct (dict_get rec old) as [v|]; [|discriminate].
  intros [= <-] Hn Ho. rewrite dict_get_set.
  destruct (String.eqb_spec new key) as [->|_]; [contradiction|].
  apply dict_get_del_ne. congruence.
Qed.

Lemma pop_renames_frame renames : forall rec rec' key,
  pop_renames renames rec = Found rec' ->
  ~ In key (map fst renames) -> ~ In key (map snd renames) ->
  dict_get rec' key = dict_get rec key.
Proof.
  induction renames as [|[new old] renames IH]; intros rec rec' key.
  - intros [= <-] _ _. reflexivity.
  - cbn [pop_renames map fst snd In].
    destruct (pop_rename rec new old) as [rec1|k] eqn:E; [|discriminate].
    intros H Hn Ho. rewrite (IH rec1 rec' key H) by tauto.
    apply (pop_rename_frame _ _ _ _ _ E); intros ->; tauto.
Qed.

Lemma first_missing_frame renames rec rec' :
  (forall old, In old (map snd renames) -> dict_get rec' old = dict_get rec old) ->
  first_missing renames rec' = first_missing renames rec.
Proof.
  unfold first_missing. induction (map snd renames) as [|old olds IH]; [reflexivity|].
  intros H. cbn [List.find]. rewrite (H old) by (left; reflexivity).
  destruct (dict_get rec old); [|reflexivity]. apply IH.
  intros old' Hin. apply H. right. exact Hin.
Qed.

(** The chain of renamings of a hook whose keys are all different. *)
Lemma pop_renames_spec renames : forall rec,
  List.NoDup (map fst renames ++ map snd renames) ->
  match first_missing renames rec with
  | Some key => pop_renames renames rec = KeyError key
  | None =>
      exists renamed,
        pop_renames renames rec = Found renamed
        /\ forall new old, In (new, old) renames -> dict_get renamed new = dict_get rec old
  end.
Proof.
  induction renames as [|[new old] renames IH]; intros rec Hnd.
  - cbn. exists rec. split; [reflexivity | intros ? ? []].
  - cbn [map fst snd app] in Hnd. inversion Hnd as [|? ? Hnew Hnd']; subst.
    assert (Hold : ~ In old (map fst renames) /\ ~ In old (map snd renames)
                   /\ List.NoDup (map fst renames ++ map snd renames)).
    { apply List.NoDup_remove in Hnd' as [Hnd' Hold].
      repeat split; [| |exact Hnd']; intros H; apply Hold, in_or_app; tauto. }
    destruct Hold as (Hold1 & Hold2 & Hrest).
    assert (Hnew1 : ~ In new (map fst renames) /\ ~ In new (map snd renames) /\ new <> old).
    { repeat split; intros H; apply Hnew, in_or_app.
      - left. exact H.
      - right. right. exact H.
      - right. left. symmetry. exact H. }
    destruct Hnew1 as (Hnew1 & Hnew2 & Hne).
    unfold first_missing. cbn [map snd List.find pop_renames]. unfold pop_rename.
    destruct (dict_get rec old) as [v|] eqn:Hv; [|reflexivity].
    set (rec1 := dict_set (dict_del rec old) new v).
    assert (Hframe : forall key, key <> new -> key <> old -> dict_get rec1 key = dict_get rec key).
    { intros key Hn Ho. subst rec1. rewrite dict_get_set.
      destruct (String.eqb_spec new key) as [->|_]; [contradiction|].
      apply dict_get_del_ne. congruence. }
    specialize (IH rec1 Hrest).
    fold (first_missing renames rec).
    rewrite <- (first_missing_frame renames rec rec1).
    2:{ intros old' Hin. apply Hframe; intros ->; tauto. }
    destruct (first_missing renames rec1) as [key|]; [exact IH|].
    destruct IH as (renamed & Hr & Hget). exists renamed. split; [exact Hr|].
    intros new' old' [[= <- <-]|Hin].
    + rewrite (pop_renames_frame _ _ _ _ Hr Hnew1 Hnew2).
      subst rec1. rewrite dict_get_set, String.eqb_refl. symmetry. exact Hv.
    + rewrite (Hget _ _ Hin). apply Hframe; intros ->.
      * apply Hnew2. apply (in_map snd) in Hin. exact Hin.
      * apply Hold2. apply (in_map snd) in Hin. exact Hin.
Qed.
End PopFacts.

(** X14. The hooks of [EqptResponse], [OteintfResponse], [OelResponse],
    [OsncResponse] and [OcrsResponse] pop their positional keys without a
    default.  On a record that has all of them the renaming moves each
    value to its new key; on a record that lacks one (a data line with
    fewer sections or parts than the hook expects) it raises [KeyError]
    for the first missing key in the order of the hook's assignments, and
    so does the renaming of the whole response at its first such record. *)
Theorem pop_hooks_key_error (renames : list (string * string)) :
  In renames [EqptResponse.renames; OteintfResponse.renames; OelResponse.renames;
              OsncResponse.renames; OcrsResponse.renames] ->
  (forall rec,
     match first_missing renames rec with
     | Some key => pop_renames renames rec = KeyError key
     | None =>
         exists renamed,
           pop_renames renames rec = Found renamed
           /\ forall new old, In (new, old) renames -> dict_get renamed new = dict_get rec old
     end)
  /\ (forall done rec rest key,
        Forall (fun rec => first_missing renames rec = None) done ->
        first_missing renames rec = Some key ->
        for_each_record (pop_renames renames) (done ++ rec :: rest) = KeyError key)
  /\ (forall parsed_data,
        Forall (fun rec => first_missing renames rec = None) parsed_data ->
        exists renamed, for_each_record (pop_renames renames) parsed_data = Found renamed
                        /\ length renamed = length parsed_data).
Proof.
  intros Hin.
  assert (Hnd : List.NoDup (map fst renames ++ map snd renames)).
  { cbn [In] in Hin.
    destruct Hin as [<-|[<-|[<-|[<-|[<-|[]]]]]]; cbn [map fst snd app];
      repeat (constructor;
              [cbn [In]; intros H; repeat (destruct H as [H|H]; [discriminate H|]); exact H|]);
      constructor. }
  assert (Hrec := fun rec => pop_renames_spec renames rec Hnd).
  split; [exact Hrec|]. split.
  - intros done rec rest key Hdone Hkey.
    induction Hdone as [|rec0 done H0 Hdone IH]; cbn [app for_each_record].
    + specialize (Hrec rec). rewrite Hkey in Hrec. rewrite Hrec. reflexivity.
    + specialize (Hrec rec0). rewrite H0 in Hrec. destruct Hrec as (r0 & -> & _).
      rewrite IH. reflexivity.
  - intros parsed_data Hall.
    induction Hall as [|rec0 l H0 Hall (renamed & IH & Hlen)]; cbn [for_each_record].
    + exists []. split; reflexivity.
    + specialize (Hrec rec0). rewrite H0 in Hrec. destruct Hrec as (r0 & -> & _).
      rewrite IH. exists (r0 :: renamed). split; [reflexivity|]. cbn. rewrite Hlen. reflexivity.
Qed.

Lemma pop_hooks_key_error_witness :
  Parser.parse_line (tl1 "'1-A-1:FMMC12'")
  = Some [("positional_param_0_0", PStr "1-A-1"); ("positional_param_1_0", PStr "FMMC12")]
  /\ EqptResponse.rename_positional_params
       [[("positional_param_0_0", PStr "1-A-1"); ("positional_param_1_0", PStr "FMMC12")]]
     = KeyError "positional_param_3_0".
Proof.
  split; [reflexivity|].
  exact (proj1 (proj2 (pop_hooks_key_error EqptResponse.renames (or_introl eq_refl)))
           [] [("positional_param_0_0", PStr "1-A-1"); ("positional_param_1_0", PStr "FMMC12")]
           [] "positional_param_3_0" (List.Forall_nil _) eq_refl).
Defined.
(** ** The generator and the serializer *)

Section GeneratorFacts.

Lemma lower_char_bar c : Ascii.eqb "|" (Py.lower_char c) = Ascii.eqb "|" c.
Proof. destruct c as [[] [] [] [] [] [] [] []]; vm_compute; reflexivity. Qed.

Lemma lower_char_underscore : Py.lower_char "_" = "_"%char.
Proof. reflexivity. Qed.

Lemma replace_char_cons (a b c : ascii) s :
  Py.replace (String c s) (String a EmptyString) (String b EmptyString)
  = String (if Ascii.eqb a c then b else c)
           (Py.replace s (String a EmptyString) (String b EmptyString)).
Proof.
  unfold Py.replace. cbn [Py.replace_aux Py.startswith String.length Nat.sub].
  destruct (Ascii.eqb a c); reflexivity.
Qed.

Lemma lower_replace_bar s :
  Py.lower (Py.replace s "|" "_") = Py.replace (Py.lower s) "|" "_".
Proof.
  induction s as [|c s IH]; [reflexivity|].
  cbn [Py.lower]. rewrite !replace_char_cons, lower_char_bar. cbn [Py.lower]. rewrite IH.
  destruct (Ascii.eqb "|" c); reflexivity.
Qed.

Lemma replace_replace_comm s :
  Py.replace (Py.replace s "|" "_") "-" "_" = Py.replace (Py.replace s "-" "_") "|" "_".
Proof.
  induction s as [|c s IH]; [reflexivity|].
  rewrite !replace_char_cons, IH. f_equal.
  destruct c as [[] [] [] [] [] [] [] []]; vm_compute; reflexivity.
Qed.

(** [s.split("=")[0]] is the name that [s.split("=", 1)] yields. *)
Lemma split_hd_split_once d s :
  hd EmptyString (Py.split s (String d EmptyString)) = fst (Py.split_once d s).
Proof.
  unfold Py.split. induction s as [|c s IH]; [reflexivity|].
  cbn [Py.split_aux Py.startswith String.length Nat.sub Py.split_once].
  rewrite (Ascii.eqb_sym d c). destruct (Ascii.eqb c d); [reflexivity|].
  destruct (split_aux_cons (String d EmptyString) 0 s) as (x & xs & Hx).
  rewrite Hx in IH |- *. cbn [hd] in IH |- *. rewrite IH.
  destruct (Py.split_once d s). reflexivity.
Qed.
End GeneratorFacts.

(** X15. The generator and the serializer read a template part alike.
    For every part of a help text, the field that the generator declares
    ([parse_param], then the replacement of [-] by [_] of line 91) is the
    attribute whose value [to_string] writes for that part: a part without
    a name adds nothing; if the attribute is [None] the part adds nothing
    either, but for the empty placeholder of a positional parameter that
    is not optional; otherwise it adds the value, after [NAME=] when the
    part is a named parameter. *)
Theorem generator_field_is_serialized (help verb modifier : string) (fields : kwargs)
    (params : list string) (part : string) :
  let '(name, _, optional) := Generator.parse_param part in
  let clean := Py.strip_chars part "[]<>" in
  let named := Py.contains clean "=" in
  Serializer.add_part help verb modifier fields params part
  = if String.eqb clean EmptyString then Ok params
    else
      match Serializer.getattr help verb modifier fields (Py.replace name "-" "_") with
      | VNone =>
          if named || optional then Ok params else Ok ((params ++ [EmptyString])%list)
      | v =>
          if named
          then text ← Serializer.encode_value v;
               Ok ((params ++ [hd EmptyString (Py.split clean "=") +:+ "=" +:+ text])%list)
          else text ← Serializer.str_value v;
               Ok ((params ++ [text])%list)
      end.
Proof.
  unfold Generator.parse_param, Generator.is_optional, Serializer.add_part.
  set (clean := Py.strip_chars part "[]<>").
  set (optional := Py.startswith part "[" && Py.endswith part "]").
  destruct (Py.contains clean "=") eqn:Hnamed; cbn [negb].
  - assert (Hname : Py.lower (hd EmptyString (Py.split clean "="))
                    = Py.lower (fst (Py.split_once "=" clean)))
      by (rewrite split_hd_split_once; reflexivity).
    destruct (Py.split_once "=" clean) as [name values]. cbn [fst] in Hname.
    destruct (Py.contains values "|"); cbv beta iota zeta; rewrite Hname;
      destruct (String.eqb clean EmptyString); try reflexivity;
      destruct (Serializer.getattr _ _ _ _ _); reflexivity.
  - cbv beta iota zeta.
    rewrite lower_replace_bar, replace_replace_comm.
    destruct (String.eqb clean EmptyString); [reflexivity|].
    destruct (Serializer.getattr _ _ _ _ _); try reflexivity.
    cbn [orb]. destruct optional; reflexivity.
Qed.
(** ** The order in which the package imports its modules *)

Section PackageFacts.
Import TL1CommandRegistry.
Implicit Types commands : gmap string TL1CommandClass.

Lemma find_derives_names name classes :
  List.find (derives name) classes <> None -> In name (registered_names classes).
Proof.
  unfold registered_names. induction classes as [|cls classes IH]; [intros []; reflexivity|].
  cbn [List.find List.filter]. unfold derives at 1.
  destruct (String.eqb (class_name cls) "TL1BaseCommand"); cbn [negb andb]; [exact IH|].
  destruct (String.eqb_spec (method_name cls) name) as [<-|Hne].
  - intros _. left. reflexivity.
  - intros H. right. exact (IH H).
Qed.

Lemma registered_names_rev name classes :
  In name (registered_names (rev classes)) -> In name (registered_names classes).
Proof.
  unfold registered_names. rewrite !in_map_iff.
  intros (cls & Hn & Hin). exists cls. split; [exact Hn|].
  apply List.filter_In in Hin as [Hin Hf]. apply List.filter_In. split; [|exact Hf].
  apply in_rev. exact Hin.
Qed.

Lemma disjoint_names_spec m1 m2 name :
  disjoint_names m1 m2 = true ->
  In name (registered_names m1) -> In name (registered_names m2) -> False.
Proof.
  unfold disjoint_names. rewrite forallb_forall. intros H H1 H2.
  specialize (H name H1). apply negb_true_iff in H.
  assert (existsb (String.eqb name) (registered_names m2) = true); [|congruence].
  apply existsb_exists. exists name. split; [exact H2 | apply String.eqb_refl].
Qed.

(** Two modules that share no name can be imported in either order. *)
Lemma import_module_comm commands m1 m2 :
  disjoint_names m1 m2 = true ->
  import_module (import_module commands m1) m2 = import_module (import_module commands m2) m1.
Proof.
  intros Hd. apply map_eq. intros name. rewrite !import_module_find.
  destruct (List.find (derives name) (rev m1)) as [c1|] eqn:E1;
    destruct (List.find (derives name) (rev m2)) as [c2|] eqn:E2; try reflexivity.
  exfalso. apply (disjoint_names_spec m1 m2 name Hd).
  - apply registered_names_rev, find_derives_names. rewrite E1. discriminate.
  - apply registered_names_rev, find_derives_names. rewrite E2. discriminate.
Qed.

Lemma disjoint_names_sym m1 m2 : disjoint_names m1 m2 = true -> disjoint_names m2 m1 = true.
Proof.
  intros H. unfold disjoint_names. apply forallb_forall. intros name H2.
  apply negb_true_iff. destruct (existsb _ _) eqn:E; [|reflexivity].
  apply existsb_exists in E as (n & H1 & En). apply String.eqb_eq in En. subst n.
  exfalso. exact (disjoint_names_spec m1 m2 name H H1 H2).
Qed.

Lemma pairwise_disjoint_perm (ms ms' : list (list TL1CommandClass)) :
  Permutation ms ms' ->
  ForallOrdPairs (fun m1 m2 => disjoint_names m1 m2 = true) ms ->
  ForallOrdPairs (fun m1 m2 => disjoint_names m1 m2 = true) ms'.
Proof.
  induction 1 as [|m ms ms' Hp IH|m1 m2 ms|ms ms' ms'' _ IH1 _ IH2]; intros H.
  - exact H.
  - inversion H as [|? ? Hm Hms]; subst. constructor; [|exact (IH Hms)].
    exact (Permutation_Forall Hp Hm).
  - inversion H as [|? ? Hm2 Hrest]; subst. inversion Hrest as [|? ? Hm1 Hms]; subst.
    inversion Hm2 as [|? ? H21 Hm2']; subst.
    constructor; [constructor; [apply disjoint_names_sym, H21 | exact Hm1]|].
    constructor; assumption.
  - exact (IH2 (IH1 H)).
Qed.
End PackageFacts.

(** X16. The package imports its modules in the order in which the
    directory listing yields them, which no code fixes.  When no two
    modules derive a method name in common, the registry that results is
    the same for every order of the modules: then, and only through names
    derived twice, the listing order cannot decide which class a name
    reaches. *)
Theorem import_package_order (commands : gmap string TL1CommandClass)
    (modules modules' : list (list TL1CommandClass)) :
  Permutation modules modules' ->
  ForallOrdPairs (fun m1 m2 => disjoint_names m1 m2 = true) modules ->
  import_package commands modules = import_package commands modules'.
Proof.
  intros Hp. revert commands.
  induction Hp as [|m ms ms' Hp IH|m1 m2 ms|ms ms' ms'' Hp1 IH1 Hp2 IH2];
    intros commands H.
  - reflexivity.
  - inversion H as [|? ? _ Hms]; subst. unfold import_package. cbn [fold_left].
    exact (IH _ Hms).
  - inversion H as [|? ? Hm2 _]; subst. inversion Hm2 as [|? ? H21 _]; subst.
    unfold import_package. cbn [fold_left].
    rewrite (import_module_comm commands m2 m1 H21). reflexivity.
  - rewrite (IH1 commands H). apply IH2. exact (pairwise_disjoint_perm _ _ Hp1 H).
Qed.

Lemma import_package_order_witness :
  let ots := ots_classes "CTAG" in
  let sch := sch_classes "CTAG" in
  let maintenance := maintenance_state_classes "CTAG" in
  import_package ∅ [ots; sch; maintenance] = import_package ∅ [maintenance; ots; sch]
  /\ size (import_package ∅ [maintenance; ots; sch]) = 9%nat.
Proof.
  intros ots sch maintenance. split; [|vm_compute; reflexivity].
  apply (import_package_order ∅ [ots; sch; maintenance] [maintenance; ots; sch]).
  - apply (Permutation_app_comm [ots; sch] [maintenance]).
  - repeat (constructor; [repeat constructor|]). constructor.
Defined.
(** * Callers *)

(** ** The first free superchannel index *)

Section FreeSchId.
Variables (object_namespace : list string) (commands : gmap string TL1CommandClass).
Variables (flex : FlexILSClient) (port_name : string).

Lemma range_cons (start stop : Z) :
  start < stop -> range start stop = start :: range (start + 1) stop.
Proof.
  intros H. unfold range.
  replace (Z.to_nat (stop - start)) with (S (Z.to_nat (stop - (start + 1)))) by lia.
  cbn [seq map]. f_equal; [lia|].
  rewrite <- seq_shift, map_map. apply map_ext. intros k. lia.
Qed.

Lemma range_nil (start stop : Z) : stop <= start -> range start stop = [].
Proof. intros H. unfold range. replace (Z.to_nat (stop - start)) with O by lia. reflexivity. Qed.

Lemma free_sch_id_loop_range (n : nat) : forall (start i : Z),
  free_sch_id_loop object_namespace commands flex port_name
    (range start (start + Z.of_nat n)) = Ok i
  <-> start <= i < start + Z.of_nat n
      /\ (forall j, start <= j < i ->
            exists r, invoke object_namespace commands flex "rtrv_sch"
                        [("aid", VAtom (AStr (port_name +:+ "-" +:+ pretty j)))] = Ok r)
      /\ (exists device_uuid command response,
            invoke object_namespace commands flex "rtrv_sch"
              [("aid", VAtom (AStr (port_name +:+ "-" +:+ pretty i)))]
            = Raise (TL1CommandDeniedError device_uuid command response)
            /\ Py.contains response "SPECIFIED OBJECT ENTITY DOES NOT EXIST" = true).
Proof.
  induction n as [|n IH]; intros start i.
  - rewrite range_nil by lia. cbn [free_sch_id_loop]. split; [discriminate | lia].
  - rewrite range_cons by lia. cbn [free_sch_id_loop].
    replace (start + Z.of_nat (S n)) with (start + 1 + Z.of_nat n) by lia.
    destruct (invoke object_namespace commands flex "rtrv_sch"
                [("aid", VAtom (AStr (port_name +:+ "-" +:+ pretty start)))])
      as [r|e] eqn:E.
    + rewrite IH. split.
      * intros (Hi & Hbefore & Hdenied). split; [lia|]. split; [|exact Hdenied].
        intros j Hj. destruct (Z.eq_dec j start) as [->|Hne]; [eauto|].
        apply Hbefore. lia.
      * intros (Hi & Hbefore & Hdenied).
        assert (i <> start).
        { intros ->. destruct Hdenied as (u & c & resp & H & _). congruence. }
        split; [lia|]. split; [|exact Hdenied]. intros j Hj. apply Hbefore. lia.
    + assert (Hfirst :
                start <= i < start + 1 + Z.of_nat n ->
                (forall j, start <= j < i ->
                   exists r, invoke object_namespace commands flex "rtrv_sch"
                               [("aid", VAtom (AStr (port_name +:+ "-" +:+ pretty j)))] = Ok r) ->
                i = start).
      { intros Hi Hbefore. destruct (Z.eq_dec i start) as [->|Hne]; [reflexivity|].
        destruct (Hbefore start ltac:(lia)) as [r Hr]. congruence. }
      destruct e as [| | | | | |device_uuid command response];
        try (split; [discriminate|]; intros (Hi & Hbefore & (u & c & resp & Hd & _));
             rewrite (Hfirst Hi Hbefore) in Hd; congruence).
      destruct (Py.contains response "SPECIFIED OBJECT ENTITY DOES NOT EXIST") eqn:Em.
      * split.
        -- intros [= <-]. split; [lia|]. split; [intros j Hj; lia|]. eauto.
        -- intros (Hi & Hbefore & _). rewrite (Hfirst Hi Hbefore). reflexivity.
      * split; [discriminate|]. intros (Hi & Hbefore & (u & c & resp & Hd & Hm)).
        rewrite (Hfirst Hi Hbefore) in Hd. congruence.
Qed.

Lemma free_sch_id_loop_taken (ids : list Z) :
  Forall (fun j => exists r, invoke object_namespace commands flex "rtrv_sch"
                     [("aid", VAtom (AStr (port_name +:+ "-" +:+ pretty j)))] = Ok r) ids ->
  free_sch_id_loop object_namespace commands flex port_name ids
  = Raise (ValueError ("Could not find a free superchannel index for port " +:+ port_name)).
Proof.
  induction 1 as [|j ids [r Hr] _ IH]; [reflexivity|].
  cbn [free_sch_id_loop]. rewrite Hr. exact IH.
Qed.

Lemma range_bounds (start stop j : Z) : In j (range start stop) -> start <= j < stop.
Proof.
  unfold range. rewrite in_map_iff. intros (k & <- & Hk). apply in_seq in Hk. lia.
Qed.
End FreeSchId.

(** X17. [_find_first_free_sch_id] probes the superchannels [port-1] to
    [port-128] in order with RTRV-SCH.  It returns [i] exactly when [i] is
    the least index whose retrieval is denied with the phrase SPECIFIED
    OBJECT ENTITY DOES NOT EXIST in the response, all retrievals before it
    having returned a response; the result then lies between 1 and 128.
    When all 128 retrievals return a response it raises [ValueError].  (Any
    other failure of a retrieval ends the search with that failure, so
    neither case applies.) *)
Theorem find_first_free_sch_id_least (object_namespace : list string)
    (commands : gmap string TL1CommandClass) (flex : FlexILSClient) (port_name : string) :
  let probe j := invoke object_namespace commands flex "rtrv_sch"
                   [("aid", VAtom (AStr (port_name +:+ "-" +:+ pretty j)))] in
  (forall i : Z,
     _find_first_free_sch_id object_namespace commands flex port_name = Ok i
     <-> 1 <= i <= 128
         /\ (forall j, 1 <= j < i -> exists r, probe j = Ok r)
         /\ (exists device_uuid command response,
               probe i = Raise (TL1CommandDeniedError device_uuid command response)
               /\ Py.contains response "SPECIFIED OBJECT ENTITY DOES NOT EXIST" = true))
  /\ ((forall j, 1 <= j <= 128 -> exists r, probe j = Ok r) ->
      _find_first_free_sch_id object_namespace commands flex port_name
      = Raise (ValueError ("Could not find a free superchannel index for port " +:+ port_name))).
Proof.
  intros probe. unfold _find_first_free_sch_id. cbv zeta. split.
  - intros i. change (128 + 1) with (1 + Z.of_nat 128).
    rewrite free_sch_id_loop_range. subst probe. cbv beta.
    split; intros (Hi & H); (split; [lia | exact H]).
  - intros Hall. apply free_sch_id_loop_taken. apply List.Forall_forall.
    intros j Hj%range_bounds. apply Hall. lia.
Qed.
(** ** Opening a shutter *)

Section OpenShutter.
Variables (object_namespace : list string) (commands : gmap string TL1CommandClass).
Variables (tnms : TnmsClient) (device_uuid device_name : string).

(** A call of a method that the registry held when the client was built,
    with keyword arguments that name neither [tid] nor a parameter of
    [_execute_command]. *)
Lemma invoke_registered name cls kw :
  commands !! name = Some cls ->
  Client.clash ["self"; "command_cls"] kw = None ->
  existsb (String.eqb "tid") (dict_keys kw) = false ->
  invoke object_namespace commands (flexils commands tnms device_uuid device_name) name kw
  = (command ← Serializer.model_init cls (("tid", VAtom (AStr device_name)) :: kw);
     Client.execute command (flexils commands tnms device_uuid device_name)).
Proof.
  intros Hcls Hclash Htid. unfold invoke, Client.getattribute, flexils.
  cbn [bound_methods Client.__init__]. rewrite init_command_methods_lookup, Hcls.
  cbn [mbind result_bind Client.call]. unfold Client.method. rewrite Hclash.
  unfold Client._execute_command, Client.construct. rewrite Htid. reflexivity.
Qed.
End OpenShutter.

Section EdSchFacts.
Lemma model_init_fields cls args fields :
  Serializer.init_fields args (model_fields cls) = Ok fields ->
  Serializer.model_init cls args = Ok {| cmd_class := cls; cmd_fields := fields |}.
Proof. intros H. unfold Serializer.model_init. rewrite H. reflexivity. Qed.

(** The wire string of ED-SCH with the shutter state as only parameter. *)
Lemma ed_sch_shutter_to_string (D tid aid state : string) :
  In state ["OPEN"; "CLOSED"] ->
  (command ← Serializer.model_init (EditSch D)
               [("tid", VAtom (AStr tid)); ("aid", VAtom (AStr aid));
                ("shutterstate", VAtom (AStr state))];
   to_string command)
  = Ok ("ED-SCH:" +:+ tid +:+ ":" +:+ aid +:+ ":" +:+ D +:+ ":::SHUTTERSTATE=" +:+ state +:+ ":;").
Proof.
  intros Hstate.
  assert (Hinit : exists fields,
    Serializer.model_init (EditSch D)
      [("tid", VAtom (AStr tid)); ("aid", VAtom (AStr aid));
       ("shutterstate", VAtom (AStr state))]
    = Ok {| cmd_class := EditSch D; cmd_fields := fields |}
    /\ dict_get fields "tid" = Some (VAtom (AStr tid))
    /\ dict_get fields "aid" = Some (VAtom (AStr aid))
    /\ dict_get fields "ctag" = Some (VAtom (AStr D))
    /\ forall res,
         Serializer.add_sections (help_text (EditSch D)) "ED" "SCH" fields res
           (skipn 4 (Py.split (help_text (EditSch D)) ":"))
         = Ok (((((res ++ [EmptyString]) ++ [EmptyString])
                  ++ ["SHUTTERSTATE=" +:+ state]) ++ [EmptyString])%list)).
  { cbn [In] in Hstate. destruct Hstate as [<-|[<-|[]]];
      (eexists; split; [apply model_init_fields; vm_compute; reflexivity|]);
      (split; [reflexivity|]); (split; [reflexivity|]); (split; [reflexivity|]);
      intros res; vm_compute; reflexivity. }
  destruct Hinit as (fields & -> & Htid & Haid & Hctag & Hrest).
  cbn [mbind result_bind].
  set (self := {| cmd_class := EditSch D; cmd_fields := fields |}).
  change (to_string self)
    with (Serializer.to_string (help_text (EditSch D)) "ED" "SCH" (cmd_fields self)).
  unfold Serializer.to_string.
  replace (tail (Py.split (help_text (EditSch D)) ":"))
    with ("[<TID>]" :: "<AID>" :: "<CTAG>" :: skipn 4 (Py.split (help_text (EditSch D)) ":"))
    by (vm_compute; reflexivity).
  rewrite (add_sections_head _ "ED" "SCH" self _ false).
  unfold field. subst self. cbn [cmd_fields]. rewrite Htid, Haid, Hctag.
  cbn [default from_option id section_text Serializer.str_value str mbind result_bind].
  rewrite Hrest. cbn. f_equal. rewrite !app_assoc. reflexivity.
Qed.
End EdSchFacts.

Section MaintenanceSch.
Variables (D tid aid : string).

(** The wire strings of the two maintenance commands on a superchannel. *)
Lemma rmv_sch_to_string :
  (command ← Serializer.model_init (IntoAdminMaintenance D)
               [("tid", VAtom (AStr tid)); ("aidtype", VAtom (AStr "SCH"));
                ("aid", VAtom (AStr aid))];
   to_string command)
  = Ok ("RMV-SCH:" +:+ tid +:+ ":" +:+ aid +:+ ":" +:+ D +:+ "::;").
Proof.
  rewrite (model_init_fields _ _
             [("tid", VAtom (AStr tid)); ("aid", VAtom (AStr aid));
              ("ctag", VAtom (AStr D)); ("aidtype", VAtom (AStr "SCH"));
              ("mode", VNone); ("state", VNone)])
    by (vm_compute; reflexivity).
  cbn [mbind result_bind].
  match goal with
  | |- to_string ?c = _ => rewrite (proj1 (maintenance_state_wire D c) eq_refl)
  end.
  reflexivity.
Qed.

Lemma rst_sch_to_string :
  (command ← Serializer.model_init (OutofAdminMaintenance D)
               [("tid", VAtom (AStr tid)); ("aidtype", VAtom (AStr "SCH"));
                ("aid", VAtom (AStr aid))];
   to_string command)
  = Ok ("RST-SCH:" +:+ tid +:+ ":" +:+ aid +:+ ":" +:+ D +:+ "::::;").
Proof.
  rewrite (model_init_fields _ _
             [("tid", VAtom (AStr tid)); ("aid", VAtom (AStr aid));
              ("ctag", VAtom (AStr D)); ("aidtype", VAtom (AStr "SCH"));
              ("mode", VNone)])
    by (vm_compute; reflexivity).
  cbn [mbind result_bind].
  match goal with
  | |- to_string ?c = _ => rewrite (proj2 (maintenance_state_wire D c) eq_refl)
  end.
  reflexivity.
Qed.
End MaintenanceSch.

(** X18. [_open_shutter] on a registry that holds the maintenance classes
    and [EditSch] under their names.  It builds three commands with the
    device name as TID and the default tag, and executes them in this
    order, stopping at the first that fails: RMV-SCH (the superchannel
    goes into maintenance), ED-SCH with SHUTTERSTATE=OPEN, and RST-SCH.
    The superchannel AID is written into each as it is. *)
Theorem open_shutter_commands (object_namespace : list string)
    (commands : gmap string TL1CommandClass) (D : string) (tnms : TnmsClient)
    (device_uuid device_name sch_aid : string) :
  commands !! "put_maintenance" = Some (IntoAdminMaintenance D) ->
  commands !! "ed_sch" = Some (EditSch D) ->
  commands !! "rst_maintenance" = Some (OutofAdminMaintenance D) ->
  exists rmv ed rst : TL1BaseCommand,
    to_string rmv
    = Ok ("RMV-SCH:" +:+ device_name +:+ ":" +:+ sch_aid +:+ ":" +:+ D +:+ "::;")
    /\ to_string ed
       = Ok ("ED-SCH:" +:+ device_name +:+ ":" +:+ sch_aid +:+ ":" +:+ D
             +:+ ":::SHUTTERSTATE=OPEN:;")
    /\ to_string rst
       = Ok ("RST-SCH:" +:+ device_name +:+ ":" +:+ sch_aid +:+ ":" +:+ D +:+ "::::;")
    /\ _open_shutter object_namespace commands tnms device_uuid device_name sch_aid
       = (let flex := flexils commands tnms device_uuid device_name in
          _ ← Client.execute rmv flex;
          _ ← Client.execute ed flex;
          _ ← Client.execute rst flex;
          Ok tt).
Proof.
  intros Hput Hed Hrst.
  pose proof (rmv_sch_to_string D device_name sch_aid) as Hs1.
  pose proof (ed_sch_shutter_to_string D device_name sch_aid "OPEN" (or_introl eq_refl))
    as Hs2.
  pose proof (rst_sch_to_string D device_name sch_aid) as Hs3.
  unfold _open_shutter. cbv zeta.
  rewrite (invoke_registered object_namespace commands tnms device_uuid device_name
             "put_maintenance" (IntoAdminMaintenance D)
             [("aidtype", VAtom (AStr "SCH")); ("aid", VAtom (AStr sch_aid))]
             Hput eq_refl eq_refl).
  rewrite (invoke_registered object_namespace commands tnms device_uuid device_name
             "ed_sch" (EditSch D)
             [("aid", VAtom (AStr sch_aid)); ("shutterstate", VAtom (AStr "OPEN"))]
             Hed eq_refl eq_refl).
  rewrite (invoke_registered object_namespace commands tnms device_uuid device_name
             "rst_maintenance" (OutofAdminMaintenance D)
             [("aidtype", VAtom (AStr "SCH")); ("aid", VAtom (AStr sch_aid))]
             Hrst eq_refl eq_refl).
  destruct (Serializer.model_init (IntoAdminMaintenance D) _) as [rmv|e];
    [|discriminate Hs1].
  destruct (Serializer.model_init (EditSch D) _) as [ed|e]; [|discriminate Hs2].
  destruct (Serializer.model_init (OutofAdminMaintenance D) _) as [rst|e];
    [|discriminate Hs3].
  cbn [mbind result_bind] in Hs1, Hs2, Hs3.
  exists rmv, ed, rst. rewrite Hs1, Hs2, Hs3. repeat (split; [reflexivity|]).
  reflexivity.
Qed.
Lemma open_shutter_commands_witness :
  let commands := import_package ∅ [sch_classes "CTAG"; maintenance_state_classes "CTAG"] in
  let tnms := fixed_reply "M  CTAG COMPLD" in
  _open_shutter [] commands tnms "uuid-1" "NE-1" "1-A-1-L1-1" = Ok tt
  /\ exists rmv ed rst : TL1BaseCommand,
       to_string rmv = Ok "RMV-SCH:NE-1:1-A-1-L1-1:CTAG::;"
       /\ to_string ed = Ok "ED-SCH:NE-1:1-A-1-L1-1:CTAG:::SHUTTERSTATE=OPEN:;"
       /\ to_string rst = Ok "RST-SCH:NE-1:1-A-1-L1-1:CTAG::::;"
       /\ _open_shutter [] commands tnms "uuid-1" "NE-1" "1-A-1-L1-1"
          = (let flex := flexils commands tnms "uuid-1" "NE-1" in
             _ ← Client.execute rmv flex;
             _ ← Client.execute ed flex;
             _ ← Client.execute rst flex;
             Ok tt).
Proof.
  intros commands tnms. split; [vm_compute; reflexivity|].
  exact (open_shutter_commands [] commands "CTAG" tnms "uuid-1" "NE-1" "1-A-1-L1-1"
           eq_refl eq_refl eq_refl).
Defined.
(** * The round trip of a serialized command *)

(** ** What the serializer writes for a template *)

Section SerializedParams.
Variables (help verb modifier : string) (fields : kwargs).







End SerializedParams.

(** ** What the parser makes of these parameters *)

Section ParsedParams.






Variable all : kwargs.
Hypothesis all_functional :
  forall name v v', In (name, v) all -> In (name, v') all -> v = v'.
Hypothesis all_named :
  forall name v, In (name, v) all -> Py.startswith name "positional_param_" = false.








End ParsedParams.

(** ** A whole line *)

Section ParsedLine.





Variable all : kwargs.
Hypothesis all_functional :
  forall name v v', In (name, v) all -> In (name, v') all -> v = v'.
Hypothesis all_named :
  forall name v, In (name, v) all -> Py.startswith name "positional_param_" = false.

End ParsedLine.

(** ** From the template to the record *)

Section TemplateParams.
Variable fields : kwargs.








End TemplateParams.




